(** * The host OCI builder of [pkg/oci]: a shallow embedding

    The builder of [pkg/oci/builder.go] and [pkg/oci/go_builder.go] is
    embedded function by function.  Go strings are [string]s, byte
    slices are lists of [Z] below 256, the file system is a finite map
    from resolved paths to nodes, and every function that touches the
    disk threads the state of the machine explicitly. *)

From Stdlib Require Import ZArith List Bool Ascii String Lia.
From stdpp Require Import base option list gmap strings sorting.

Open Scope string_scope.
Open Scope Z_scope.
Open Scope list_scope.

Set Default Proof Using "Type".

(** ** Go's [strings], [strconv] and [path/filepath] (Unix) *)

Module Path.

Definition Separator : ascii := "/"%char.

(** [strings.Split(s, "/")]. *)
Fixpoint split (s : string) : list string :=
  match s with
  | EmptyString => [EmptyString]
  | String c s' =>
      if Ascii.eqb c Separator then EmptyString :: split s'
      else match split s' with
           | h :: t => String c h :: t
           | [] => [String c EmptyString]
           end
  end.

(** [strings.Join(elems, "/")]. *)
Fixpoint join (elems : list string) : string :=
  match elems with
  | [] => EmptyString
  | [e] => e
  | e :: rest => e +:+ String Separator (join rest)
  end.

Definition IsAbs (p : string) : bool :=
  match p with
  | String c _ => Ascii.eqb c Separator
  | EmptyString => false
  end.

(** The element stack of [Clean]: [out] holds the elements kept so
    far, last one first.  An empty element and [.] are dropped; [..]
    removes the element before it, is dropped at the root of a rooted
    path, and is kept at the front of a relative one. *)
Fixpoint clean_onto (rooted : bool) (out : list string) (elems : list string)
  : list string :=
  match elems with
  | [] => out
  | e :: rest =>
      if String.eqb e "" || String.eqb e "." then clean_onto rooted out rest
      else if String.eqb e ".." then
        match out with
        | top :: below =>
            if String.eqb top ".." then clean_onto rooted (e :: out) rest
            else clean_onto rooted below rest
        | [] =>
            if rooted then clean_onto rooted [] rest
            else clean_onto rooted [e] rest
        end
      else clean_onto rooted (e :: out) rest
  end.

(** The elements of [Clean(p)], first one first. *)
Definition elements (p : string) : list string :=
  rev (clean_onto (IsAbs p) [] (split p)).

Definition print (rooted : bool) (elems : list string) : string :=
  if rooted then String Separator (join elems)
  else match elems with
       | [] => "."
       | _ => join elems
       end.

Definition Clean (p : string) : string := print (IsAbs p) (elements p).

(** [filepath.Join]: the elements from the first non-empty one on,
    joined and cleaned; the empty string when there is none. *)
Fixpoint Join (elem : list string) : string :=
  match elem with
  | [] => ""
  | e :: rest => if String.eqb e "" then Join rest else Clean (join elem)
  end.

(** [filepath.Dir]: the path up to and including its last separator,
    cleaned. *)
Definition Dir (p : string) : string :=
  match split p with
  | [] | [_] => Clean ""
  | elems => Clean (join (removelast elems) +:+ String Separator "")
  end.

Definition Base (p : string) : string :=
  match elements p with
  | [] => if IsAbs p then "/" else "."
  | elems => List.last elems ""
  end.

(** Strips the elements two cleaned paths share at the front. *)
Fixpoint differ (base targ : list string) : list string * list string :=
  match base, targ with
  | b :: base', t :: targ' =>
      if String.eqb b t then differ base' targ' else (base, targ)
  | _, _ => (base, targ)
  end.

(** [filepath.Rel]: [targ] relative to [base], or the error of a pair
    that cannot be related lexically (one rooted and the other not, or
    [base] climbing above the point where the two part). *)
Definition Rel (basepath targpath : string) : option string :=
  if String.eqb (Clean targpath) (Clean basepath) then Some "."
  else if negb (Bool.eqb (IsAbs basepath) (IsAbs targpath)) then None
  else
    let '(b, t) := differ (elements basepath) (elements targpath) in
    match b with
    | ".." :: _ => None
    | [] => Some (join t)
    | _ => Some (join (map (fun _ => "..") b ++ t))
    end.

(** [strings.HasPrefix]. *)
Definition HasPrefix (s pre : string) : bool := String.prefix pre s.

(** A name that is one element of a path: not empty, not [.] or [..],
    and free of separators. *)
Definition plain (name : string) : bool :=
  negb (String.eqb name "") && negb (String.eqb name ".")
  && negb (String.eqb name "..")
  && match split name with [_] => true | _ => false end.

End Path.


Module Str.

Definition digit (d : Z) : ascii := ascii_of_N (Z.to_N (48 + d)).

(** The decimal digits of a positive number, most significant first;
    [fuel] bounds their count. *)
Fixpoint digits (fuel : nat) (n : Z) (acc : string) : string :=
  match fuel with
  | O => acc
  | S fuel' =>
      let acc' := String (digit (n mod 10)) acc in
      if n / 10 =? 0 then acc' else digits fuel' (n / 10) acc'
  end.

(** [strconv.Itoa]. *)
Definition Itoa (n : Z) : string :=
  if n <? 0 then String "-" (digits (Z.to_nat (Z.log2 (- n)) + 1) (- n) "")
  else digits (Z.to_nat (Z.log2 n) + 1) n "".

Definition digit_value (c : ascii) : option Z :=
  let n := Z.of_N (N_of_ascii c) in
  if (48 <=? n) && (n <=? 57) then Some (n - 48) else None.

Fixpoint read_digits (s : string) (acc : Z) : option Z :=
  match s with
  | EmptyString => Some acc
  | String c s' =>
      match digit_value c with
      | Some d => read_digits s' (10 * acc + d)
      | None => None
      end
  end.

(** [strconv.Atoi] on a 64-bit platform: an optional sign, then one or
    more decimal digits; [None] is the syntax or range error. *)
Definition Atoi (s : string) : option Z :=
  let signed (neg : bool) (body : string) :=
    match body with
    | EmptyString => None
    | _ =>
        match read_digits body 0 with
        | Some n =>
            let v := if neg then - n else n in
            if (- 2 ^ 63 <=? v) && (v <? 2 ^ 63) then Some v else None
        | None => None
        end
    end in
  match s with
  | String "-" body => signed true body
  | String "+" body => signed false body
  | _ => signed false s
  end.

Definition bytes_of (s : string) : list Z :=
  map (fun c => Z.of_N (N_of_ascii c)) (list_ascii_of_string s).

Definition of_bytes (bs : list Z) : string :=
  string_of_list_ascii (map (fun b => ascii_of_N (Z.to_N b)) bs).

(** The characters with the Unicode property White_Space, which are
    the ones [unicode.IsSpace] accepts, each by the bytes of its UTF-8
    encoding: U+0009 to U+000D, U+0020, U+0085, U+00A0, U+1680, U+2000
    to U+200A, U+2028, U+2029, U+202F, U+205F and U+3000. *)
Definition spaces : list (list Z) :=
  [[9]; [10]; [11]; [12]; [13]; [32]; [194; 133]; [194; 160]; [225; 154; 128]]
  ++ map (fun b => [226; 128; b]) [128; 129; 130; 131; 132; 133; 134; 135; 136; 137; 138]
  ++ [[226; 128; 168]; [226; 128; 169]; [226; 128; 175]; [226; 129; 159]; [227; 128; 128]].

(** What follows [pre] in [bs], when [bs] begins with it. *)
Fixpoint strip (pre bs : list Z) : option (list Z) :=
  match pre, bs with
  | [], _ => Some bs
  | p :: pre', b :: bs' => if p =? b then strip pre' bs' else None
  | _ :: _, [] => None
  end.

(** What follows the white-space character at the front of [bs], when
    there is one; [runes] are the encodings to look for. *)
Definition after_space (runes : list (list Z)) (bs : list Z) : option (list Z) :=
  fold_right (fun r found =>
                match strip r bs with
                | Some rest => Some rest
                | None => found
                end) None runes.

Fixpoint trim_front (fuel : nat) (runes : list (list Z)) (bs : list Z) : list Z :=
  match fuel with
  | O => bs
  | S fuel' =>
      match after_space runes bs with
      | Some rest => trim_front fuel' runes rest
      | None => bs
      end
  end.

(** [strings.TrimSpace]: the white-space characters at the front go,
    then those at the end, which are found reading the bytes from the
    end.  Bytes that are no UTF-8 are no white space. *)
Definition TrimSpace (s : string) : string :=
  let front := trim_front (length (bytes_of s)) spaces (bytes_of s) in
  of_bytes (rev (trim_front (length front) (map (@rev Z) spaces) (rev front))).

Definition hexdigit (n : Z) : ascii :=
  if n <? 10 then ascii_of_N (Z.to_N (48 + n)) else ascii_of_N (Z.to_N (87 + n)).

(** Eight lower-case hexadecimal digits of a 32-bit word, as
    [hex.EncodeToString] prints its four bytes. *)
Definition hex32 (w : Z) : list ascii :=
  map (fun sh => hexdigit (Z.land (Z.shiftr w sh) 15)) [28; 24; 20; 16; 12; 8; 4; 0].

End Str.

(** ** [crypto/sha256] (FIPS 180-4) *)

Module Sha256.

Definition w32 (x : Z) : Z := Z.land x 4294967295.
Definition add32 (x y : Z) : Z := w32 (x + y).
Definition rotr (n x : Z) : Z := w32 (Z.lor (Z.shiftr x n) (Z.shiftl x (32 - n))).
Definition shr (n x : Z) : Z := Z.shiftr x n.
Definition xor3 (a b c : Z) : Z := Z.lxor a (Z.lxor b c).

Definition Ch (x y z : Z) : Z := Z.lxor (Z.land x y) (Z.land (w32 (Z.lnot x)) z).
Definition Maj (x y z : Z) : Z := xor3 (Z.land x y) (Z.land x z) (Z.land y z).
Definition Sigma0 (x : Z) : Z := xor3 (rotr 2 x) (rotr 13 x) (rotr 22 x).
Definition Sigma1 (x : Z) : Z := xor3 (rotr 6 x) (rotr 11 x) (rotr 25 x).
Definition sigma0 (x : Z) : Z := xor3 (rotr 7 x) (rotr 18 x) (shr 3 x).
Definition sigma1 (x : Z) : Z := xor3 (rotr 17 x) (rotr 19 x) (shr 10 x).

Definition is_prime (n : Z) : bool :=
  forallb (fun d => negb (n mod d =? 0) || (n <=? d))%bool
          (map Z.of_nat (seq 2 17)).

(** The first sixty-four primes. *)
Definition primes : list Z :=
  Eval vm_compute in filter (fun n => is_prime n) (map Z.of_nat (seq 2 310)).

(** The integer cube root, one bit at a time. *)
Fixpoint cbrt_bits (bit : nat) (n r : Z) : Z :=
  match bit with
  | O => r
  | S b =>
      let r' := r + 2 ^ Z.of_nat b in
      cbrt_bits b n (if r' * r' * r' <=? n then r' else r)
  end.

(** The round constants: the first 32 bits of the fractional parts of
    the cube roots of the primes. *)
Definition K : list Z :=
  Eval vm_compute in map (fun p => w32 (cbrt_bits 36 (p * 2 ^ 96) 0)) primes.

(** The initial hash value: the same of the square roots of the first
    eight primes. *)
Definition H0 : list Z :=
  Eval vm_compute in map (fun p => w32 (Z.sqrt (p * 2 ^ 64))) (firstn 8 primes).

Definition be_bytes (count : nat) (x : Z) : list Z :=
  map (fun i => Z.land (Z.shiftr x (8 * Z.of_nat i)) 255) (rev (seq 0 count)).

(** The message, the bit 1, zero bits up to 56 modulo 64 bytes, and the
    length in bits on 8 bytes. *)
Definition pad (msg : list Z) : list Z :=
  let len := Z.of_nat (length msg) in
  let zeros := Z.to_nat ((55 - len) mod 64) in
  msg ++ [128] ++ repeat 0 zeros ++ be_bytes 8 (8 * len).

Fixpoint words (fuel : nat) (bs : list Z) : list Z :=
  match fuel, bs with
  | S fuel', a :: b :: c :: d :: rest =>
      (((a * 256 + b) * 256 + c) * 256 + d) :: words fuel' rest
  | _, _ => []
  end.

(** Extends the sixteen words of a block to the sixty-four of the
    schedule; [w] holds the schedule last word first. *)
Fixpoint schedule (count : nat) (w : list Z) : list Z :=
  match count with
  | O => rev w
  | S count' =>
      let at_ i := nth i w 0 in
      schedule count'
        (add32 (add32 (sigma1 (at_ 1%nat)) (at_ 6%nat))
               (add32 (sigma0 (at_ 14%nat)) (at_ 15%nat)) :: w)
  end.

Definition regs : Type := Z * Z * Z * Z * Z * Z * Z * Z.

Definition round (r : regs) (kw : Z * Z) : regs :=
  let '(a, b, c, d, e, f, g, h) := r in
  let t1 := add32 (add32 (add32 h (Sigma1 e)) (add32 (Ch e f g) (fst kw))) (snd kw) in
  let t2 := add32 (Sigma0 a) (Maj a b c) in
  (add32 t1 t2, a, b, c, add32 d t1, e, f, g).

Definition compress (h : regs) (block : list Z) : regs :=
  let w := schedule 48 (rev block) in
  let '(a, b, c, d, e, f, g, h') := fold_left round (combine K w) h in
  let '(a0, b0, c0, d0, e0, f0, g0, h0) := h in
  (add32 a0 a, add32 b0 b, add32 c0 c, add32 d0 d,
   add32 e0 e, add32 f0 f, add32 g0 g, add32 h0 h').

Fixpoint blocks (fuel : nat) (h : regs) (ws : list Z) : regs :=
  match fuel, ws with
  | S fuel', _ :: _ => blocks fuel' (compress h (firstn 16 ws)) (skipn 16 ws)
  | _, _ => h
  end.

Definition initial : regs :=
  match H0 with
  | [a; b; c; d; e; f; g; h] => (a, b, c, d, e, f, g, h)
  | _ => (0, 0, 0, 0, 0, 0, 0, 0)
  end.

Definition Sum256 (msg : string) : regs :=
  let bs := pad (Str.bytes_of msg) in
  let ws := words (length bs) bs in
  blocks (length ws) initial ws.

(** [hex.EncodeToString(h.Sum(nil))]. *)
Definition Hex (msg : string) : string :=
  let '(a, b, c, d, e, f, g, h) := Sum256 msg in
  string_of_list_ascii (concat (map Str.hex32 [a; b; c; d; e; f; g; h])).

End Sha256.

(** ** Errors and the state of the machine *)

Inductive errno := ENOENT | EEXIST | ENOTDIR | EISDIR | ELOOP | EINVAL.

(** Go [error] values: the error of the build in progress, the
    [*PathError] and [*LinkError] of package [os], a message made by
    [errors.New], and an error wrapped with [%w]. *)
Inductive error :=
| ErrBuildInProgress (dir : string)
| PathError (op path : string) (e : errno)
| LinkError (op old new : string) (e : errno)
| ErrorNew (msg : string)
| Wrapped (msg : string) (cause : error).

Inductive result (A : Type) :=
| Ok (a : A)
| Err (e : error).
Arguments Ok {A} a.
Arguments Err {A} e.

Definition errno_eqb (a b : errno) : bool :=
  match a, b with
  | ENOENT, ENOENT | EEXIST, EEXIST | ENOTDIR, ENOTDIR
  | EISDIR, EISDIR | ELOOP, ELOOP | EINVAL, EINVAL => true
  | _, _ => false
  end.

(** [os.IsNotExist]. *)
Definition IsNotExist {A} (r : result A) : bool :=
  match r with
  | Err (PathError _ _ ENOENT) | Err (LinkError _ _ _ ENOENT) => true
  | _ => false
  end.

Module Fs.

Inductive kind :=
| Directory
| Regular (data : string)
| SymLink (target : string).

(** An entry of the file system with the part of its [stat] the builder
    reads: permission bits and owner. *)
Record node := Node { kind_of : kind; perm : Z; uid : Z; gid : Z }.

(** Equality of resolved paths. *)
Fixpoint keq (a b : list string) : bool :=
  match a, b with
  | [], [] => true
  | x :: a', y :: b' => String.eqb x y && keq a' b'
  | _, _ => false
  end.

(** The entries of a file system by their resolved absolute paths,
    each path given by its elements; the first entry for a path is the
    one that counts. *)
Definition tree : Type := list (list string * node).

Fixpoint find (t : tree) (k : list string) : option node :=
  match t with
  | [] => None
  | (k', n) :: t' => if keq k' k then Some n else find t' k
  end.

(** The entries whose path satisfies [P]. *)
Fixpoint keep (P : list string -> bool) (t : tree) : tree :=
  match t with
  | [] => []
  | (k, n) :: t' => if P k then (k, n) :: keep P t' else keep P t'
  end.

Definition del (k : list string) (t : tree) : tree :=
  keep (fun k' => negb (keq k k')) t.

Definition put (k : list string) (n : node) (t : tree) : tree :=
  (k, n) :: del k t.

(** The machine as the builder sees it.  [files] holds the entry at
    each resolved absolute path; the root
    directory is the empty list and always exists.  [live] lists the
    ids of the other processes this process can reach, which on Unix
    are those that take signal 0 from it and on Windows those it can
    open, [self] is
    [os.Getpid()], [euid] and [egid] own what the process creates, and
    [windows] says whether [runtime.GOOS] is "windows".  The working
    directory of the process is the root directory. *)
Record sys := Sys {
  files : tree;
  live : list Z;
  self : Z;
  euid : Z;
  egid : Z;
  umask : Z;
  windows : bool;
}.

Definition with_files (st : sys) (t : tree) : sys :=
  Sys t (live st) (self st) (euid st) (egid st) (umask st) (windows st).

Definition root_node : node := Node Directory 493 0 0.

Definition lookup (t : tree) (k : list string) : option node :=
  match k with
  | [] => Some root_node
  | _ => find t k
  end.

Definition created (st : sys) (k : kind) (mode : Z) : node :=
  Node k (Z.land mode (Z.lnot (umask st))) (euid st) (egid st).

(** Path resolution as the kernel and [filepath.EvalSymlinks] do it,
    one element at a time from the resolved directory [dest]: an empty
    element and [.] stay, [..] goes to the parent, a symbolic link is
    replaced by its target (from the root when the target is rooted),
    and at most [links] links are followed. *)
Fixpoint resolve (links : nat) (t : tree)
  : list string -> list string -> option errno + list string :=
  fix go (dest rest : list string) {struct rest} :=
    match rest with
    | [] => inr dest
    | c :: rest' =>
        if String.eqb c "" || String.eqb c "." then go dest rest'
        else if String.eqb c ".." then go (removelast dest) rest'
        else
          match lookup t (dest ++ [c]) with
          | None => inl (Some ENOENT)
          | Some n =>
              match kind_of n with
              | Directory => go (dest ++ [c]) rest'
              | Regular _ =>
                  match rest' with
                  | [] => inr (dest ++ [c])
                  | _ => inl (Some ENOTDIR)
                  end
              | SymLink target =>
                  match links with
                  | O => inl (Some ELOOP)
                  | S links' =>
                      resolve links' t
                        (if Path.IsAbs target then [] else dest)
                        (Path.split target ++ rest')
                  end
              end
          end
    end.

(** The kernel follows 40 links, [filepath.EvalSymlinks] 255. *)
Definition MAXSYMLINKS : nat := 40.

Definition errno_of (e : option errno) : errno :=
  match e with Some e => e | None => EINVAL end.

(** [k] is a directory. *)
Definition directory (t : tree) (k : list string) : bool :=
  match lookup t k with
  | Some n => match kind_of n with Directory => true | _ => false end
  | None => false
  end.

(** Where [path] leads, links followed to the end; the empty path
    leads nowhere. *)
Definition follow (st : sys) (op path : string) : result (list string) :=
  if String.eqb path "" then Err (PathError op path ENOENT)
  else
    match resolve MAXSYMLINKS (files st) [] (Path.split path) with
    | inr k => Ok k
    | inl e => Err (PathError op path (errno_of e))
    end.

(** Where the entry named by [path] is or would be: its last element
    taken as it stands in the directory the elements before it lead
    to, which must be one.  A path that ends in a separator, in [.] or
    in [..] names a directory and is followed to it. *)
Definition locate (st : sys) (op path : string) : result (list string) :=
  match rev (Path.split path) with
  | [] => Err (PathError op path ENOENT)
  | name :: up =>
      if String.eqb name "" || String.eqb name "." || String.eqb name ".." then
        match follow st op path with
        | Ok k =>
            if directory (files st) k then Ok k else Err (PathError op path ENOTDIR)
        | Err e => Err e
        end
      else
        match resolve MAXSYMLINKS (files st) [] (rev up) with
        | inr d =>
            if directory (files st) d then Ok (d ++ [name])
            else Err (PathError op path ENOTDIR)
        | inl e => Err (PathError op path (errno_of e))
        end
  end.

Record FileInfo := {
  fi_name : string;
  fi_size : Z;
  fi_kind : kind;
  fi_perm : Z;
  fi_uid : Z;
  fi_gid : Z;
}.

Definition info_of (path : string) (n : node) : FileInfo :=
  {| fi_name := Path.Base path;
     fi_size := match kind_of n with
                | Regular data => Z.of_nat (String.length data)
                | _ => 0
                end;
     fi_kind := kind_of n;
     fi_perm := perm n;
     fi_uid := uid n;
     fi_gid := gid n |}.

Definition IsDir (fi : FileInfo) : bool :=
  match fi_kind fi with Directory => true | _ => false end.
Definition IsRegular (fi : FileInfo) : bool :=
  match fi_kind fi with Regular _ => true | _ => false end.
Definition IsSymlink (fi : FileInfo) : bool :=
  match fi_kind fi with SymLink _ => true | _ => false end.

Definition entry_at (st : sys) (op path : string) (k : list string) : result node :=
  match lookup (files st) k with
  | Some n => Ok n
  | None => Err (PathError op path ENOENT)
  end.

(** [os.Stat]. *)
Definition Stat (st : sys) (path : string) : result FileInfo :=
  match follow st "stat" path with
  | Ok k =>
      match entry_at st "stat" path k with
      | Ok n => Ok (info_of path n)
      | Err e => Err e
      end
  | Err e => Err e
  end.

(** [os.Lstat]. *)
Definition Lstat (st : sys) (path : string) : result FileInfo :=
  match locate st "lstat" path with
  | Ok k =>
      match entry_at st "lstat" path k with
      | Ok n => Ok (info_of path n)
      | Err e => Err e
      end
  | Err e => Err e
  end.

(** [os.Readlink]. *)
Definition Readlink (st : sys) (path : string) : result string :=
  match locate st "readlink" path with
  | Ok k =>
      match entry_at st "readlink" path k with
      | Ok n =>
          match kind_of n with
          | SymLink target => Ok target
          | _ => Err (PathError "readlink" path EINVAL)
          end
      | Err e => Err e
      end
  | Err e => Err e
  end.

(** [os.ReadFile]: open and read to the end. *)
Definition ReadFile (st : sys) (path : string) : result string :=
  match follow st "open" path with
  | Ok k =>
      match entry_at st "open" path k with
      | Ok n =>
          match kind_of n with
          | Regular data => Ok data
          | _ => Err (PathError "read" path EISDIR)
          end
      | Err e => Err e
      end
  | Err e => Err e
  end.

(** The rest of [k] below [dir], when [k] is [dir] or under it. *)
Fixpoint below (dir k : list string) : option (list string) :=
  match dir, k with
  | [], _ => Some k
  | d :: dir', c :: k' => if String.eqb d c then below dir' k' else None
  | _ :: _, [] => None
  end.

(** The name under which [k] is listed in [dir]: a directory lists
    names of one element, and never [.] or [..]. *)
Definition child_of (dir k : list string) : option string :=
  match below dir k with
  | Some [name] => if Path.plain name then Some name else None
  | _ => None
  end.

Definition name_le (a b : string) : Prop := Is_true (String.leb a b).

(** A sorted list with each name once. *)
Fixpoint uniq (l : list string) : list string :=
  match l with
  | a :: (b :: _) as rest => if String.eqb a b then uniq rest else a :: uniq rest
  | _ => l
  end.

(** The names in a directory, sorted as [os.ReadDir] returns them. *)
Definition names_in (t : tree) (dir : list string) : list string :=
  uniq (merge_sort name_le (omap (fun kn => child_of dir (fst kn)) t)).

(** [os.ReadDir]. *)
Definition ReadDir (st : sys) (path : string) : result (list string) :=
  match follow st "open" path with
  | Ok k =>
      match entry_at st "open" path k with
      | Ok n =>
          match kind_of n with
          | Directory => Ok (names_in (files st) k)
          | _ => Err (PathError "readdirent" path ENOTDIR)
          end
      | Err e => Err e
      end
  | Err e => Err e
  end.

Definition outside (dir : list string) (k : list string) : bool :=
  match below dir k with Some _ => false | None => true end.

(** [os.RemoveAll]: the entry and all below it go; a path that leads
    nowhere is no error.  Removal itself does not fail here: the model
    has no permissions that could stop it. *)
Definition RemoveAll (st : sys) (path : string) : result unit * sys :=
  match locate st "RemoveAll" path with
  | Ok k => (Ok tt, with_files st (keep (outside k) (files st)))
  | Err _ => (Ok tt, st)
  end.

(** The loop of [os.MkdirAll] from the top: an element that is a
    directory, or a link to one, is entered; one that is missing is
    made; anything else is the error. *)
Fixpoint mkdir_all (st : sys) (path : string) (mode : Z)
    (t : tree) (dest rest : list string)
  : result unit * sys :=
  match rest with
  | [] => (Ok tt, with_files st t)
  | c :: rest' =>
      if String.eqb c "" || String.eqb c "." then mkdir_all st path mode t dest rest'
      else if String.eqb c ".." then mkdir_all st path mode t (removelast dest) rest'
      else
        match lookup t (dest ++ [c]) with
        | None =>
            mkdir_all st path mode (put (dest ++ [c]) (created st Directory mode) t)
                      (dest ++ [c]) rest'
        | Some n =>
            match kind_of n with
            | Directory => mkdir_all st path mode t (dest ++ [c]) rest'
            | Regular _ => (Err (PathError "mkdir" path ENOTDIR), with_files st t)
            | SymLink _ =>
                match resolve MAXSYMLINKS t dest [c] with
                | inr d =>
                    match lookup t d with
                    | Some (Node Directory _ _ _) => mkdir_all st path mode t d rest'
                    | _ => (Err (PathError "mkdir" path ENOTDIR), with_files st t)
                    end
                | inl (Some ENOENT) => (Err (PathError "mkdir" path EEXIST), with_files st t)
                | inl e => (Err (PathError "mkdir" path (errno_of e)), with_files st t)
                end
            end
        end
  end.

(** [os.MkdirAll]. *)
Definition MkdirAll (st : sys) (path : string) (mode : Z) : result unit * sys :=
  mkdir_all st path mode (files st) [] (Path.split path).

(** [os.Symlink]: a new link at [path], which must not exist. *)
Definition Symlink (st : sys) (target path : string) : result unit * sys :=
  match locate st "symlink" path with
  | Ok k =>
      match lookup (files st) k with
      | Some _ => (Err (LinkError "symlink" target path EEXIST), st)
      | None => (Ok tt, with_files st (put k (created st (SymLink target) 511) (files st)))
      end
  | Err (PathError _ _ e) => (Err (LinkError "symlink" target path e), st)
  | Err e => (Err e, st)
  end.

(** [os.Link]: a second name for the bytes of a file.  Nothing in the
    builder writes into a file that has two names, so the model does
    not track that the two share their bytes. *)
Definition Link (st : sys) (old new : string) : result unit * sys :=
  match locate st "link" old, locate st "link" new with
  | Ok ko, Ok kn =>
      match lookup (files st) ko, lookup (files st) kn with
      | None, _ => (Err (LinkError "link" old new ENOENT), st)
      | Some _, Some _ => (Err (LinkError "link" old new EEXIST), st)
      | Some n, None =>
          match kind_of n with
          | Directory => (Err (LinkError "link" old new EINVAL), st)
          | _ => (Ok tt, with_files st (put kn n (files st)))
          end
      end
  | Err (PathError _ _ e), _ | _, Err (PathError _ _ e) =>
      (Err (LinkError "link" old new e), st)
  | Err e, _ | _, Err e => (Err e, st)
  end.

(** [os.Rename] of something that is not a directory: the entry moves
    to the new name and replaces a file or link there. *)
Definition Rename (st : sys) (old new : string) : result unit * sys :=
  match locate st "rename" old, locate st "rename" new with
  | Ok ko, Ok kn =>
      match lookup (files st) ko with
      | None => (Err (LinkError "rename" old new ENOENT), st)
      | Some n =>
          match kind_of n, kind_of <$> lookup (files st) kn with
          | Directory, _ => (Err (LinkError "rename" old new EINVAL), st)
          | _, Some Directory => (Err (LinkError "rename" old new EISDIR), st)
          | _, _ => (Ok tt, with_files st (put kn n (del ko (files st))))
          end
      end
  | Err (PathError _ _ e), _ | _, Err (PathError _ _ e) =>
      (Err (LinkError "rename" old new e), st)
  | Err e, _ | _, Err e => (Err e, st)
  end.

(** Opening [path] with [O_CREATE|O_TRUNC] (as [os.Create] and
    [os.WriteFile] do) and writing [data]: an existing file is
    truncated, a missing one is made in its resolved directory. *)
Definition WriteFile (st : sys) (path data : string) (mode : Z) : result unit * sys :=
  match follow st "open" path with
  | Ok k =>
      match lookup (files st) k with
      | Some (Node (Regular _) p u g) =>
          (Ok tt, with_files st (put k (Node (Regular data) p u g) (files st)))
      | _ => (Err (PathError "open" path EISDIR), st)
      end
  | Err _ =>
      match locate st "open" path with
      | Ok k =>
          match lookup (files st) k with
          | None => (Ok tt, with_files st (put k (created st (Regular data) mode) (files st)))
          | Some _ => (Err (PathError "open" path ENOENT), st)
          end
      | Err e => (Err e, st)
      end
  end.

(** [filepath.EvalSymlinks] followed by [filepath.Abs]; the result is
    given by its elements from the root. *)
Definition EvalSymlinks (st : sys) (path : string) : result (list string) :=
  match resolve 255 (files st) [] (Path.split path) with
  | inr k => Ok k
  | inl e => Err (PathError "lstat" path (errno_of e))
  end.

(** [process.Signal(syscall.Signal(0))] succeeds. *)
Definition signal0 (st : sys) (pid : Z) : bool :=
  (pid =? self st) || existsb (Z.eqb pid) (live st).

(** [os.FindProcess] succeeds: on Unix always, on Windows when there
    is a process of that id to open. *)
Definition FindProcess (st : sys) (pid : Z) : bool :=
  if windows st then (pid =? self st) || existsb (Z.eqb pid) (live st) else true.

End Fs.

(** ** Data of [archive/tar], go-containerregistry's [v1] and [fn] *)

Inductive typeflag := TypeReg | TypeDir | TypeSymlink.

(** [tar.Header], the fields the builder sets or inherits. *)
Record Header := {
  Typeflag : typeflag;
  Name : string;
  Linkname : string;
  Size : Z;
  Mode : Z;
  Uid : Z;
  Gid : Z;
}.

(** What a [tar.Writer] has written: each header with the bytes copied
    after it. *)
Definition tarWriter : Type := list (Header * string).

(** [tar.FileInfoHeader]: type, size and link from the file, mode from
    its permission bits, owner from its [stat]. *)
Definition FileInfoHeader (fi : Fs.FileInfo) (link : string) : result Header :=
  Ok match Fs.fi_kind fi with
     | Fs.Regular _ =>
         {| Typeflag := TypeReg; Name := Fs.fi_name fi; Linkname := "";
            Size := Fs.fi_size fi; Mode := Fs.fi_perm fi;
            Uid := Fs.fi_uid fi; Gid := Fs.fi_gid fi |}
     | Fs.Directory =>
         {| Typeflag := TypeDir; Name := Fs.fi_name fi +:+ "/"; Linkname := "";
            Size := 0; Mode := Fs.fi_perm fi;
            Uid := Fs.fi_uid fi; Gid := Fs.fi_gid fi |}
     | Fs.SymLink _ =>
         {| Typeflag := TypeSymlink; Name := Fs.fi_name fi; Linkname := link;
            Size := 0; Mode := Fs.fi_perm fi;
            Uid := Fs.fi_uid fi; Gid := Fs.fi_gid fi |}
     end.

Record Platform := {
  OS : string;
  Architecture : string;
  Variant : string;
  OSVersion : string;
}.

Record Hash := { Algorithm : string; Hex : string }.

Record Descriptor := {
  MediaType : string;
  D_Size : Z;
  Digest : Hash;
  D_Platform : option Platform;
}.

(** A [v1.Layer], by what its methods return; [Compressed] gives the
    bytes its reader delivers and the error that ends the reading, if
    one does. *)
Record Layer := {
  L_Digest : result Hash;
  L_DiffID : result Hash;
  L_Size : result Z;
  L_Compressed : result (string * option error);
}.

Record imageLayer := { IL_Descriptor : Descriptor; IL_Layer : Layer }.

(** A point in time with its zone offset in minutes east of UTC. *)
Record Time := {
  year : Z; month : Z; day : Z;
  hour : Z; minute : Z; second : Z;
  zone : Z;
}.

Record History := {
  Author : string;
  H_Created : Time;
  Comment : string;
  EmptyLayer : bool;
}.

Record RootFS := { RF_Type : string; DiffIDs : list Hash }.

Record Config := {
  Env : list string;
  Volumes : gset string;
  ExposedPorts : gset string;
  WorkingDir : string;
  StopSignal : string;
  User : string;
  Cmd : list string;
}.

Record ConfigFile := {
  Created : Time;
  CF_Architecture : string;
  CF_OS : string;
  CF_OSVersion : string;
  CF_Variant : string;
  CF_Config : Config;
  CF_History : list History;
  CF_RootFS : RootFS;
}.

Record Manifest := {
  SchemaVersion : Z;
  M_MediaType : string;
  M_Config : Descriptor;
  Layers : list Descriptor;
}.

Record IndexManifest := {
  I_SchemaVersion : Z;
  I_MediaType : string;
  Manifests : list Descriptor;
}.

(** A [v1.Image], by what its methods return. *)
Record Image := {
  Img_Layers : result (list Layer);
  Img_ConfigFile : result ConfigFile;
  Img_Manifest : result Manifest;
}.

(** What [json.Encoder.Encode] is given. *)
Inductive jsonData :=
| JConfig (cf : ConfigFile)
| JManifest (m : Manifest)
| JIndex (ix : IndexManifest).

(** [fn.Platform]. *)
Record fnPlatform := { fnOS : string; fnArchitecture : string; fnVariant : string }.

(** [fn.Function], the fields the builder reads.  [Envs_Slice] is what
    [f.Run.Envs.Slice()] returns and a volume's [Path] is a pointer
    that may be nil. *)
Record Function := {
  Root : string;
  Runtime : string;
  Invoke : string;
  BaseImage : string;
  Envs_Slice : list string;
  Run_Volumes : list (option string);
}.

(** [buildJob]; its [languageBuilder] travels beside it, and its
    context is part of what the subprocesses and the registry answer. *)
Record buildJob := {
  start : Time;
  hash : string;
  function : Function;
  platforms : list Platform;
  verbose : bool;
}.

(** The [languageBuilder] interface. *)
Record languageBuilder := {
  Base : string -> string;
  WriteShared : buildJob -> Fs.sys -> result (list imageLayer) * Fs.sys;
  WritePlatform : buildJob -> Platform -> Fs.sys -> result (list imageLayer) * Fs.sys;
  Configure : buildJob -> Platform -> ConfigFile -> result ConfigFile;
}.

(** What a registry serves for a layer: the digest its manifest
    declares, the bytes that arrive, and the error that cuts the
    transfer short, if one does. *)
Record served := {
  declared : Hash;
  body : string;
  broken : option error;
  diff_id : result Hash;
}.

(** ** The collaborators of the builder

    Everything the builder calls outside its package and the Go
    library: the fingerprint of a project, the scaffolding, the
    subprocesses, the registry, the encoders and the clock. *)
Record World := {
  Now : Time;
  Getenv : string -> string;
  Environ : list string;
  Fingerprint : Fs.sys -> string -> result string;
  scaffolding_Write : string -> string -> string -> string -> Fs.sys -> result unit * Fs.sys;
  git_describe : string -> string -> Fs.sys -> result string;
  go_run : string -> list string -> list string -> string -> Fs.sys -> result unit * Fs.sys;
  registry : string -> Platform -> result (list served * result ConfigFile * result Manifest);
  tar_encode : tarWriter -> string;
  deflate : string -> string;
  inflate : string -> result string;
  json_Encode : jsonData -> result string;
  pythonBuilder : languageBuilder;
}.

(** ** [builder.go] *)

Definition DefaultUid : Z := 1000.
Definition DefaultGid : Z := 1000.

Definition defaultIgnored : list string :=
  [".git"; ".func"; ".funcignore"; ".gitignore"].

(** [fn.RunDataDir] and [fn.DefaultPlatforms], declared in package
    [functions]: the directory the ignore list and the layout name, and
    the platforms the comment on [Build] lists. *)
Definition RunDataDir : string := ".func".
Definition DefaultPlatforms : list fnPlatform :=
  [ {| fnOS := "linux"; fnArchitecture := "amd64"; fnVariant := "" |};
    {| fnOS := "linux"; fnArchitecture := "arm64"; fnVariant := "" |};
    {| fnOS := "linux"; fnArchitecture := "arm"; fnVariant := "v7" |} ].

(** Computations on the machine that may fail. *)
Definition M (A : Type) : Type := Fs.sys -> result A * Fs.sys.

Definition ret {A} (a : A) : M A := fun st => (Ok a, st).
Definition fail {A} (e : error) : M A := fun st => (Err e, st).
Definition bind {A B} (m : M A) (k : A -> M B) : M B :=
  fun st =>
    match m st with
    | (Ok a, st') => k a st'
    | (Err e, st') => (Err e, st')
    end.
(** A value read off the machine, and a result that needs none. *)
Definition read {A} (f : Fs.sys -> result A) : M A := fun st => (f st, st).
Definition lift {A} (r : result A) : M A := fun st => (r, st).

Notation "x <- m ;; k" := (bind m (fun x => k))
  (at level 90, m at next level, right associativity).
Notation "m ;;; k" := (bind m (fun _ => k))
  (at level 90, right associativity).

Definition lastLink (j : buildJob) : string :=
  Path.Join [Root (function j); RunDataDir; "builds"; "last"].
Definition pidsDir (j : buildJob) : string :=
  Path.Join [Root (function j); RunDataDir; "builds"; "by-pid"].
Definition pidLink (j : buildJob) (st : Fs.sys) : string :=
  Path.Join [Root (function j); RunDataDir; "builds"; "by-pid"; Str.Itoa (Fs.self st)].
Definition buildsDir (j : buildJob) : string :=
  Path.Join [Root (function j); RunDataDir; "builds"; "by-hash"].
Definition buildDir (j : buildJob) : string :=
  Path.Join [Root (function j); RunDataDir; "builds"; "by-hash"; hash j].
Definition ociDir (j : buildJob) : string :=
  Path.Join [Root (function j); RunDataDir; "builds"; "by-hash"; hash j; "oci"].
Definition blobsDir (j : buildJob) : string :=
  Path.Join [Root (function j); RunDataDir; "builds"; "by-hash"; hash j; "oci"; "blobs"; "sha256"].
Definition cacheDir (j : buildJob) : string :=
  Path.Join [Root (function j); RunDataDir; "blob-cache"].

(** [processExists]: the name is a number, [os.FindProcess] finds the
    process and, except on Windows, the process takes signal 0. *)
Definition processExists (st : Fs.sys) (pid : string) : bool :=
  match Str.Atoi pid with
  | None => false
  | Some p =>
      if negb (Fs.FindProcess st p) then false
      else if Fs.windows st then true
      else Fs.signal0 st p
  end.

(** [isLinkTo]: both sides resolved and made absolute, then compared. *)
Definition isLinkTo (st : Fs.sys) (link target : string) : bool :=
  match Fs.EvalSymlinks st link with
  | Err _ => false
  | Ok link' =>
      match Fs.EvalSymlinks st target with
      | Err _ => false
      | Ok target' => Fs.keq link' target'
      end
  end.

(** [os.ReadDir] with its error dropped, as [dd, _ := os.ReadDir(..)]. *)
Definition entries (st : Fs.sys) (dir : string) : list string :=
  match Fs.ReadDir st dir with
  | Ok dd => dd
  | Err _ => []
  end.

Definition isActive (j : buildJob) (st : Fs.sys) : bool :=
  existsb (fun d =>
             let link := Path.Join [pidsDir j; d] in
             processExists st d && isLinkTo st link (buildDir j))
          (entries st (pidsDir j)).

Definition setup (job : buildJob) : M unit :=
  fun st =>
    if isActive job st then (Err (ErrBuildInProgress (buildDir job)), st)
    else
      (_ <- (fun st =>
               if negb (IsNotExist (Fs.Stat st (buildDir job)))
               then Fs.RemoveAll st (buildDir job)
               else (Ok tt, st)) ;;
       _ <- (fun st => Fs.MkdirAll st (buildDir job) 508) ;;
       _ <- (fun st =>
               if IsNotExist (Fs.Stat st (pidsDir job))
               then Fs.MkdirAll st (pidsDir job) 508
               else (Ok tt, st)) ;;
       let target := Path.Join [".."; "by-hash"; hash job] in
       _ <- (fun st => Fs.Symlink st target (pidLink job st)) ;;
       _ <- (fun st => Fs.MkdirAll st (blobsDir job) 511) ;;
       _ <- (fun st => Fs.MkdirAll st (cacheDir job) 511) ;;
       ret tt) st.

(** The first loop of [cleanup], over the names read from [by-pid]. *)
Fixpoint cleanup_pids (job : buildJob) (dd : list string) (st : Fs.sys) : Fs.sys :=
  match dd with
  | [] => st
  | d :: dd' =>
      if processExists st d then cleanup_pids job dd' st
      else
        let dir := Path.Join [pidsDir job; d] in
        cleanup_pids job dd' (snd (Fs.RemoveAll st dir))
  end.

(** The second loop, over the names read from [by-hash]. *)
Fixpoint cleanup_builds (job : buildJob) (dd : list string) (st : Fs.sys) : Fs.sys :=
  match dd with
  | [] => st
  | d :: dd' =>
      let dir := Path.Join [buildsDir job; d] in
      if isLinkTo st (lastLink job) dir then cleanup_builds job dd' st
      else if isActive job st then cleanup_builds job dd' st
      else cleanup_builds job dd' (snd (Fs.RemoveAll st dir))
  end.

Definition cleanup (job : buildJob) (st : Fs.sys) : Fs.sys :=
  let st1 := cleanup_pids job (entries st (pidsDir job)) st in
  cleanup_builds job (entries st1 (buildsDir job)) st1.

(** [scaffold]; [fn.NewRepository("", "")] hands over the embedded
    templates, which are part of what the scaffolding writes. *)
Definition scaffold (w : World) (job : buildJob) : M unit :=
  scaffolding_Write w (buildDir job) (Root (function job))
                    (Runtime (function job)) (Invoke (function job)).

Definition updateLastLink (job : buildJob) : M unit :=
  fun st =>
    let st1 := snd (Fs.RemoveAll st (lastLink job)) in
    match Path.Rel (Path.Dir (lastLink job)) (buildDir job) with
    | None => (Err (ErrorNew "Rel: can't make path relative"), st1)
    | Some rp => Fs.Symlink st1 rp (lastLink job)
    end.

Definition OCILayer : string := "application/vnd.oci.image.layer.v1.tar+gzip".
Definition OCIConfigJSON : string := "application/vnd.oci.image.config.v1+json".
Definition OCIManifestSchema1 : string := "application/vnd.oci.image.manifest.v1+json".
Definition OCIImageIndex : string := "application/vnd.oci.image.index.v1+json".

Definition ErrAbsoluteLink : error := ErrorNew "project may not contain absolute links".
Definition ErrLinkEscapesRoot : error := ErrorNew "links must stay within project root".
Definition ErrRel : error := ErrorNew "Rel: can't make path relative".

(** [validatedLinkTarget]. *)
Definition validatedLinkTarget (st : Fs.sys) (root path : string) : result string :=
  match Fs.Readlink st path with
  | Err e => Err (Wrapped "cannot read link" e)
  | Ok tgt =>
      if Path.IsAbs tgt then Err ErrAbsoluteLink
      else
        let lnkTgt := Path.Join [Path.Dir path; tgt] in
        match Path.Rel root lnkTgt with
        | None => Err ErrRel
        | Some relLnkTgt =>
            if Path.HasPrefix relLnkTgt "../" || String.eqb relLnkTgt ".."
            then Err ErrLinkEscapesRoot
            else Ok tgt
        end
  end.

(** What a [filepath.WalkFunc] returns besides nil. *)
Inductive walkErr :=
| SkipDir
| Stop (e : error).

(** The function [newDataTarball] hands to [filepath.Walk]; [tw] is
    what the tar writer holds. *)
Definition walkFn (st : Fs.sys) (root : string) (ignored : list string)
    (path : string) (info : option Fs.FileInfo) (err : option error)
    (tw : tarWriter) : option walkErr * tarWriter :=
  match err, info with
  | Some e, _ => (Some (Stop e), tw)
  | None, None => (Some (Stop (PathError "lstat" path EINVAL)), tw)
  | None, Some info =>
      if existsb (String.eqb (Fs.fi_name info)) ignored then
        if Fs.IsDir info then (Some SkipDir, tw) else (None, tw)
      else
        match (if Fs.IsSymlink info then validatedLinkTarget st root path else Ok "") with
        | Err e => (Some (Stop e), tw)
        | Ok lnk =>
            match FileInfoHeader info lnk with
            | Err e => (Some (Stop e), tw)
            | Ok header =>
                match Path.Rel root path with
                | None => (Some (Stop ErrRel), tw)
                | Some relPath =>
                    let header :=
                      {| Typeflag := Typeflag header;
                         Name := Path.Join ["/func"; relPath];
                         Linkname := Linkname header;
                         Size := Size header;
                         Mode := Mode header;
                         Uid := DefaultUid;
                         Gid := DefaultGid |} in
                    if negb (Fs.IsRegular info) then (None, tw ++ [(header, "")])
                    else
                      match Fs.ReadFile st path with
                      | Err e => (Some (Stop e), tw ++ [(header, "")])
                      | Ok data => (None, tw ++ [(header, data)])
                      end
                end
            end
        end
  end.

Definition WalkFunc : Type :=
  string -> option Fs.FileInfo -> option error -> tarWriter -> option walkErr * tarWriter.

(** The loop of [filepath.walk] over the names of a directory; [rec]
    walks one entry. *)
Fixpoint walk_names (st : Fs.sys) (fn : WalkFunc)
    (rec : string -> Fs.FileInfo -> tarWriter -> option walkErr * tarWriter)
    (path : string) (names : list string) (tw : tarWriter)
  : option walkErr * tarWriter :=
  match names with
  | [] => (None, tw)
  | name :: rest =>
      let filename := Path.Join [path; name] in
      match Fs.Lstat st filename with
      | Err e =>
          match fn filename None (Some e) tw with
          | (Some (Stop e'), tw') => (Some (Stop e'), tw')
          | (_, tw') => walk_names st fn rec path rest tw'
          end
      | Ok fileInfo =>
          match rec filename fileInfo tw with
          | (None, tw') => walk_names st fn rec path rest tw'
          | (Some SkipDir, tw') =>
              if Fs.IsDir fileInfo then walk_names st fn rec path rest tw'
              else (Some SkipDir, tw')
          | (Some (Stop e'), tw') => (Some (Stop e'), tw')
          end
      end
  end.

(** [filepath.walk]; [depth] bounds how deep it descends. *)
Fixpoint walk (depth : nat) (st : Fs.sys) (fn : WalkFunc) (path : string)
    (info : Fs.FileInfo) (tw : tarWriter) : option walkErr * tarWriter :=
  match depth with
  | O => (Some (Stop (PathError "open" path ELOOP)), tw)
  | S depth' =>
      if negb (Fs.IsDir info) then fn path (Some info) None tw
      else
        let names := Fs.ReadDir st path in
        let '(err1, tw1) :=
          fn path (Some info) (match names with Err e => Some e | Ok _ => None end) tw in
        match names, err1 with
        | Ok names, None => walk_names st fn (walk depth' st fn) path names tw1
        | _, _ => (err1, tw1)
        end
  end.

(** [filepath.Walk]. *)
Definition Walk (st : Fs.sys) (root : string) (fn : WalkFunc) (tw : tarWriter)
  : option error * tarWriter :=
  let '(err, tw') :=
    match Fs.Lstat st root with
    | Err e => fn root None (Some e) tw
    | Ok info => walk (S (length (Fs.files st))) st fn root info tw
    end in
  match err with
  | Some (Stop e) => (Some e, tw')
  | _ => (None, tw')
  end.

(** The two bytes every gzip stream starts with. *)
Definition gzip_magic : string := String "031" (String "139" "").

(** What a [gzip.Writer] around a [tar.Writer] leaves in the file once
    both are closed. *)
Definition targz (w : World) (tw : tarWriter) : string :=
  gzip_magic +:+ deflate w (tar_encode w tw).

(** A tarball function after [os.Create(target)]: the file holds the
    archive of what was written, also when the writing stopped on an
    error. *)
Definition written (w : World) (target : string) (out : option error * tarWriter) : M unit :=
  fun st =>
    match Fs.WriteFile st target (targz w (snd out)) 438 with
    | (Err e, st') => (Err e, st')
    | (Ok _, st') =>
        match fst out with
        | Some e => (Err e, st')
        | None => (Ok tt, st')
        end
    end.

Definition newDataTarball (w : World) (root target : string) (ignored : list string)
  : M unit :=
  (fun st => Fs.WriteFile st target "" 438) ;;;
  (fun st => written w target (Walk st root (walkFn st root ignored) []) st).

(** [tarball.LayerFromFile]: digest and size of the file as it is
    stored and diff id of its content, all read when the layer is made.
    A file that is not compressed yet is compressed on the way. *)
Definition LayerFromFile (w : World) (path : string) : M Layer :=
  data <- read (fun st => Fs.ReadFile st path) ;;
  if String.prefix gzip_magic data then
    plain <- lift (inflate w data) ;;
    ret {| L_Digest := Ok {| Algorithm := "sha256"; Hex := Sha256.Hex data |};
           L_DiffID := Ok {| Algorithm := "sha256"; Hex := Sha256.Hex plain |};
           L_Size := Ok (Z.of_nat (String.length data));
           L_Compressed := Ok (data, None) |}
  else
    let packed := gzip_magic +:+ deflate w data in
    ret {| L_Digest := Ok {| Algorithm := "sha256"; Hex := Sha256.Hex packed |};
           L_DiffID := Ok {| Algorithm := "sha256"; Hex := Sha256.Hex data |};
           L_Size := Ok (Z.of_nat (String.length packed));
           L_Compressed := Ok (packed, None) |}.

Definition newDescriptor (layer : Layer) : result Descriptor :=
  match L_Size layer with
  | Err e => Err e
  | Ok size =>
      match L_Digest layer with
      | Err e => Err e
      | Ok digest =>
          Ok {| MediaType := OCILayer; D_Size := size; Digest := digest;
                D_Platform := None |}
      end
  end.

Definition writeDataLayer (w : World) (job : buildJob) : M imageLayer :=
  let source := Root (function job) in
  let target := Path.Join [buildDir job; "datalayer.tar.gz"] in
  newDataTarball w source target defaultIgnored ;;;
  layer <- LayerFromFile w target ;;
  desc <- lift (newDescriptor layer) ;;
  let blob := Path.Join [blobsDir job; Hex (Digest desc)] in
  (fun st => Fs.Rename st target blob) ;;;
  ret {| IL_Descriptor := desc; IL_Layer := layer |}.

Definition certs_paths : list string :=
  ["/etc/ssl/certs/ca-certificates.crt"; "/etc/pki/tls/certs/ca-certificates.crt"].

(** The loop of [newCertsTarball] over the two paths. *)
Fixpoint certs_entries (st : Fs.sys) (source : string) (fi : Fs.FileInfo)
    (paths : list string) (tw : tarWriter) : option error * tarWriter :=
  match paths with
  | [] => (None, tw)
  | path :: rest =>
      match FileInfoHeader fi "" with
      | Err e => (Some e, tw)
      | Ok header =>
          let header :=
            {| Typeflag := Typeflag header; Name := path;
               Linkname := Linkname header; Size := Size header;
               Mode := Mode header; Uid := DefaultUid; Gid := DefaultGid |} in
          match Fs.ReadFile st source with
          | Err e => (Some e, tw ++ [(header, "")])
          | Ok data => certs_entries st source fi rest (tw ++ [(header, data)])
          end
      end
  end.

Definition newCertsTarball (w : World) (source target : string) : M unit :=
  (fun st => Fs.WriteFile st target "" 438) ;;;
  (fun st =>
     match Fs.Stat st source with
     | Err e => written w target (Some e, []) st
     | Ok fi => written w target (certs_entries st source fi certs_paths []) st
     end).

Definition writeCertsLayer (w : World) (job : buildJob) : M imageLayer :=
  let source := Path.Join [buildDir job; "ca-certificates.crt"] in
  let target := Path.Join [buildDir job; "certslayer.tar.gz"] in
  newCertsTarball w source target ;;;
  layer <- LayerFromFile w target ;;
  desc <- lift (newDescriptor layer) ;;
  let blob := Path.Join [blobsDir job; Hex (Digest desc)] in
  (fun st => Fs.Rename st target blob) ;;;
  ret {| IL_Descriptor := desc; IL_Layer := layer |}.

(** A layer of a remote image: its reader checks the bytes against the
    digest the manifest declares and ends in an error when they
    differ, as the readers of package [remote] do. *)
Definition remoteLayer (s : served) : Layer :=
  {| L_Digest := Ok (declared s);
     L_DiffID := diff_id s;
     L_Size := Ok (Z.of_nat (String.length (body s)));
     L_Compressed :=
       Ok (body s,
           match broken s with
           | Some e => Some e
           | None =>
               if String.eqb (Sha256.Hex (body s)) (Hex (declared s)) then None
               else Some (ErrorNew "error verifying sha256 checksum after reading")
           end) |}.

Definition is_hex (c : ascii) : bool :=
  let n := N_of_ascii c in
  ((N.leb 48 n && N.leb n 57) || (N.leb 97 n && N.leb n 102))%bool.

(** What [v1.NewHash] accepts when it parses a manifest: the algorithm
    sha256 and 64 hexadecimal digits. *)
Definition valid_hash (h : Hash) : bool :=
  String.eqb (Algorithm h) "sha256"
  && (String.length (Hex h) =? 64)%nat
  && forallb is_hex (list_ascii_of_string (Hex h)).

(** [name.ParseReference], [remote.Get] and [desc.Image()]. *)
Definition remoteImage (w : World) (ref : string) (p : Platform) : result Image :=
  match registry w ref p with
  | Err e => Err e
  | Ok (layers, cf, m) =>
      if forallb (fun s => valid_hash (declared s)) layers then
        Ok {| Img_Layers := Ok (map remoteLayer layers);
              Img_ConfigFile := cf;
              Img_Manifest := m |}
      else Err (ErrorNew "cannot parse hash")
  end.

Definition ensureCached (job : buildJob) (layer : Layer) : M unit :=
  digest <- lift (L_Digest layer) ;;
  let cachePath := Path.Join [cacheDir job; Hex digest] in
  fun st =>
    match Fs.Stat st cachePath with
    | Ok _ => (Ok tt, st)
    | Err e =>
        if negb (IsNotExist (Fs.Stat st cachePath)) then (Err e, st)
        else
          match L_Compressed layer with
          | Err e => (Err e, st)
          | Ok (bytes, ended) =>
              match Fs.WriteFile st cachePath "" 438 with
              | (Err e, st') => (Err e, st')
              | (Ok _, st') =>
                  match Fs.WriteFile st' cachePath bytes 438, ended with
                  | (Err e, st''), _ => (Err e, st'')
                  | (Ok _, st''), Some e => (Err e, st'')
                  | (Ok _, st''), None => (Ok tt, st'')
                  end
              end
          end
    end.

Definition writeBaseLayer (job : buildJob) (layer : Layer) : M unit :=
  ensureCached job layer ;;;
  digest <- lift (L_Digest layer) ;;
  let sourcePath := Path.Join [cacheDir job; Hex digest] in
  let destPath := Path.Join [blobsDir job; Hex digest] in
  fun st =>
    if negb (IsNotExist (Fs.Stat st destPath)) then (Ok tt, st)
    else
      match Fs.Link st sourcePath destPath with
      | (Err e, st') => (Err (Wrapped "creating hard link for layer" e), st')
      | (Ok _, st') => (Ok tt, st')
      end.

Fixpoint writeBaseLayers (job : buildJob) (layers : list Layer) : M unit :=
  match layers with
  | [] => ret tt
  | layer :: rest => writeBaseLayer job layer ;;; writeBaseLayers job rest
  end.

(** [pullBase]; no image is Go's nil [v1.Image]. *)
Definition pullBase (w : World) (lb : languageBuilder) (job : buildJob) (p : Platform)
  : M (option Image) :=
  let baseImage := BaseImage (function job) in
  if String.eqb (Base lb baseImage) "" then ret None
  else
    image <- lift (remoteImage w (Base lb baseImage) p) ;;
    layers <- lift (Img_Layers image) ;;
    fun st =>
      match writeBaseLayers job layers st with
      | (Err e, st') => (Err e, st')
      | (Ok _, st') => (Ok (Some image), st')
      end.

Definition pad2 (n : Z) : string :=
  String (Str.digit (n / 10 mod 10)) (String (Str.digit (n mod 10)) "").

(** [t.Format(time.RFC3339)] for a year of four digits. *)
Definition Format_RFC3339 (t : Time) : string :=
  pad2 (year t / 100) +:+ pad2 (year t) +:+ "-" +:+ pad2 (month t) +:+ "-" +:+ pad2 (day t)
  +:+ "T" +:+ pad2 (hour t) +:+ ":" +:+ pad2 (minute t) +:+ ":" +:+ pad2 (second t)
  +:+ (if zone t =? 0 then "Z"
       else (if zone t <? 0 then "-" else "+")
            +:+ pad2 (Z.abs (zone t) / 60) +:+ ":" +:+ pad2 (Z.abs (zone t) mod 60)).

(** [newConfigEnvs]. *)
Definition newConfigEnvs (w : World) (job : buildJob) (st : Fs.sys) : list string :=
  let gitbin := if String.eqb (Getenv w "FUNC_GIT") "" then "git" else Getenv w "FUNC_GIT" in
  let envs := [] in
  let envs := envs ++ ["FUNC_CREATED=" +:+ Format_RFC3339 (start job)] in
  let envs :=
    match git_describe w gitbin (Root (function job)) st with
    | Err _ => envs ++ ["FUNC_VERSION="]
    | Ok output => envs ++ ["FUNC_VERSION=" +:+ Str.TrimSpace output]
    end in
  envs ++ Envs_Slice (function job).

Definition newConfigVolumes (job : buildJob) : gset string :=
  fold_left (fun volumes v =>
               match v with
               | None => volumes
               | Some path => {[path]} ∪ volumes
               end)
            (Run_Volumes (function job)) ∅.

Definition with_Config (cfg : ConfigFile) (c : Config) : ConfigFile :=
  {| Created := Created cfg; CF_Architecture := CF_Architecture cfg; CF_OS := CF_OS cfg;
     CF_OSVersion := CF_OSVersion cfg; CF_Variant := CF_Variant cfg; CF_Config := c;
     CF_History := CF_History cfg; CF_RootFS := CF_RootFS cfg |}.
Definition with_History (cfg : ConfigFile) (h : list History) : ConfigFile :=
  {| Created := Created cfg; CF_Architecture := CF_Architecture cfg; CF_OS := CF_OS cfg;
     CF_OSVersion := CF_OSVersion cfg; CF_Variant := CF_Variant cfg;
     CF_Config := CF_Config cfg; CF_History := h; CF_RootFS := CF_RootFS cfg |}.
Definition with_DiffIDs (cfg : ConfigFile) (ids : list Hash) : ConfigFile :=
  {| Created := Created cfg; CF_Architecture := CF_Architecture cfg; CF_OS := CF_OS cfg;
     CF_OSVersion := CF_OSVersion cfg; CF_Variant := CF_Variant cfg;
     CF_Config := CF_Config cfg; CF_History := CF_History cfg;
     CF_RootFS := {| RF_Type := RF_Type (CF_RootFS cfg); DiffIDs := ids |} |}.
Definition with_User (c : Config) (u : string) : Config :=
  {| Env := Env c; Volumes := Volumes c; ExposedPorts := ExposedPorts c;
     WorkingDir := WorkingDir c; StopSignal := StopSignal c; User := u; Cmd := Cmd c |}.
Definition with_Env (c : Config) (env : list string) : Config :=
  {| Env := env; Volumes := Volumes c; ExposedPorts := ExposedPorts c;
     WorkingDir := WorkingDir c; StopSignal := StopSignal c; User := User c; Cmd := Cmd c |}.
Definition with_Cmd (c : Config) (cmd : list string) : Config :=
  {| Env := Env c; Volumes := Volumes c; ExposedPorts := ExposedPorts c;
     WorkingDir := WorkingDir c; StopSignal := StopSignal c; User := User c; Cmd := cmd |}.

(** The loop of [newConfigFile] that collects the diff ids. *)
Fixpoint populate_DiffIDs (cfg : ConfigFile) (imageLayers : list imageLayer)
  : result ConfigFile :=
  match imageLayers with
  | [] => Ok cfg
  | imageLayer :: rest =>
      match L_DiffID (IL_Layer imageLayer) with
      | Err e => Err e
      | Ok diffID =>
          populate_DiffIDs (with_DiffIDs cfg (DiffIDs (CF_RootFS cfg) ++ [diffID])) rest
      end
  end.

(** [newConfigFile]. *)
Definition newConfigFile (w : World) (job : buildJob) (p : Platform)
    (base : option Image) (imageLayers : list imageLayer) (st : Fs.sys)
  : result ConfigFile :=
  let cfg :=
    {| Created := start job;
       CF_Architecture := Architecture p;
       CF_OS := OS p;
       CF_OSVersion := OSVersion p;
       CF_Variant := Variant p;
       CF_Config :=
         {| Env := newConfigEnvs w job st;
            Volumes := newConfigVolumes job;
            ExposedPorts := {["8080/tcp"]};
            WorkingDir := "/func/";
            StopSignal := "SIGKILL";
            User := Str.Itoa DefaultUid +:+ ":" +:+ Str.Itoa DefaultGid;
            Cmd := [] |};
       CF_History :=
         [ {| Author := "func"; H_Created := start job;
              Comment := "func host builder"; EmptyLayer := true |} ];
       CF_RootFS := {| RF_Type := "layers"; DiffIDs := [] |} |} in
  match populate_DiffIDs cfg imageLayers with
  | Err e => Err e
  | Ok cfg =>
      match base with
      | None => Ok cfg
      | Some base =>
          match Img_ConfigFile base with
          | Err e => Err e
          | Ok baseCfg =>
              let cfg :=
                if negb (String.eqb (User (CF_Config baseCfg)) "")
                then with_Config cfg (with_User (CF_Config cfg) (User (CF_Config baseCfg)))
                else cfg in
              let cfg :=
                with_Config cfg
                  (with_Env (CF_Config cfg) (Env (CF_Config baseCfg) ++ Env (CF_Config cfg))) in
              let cfg := with_History cfg (CF_History baseCfg ++ CF_History cfg) in
              let cfg :=
                with_DiffIDs cfg (DiffIDs (CF_RootFS baseCfg) ++ DiffIDs (CF_RootFS cfg)) in
              Ok cfg
          end
      end
  end.

(** [writeAsJSONBlob]. *)
Definition writeAsJSONBlob (w : World) (job : buildJob) (tempName : string)
    (data : jsonData) : M Descriptor :=
  let filePath := Path.Join [buildDir job; tempName] in
  (fun st => Fs.WriteFile st filePath "" 438) ;;;
  bytes <- lift (json_Encode w data) ;;
  (fun st => Fs.WriteFile st filePath bytes 438) ;;;
  let hash := {| Algorithm := "sha256"; Hex := Sha256.Hex bytes |} in
  let size := Z.of_nat (String.length bytes) in
  let blobPath := Path.Join [blobsDir job; Hex hash] in
  (fun st => Fs.Rename st filePath blobPath) ;;;
  ret {| MediaType := ""; D_Size := size; Digest := hash; D_Platform := None |}.

Definition with_MediaType (d : Descriptor) (mt : string) : Descriptor :=
  {| MediaType := mt; D_Size := D_Size d; Digest := Digest d; D_Platform := D_Platform d |}.
Definition with_Platform (d : Descriptor) (p : Platform) : Descriptor :=
  {| MediaType := MediaType d; D_Size := D_Size d; Digest := Digest d;
     D_Platform := Some p |}.

Definition writeConfig (w : World) (job : buildJob) (configFile : ConfigFile)
  : M Descriptor :=
  configDesc <- writeAsJSONBlob w job "config.json" (JConfig configFile) ;;
  ret (with_MediaType configDesc OCIConfigJSON).

(** The manifest [writeManifest] composes: the layers of the base, if
    there is one, then the layers given. *)
Definition newManifest (base : option Image) (configDesc : Descriptor)
    (layers : list imageLayer) : result Manifest :=
  match (match base with
         | None => Ok []
         | Some base =>
             match Img_Manifest base with
             | Err e => Err e
             | Ok baseManifest => Ok (Layers baseManifest)
             end
         end) with
  | Err e => Err e
  | Ok layerDescs =>
      Ok {| SchemaVersion := 2;
            M_MediaType := OCIManifestSchema1;
            M_Config := configDesc;
            Layers := layerDescs ++ map IL_Descriptor layers |}
  end.

(** [writeManifest], which here also returns the manifest it wrote. *)
Definition writeManifest (w : World) (job : buildJob) (p : Platform)
    (base : option Image) (configDesc : Descriptor) (layers : list imageLayer)
  : M (Descriptor * Manifest) :=
  manifest <- lift (newManifest base configDesc layers) ;;
  manifestDesc <-
    writeAsJSONBlob w job ("manifest." +:+ OS p +:+ "." +:+ Architecture p +:+ ".json")
                    (JManifest manifest) ;;
  ret (with_Platform (with_MediaType manifestDesc OCIManifestSchema1) p, manifest).

Definition writeIndex (w : World) (job : buildJob) (manifests : list Descriptor) : M unit :=
  let index :=
    {| I_SchemaVersion := 2; I_MediaType := OCIImageIndex; Manifests := manifests |} in
  let filePath := Path.Join [ociDir job; "index.json"] in
  (fun st => Fs.WriteFile st filePath "" 438) ;;;
  bytes <- lift (json_Encode w (JIndex index)) ;;
  (fun st => Fs.WriteFile st filePath bytes 438).

(** What [containerize] made for one platform: the layers of the
    plugin for it, the base it pulled, the configuration it encoded
    and the manifest it wrote. *)
Record platformImage := {
  PI_Platform : Platform;
  PI_Specific : list imageLayer;
  PI_Base : option Image;
  PI_ConfigFile : ConfigFile;
  PI_Manifest : Manifest;
  PI_Descriptor : Descriptor;
}.

(** The body of the loop of [containerize] over the platforms. *)
Definition containerizePlatform (w : World) (lb : languageBuilder) (job : buildJob)
    (sharedLayers : list imageLayer) (p : Platform) : M platformImage :=
  platformSpecificLayers <- WritePlatform lb job p ;;
  let layers := sharedLayers ++ platformSpecificLayers in
  base <- pullBase w lb job p ;;
  configFile <- read (newConfigFile w job p base layers) ;;
  configFile <- lift (Configure lb job p configFile) ;;
  config <- writeConfig w job configFile ;;
  written <- writeManifest w job p base config layers ;;
  ret {| PI_Platform := p; PI_Specific := platformSpecificLayers; PI_Base := base;
         PI_ConfigFile := configFile; PI_Manifest := snd written;
         PI_Descriptor := fst written |}.

Fixpoint containerizePlatforms (w : World) (lb : languageBuilder) (job : buildJob)
    (sharedLayers : list imageLayer) (pp : list Platform) : M (list platformImage) :=
  match pp with
  | [] => ret []
  | p :: rest =>
      image <- containerizePlatform w lb job sharedLayers p ;;
      images <- containerizePlatforms w lb job sharedLayers rest ;;
      ret (image :: images)
  end.

Definition quote : string := String "034" "".
Definition oci_layout : string :=
  "{ " +:+ quote +:+ "imageLayoutVersion" +:+ quote +:+ ": "
  +:+ quote +:+ "1.0.0" +:+ quote +:+ " }".

(** [containerize], which here also returns what it made for each
    platform, in the order of the platforms. *)
Definition containerize (w : World) (lb : languageBuilder) (job : buildJob)
  : M (list platformImage) :=
  let sharedLayers := [] in
  (fun st => Fs.WriteFile st (Path.Join [ociDir job; "oci-layout"]) oci_layout 511) ;;;
  data <- writeDataLayer w job ;;
  let sharedLayers := sharedLayers ++ [data] in
  certs <- writeCertsLayer w job ;;
  let sharedLayers := sharedLayers ++ [certs] in
  shared <- WriteShared lb job ;;
  let sharedLayers := sharedLayers ++ shared in
  images <- containerizePlatforms w lb job sharedLayers (platforms job) ;;
  writeIndex w job (map PI_Descriptor images) ;;;
  ret images.

(** [toPlatforms]. *)
Definition toPlatforms (pp : list fnPlatform) : list Platform :=
  map (fun p => {| OS := fnOS p; Architecture := fnArchitecture p;
                   Variant := fnVariant p; OSVersion := "" |}) pp.

(** ** [go_builder.go] *)

(** [strings.Split(v, "=")[0]]. *)
Fixpoint before_equals (v : string) : string :=
  match v with
  | EmptyString => EmptyString
  | String c v' => if Ascii.eqb c "="%char then EmptyString else String c (before_equals v')
  end.

(** [strings.TrimPrefix(s, "v")]. *)
Definition trim_v (s : string) : string :=
  match s with
  | String "v" s' => s'
  | _ => s
  end.

Definition goBuildEnvs (w : World) (p : Platform) : list string :=
  let pegged := ["CGO_ENABLED=0"; "GOOS=" +:+ OS p; "GOARCH=" +:+ Architecture p] in
  let pegged :=
    if negb (String.eqb (Variant p) "") && String.eqb (Architecture p) "arm"
    then pegged ++ ["GOARM=" +:+ trim_v (Variant p)]
    else if negb (String.eqb (Variant p) "") && String.eqb (Architecture p) "amd64"
    then pegged ++ ["GOAMD64=" +:+ Variant p]
    else pegged in
  let isPegged env := existsb (fun v => Path.HasPrefix env (before_equals v)) pegged in
  pegged ++ filter (fun env => Is_true (negb (isPegged env))) (Environ w).

Definition goBuildCmd (w : World) (p : Platform) (cfg : buildJob)
  : string * list string * string :=
  let gobin := if String.eqb (Getenv w "FUNC_GO") "" then "go" else Getenv w "FUNC_GO" in
  let name := "f." +:+ OS p +:+ "." +:+ Architecture p in
  let name := if negb (String.eqb (Variant p) "") then name +:+ "." +:+ Variant p else name in
  let outpath := Path.Join ["result"; name] in
  (gobin, ["build"; "-o"; outpath], Path.Join [buildDir cfg; outpath]).

Definition wrap {A} (msg : string) (m : M A) : M A :=
  fun st =>
    match m st with
    | (Err e, st') => (Err (Wrapped msg e), st')
    | ok => ok
    end.

Definition goBuild (w : World) (cfg : buildJob) (p : Platform) : M string :=
  let '(gobin, args, outpath) := goBuildCmd w p cfg in
  let envs := goBuildEnvs w p in
  wrap "go mod tidy failed" (go_run w gobin ["mod"; "tidy"] envs (buildDir cfg)) ;;;
  wrap "go build failed" (go_run w gobin args envs (buildDir cfg)) ;;;
  ret outpath.

Definition goExeTarball (w : World) (source target : string) : M unit :=
  (fun st => Fs.WriteFile st target "" 438) ;;;
  (fun st =>
     match Fs.Stat st source with
     | Err e => written w target (Some e, []) st
     | Ok info =>
         match FileInfoHeader info (Fs.fi_name info) with
         | Err e => written w target (Some e, []) st
         | Ok header =>
             let header :=
               {| Typeflag := Typeflag header;
                  Name := Path.Join ["/func"; "f"];
                  Linkname := Linkname header;
                  Size := Size header;
                  Mode := Z.lor (Z.land (Mode header) (Z.lnot 511)) 493;
                  Uid := Uid header;
                  Gid := Gid header |} in
             match Fs.ReadFile st source with
             | Err e => written w target (Some e, [(header, "")]) st
             | Ok data => written w target (None, [(header, data)]) st
             end
         end
     end).

Definition go_WritePlatform (w : World) (cfg : buildJob) (p : Platform)
  : M (list imageLayer) :=
  exe <- goBuild w cfg p ;;
  let target :=
    Path.Join [buildDir cfg;
               "execlayer." +:+ OS p +:+ "." +:+ Architecture p +:+ ".tar.gz"] in
  goExeTarball w exe target ;;;
  layer <- LayerFromFile w target ;;
  desc <- lift (newDescriptor layer) ;;
  let desc := with_Platform desc p in
  let blob := Path.Join [blobsDir cfg; Hex (Digest desc)] in
  wrap "cannot rename blob" (fun st => Fs.Rename st target blob) ;;;
  ret [{| IL_Descriptor := desc; IL_Layer := layer |}].

Definition go_Configure (_ : buildJob) (_ : Platform) (cf : ConfigFile) : result ConfigFile :=
  let cf := with_Config cf (with_Cmd (CF_Config cf) ["/func/f"]) in
  let cf := with_Config cf (with_Env (CF_Config cf)
                                     (Env (CF_Config cf) ++ ["LISTEN_ADDRESS=[::]:8080"])) in
  Ok cf.

Definition goBuilder (w : World) : languageBuilder :=
  {| Base := fun customImage => customImage;
     WriteShared := fun _ => ret [];
     WritePlatform := go_WritePlatform w;
     Configure := go_Configure |}.

(** ** [Build] *)

(** The registry of plugins by runtime. *)
Definition builders (w : World) : gmap string languageBuilder :=
  {[ "go" := goBuilder w; "python" := pythonBuilder w ]}.

(** [IsSupported]. *)
Definition IsSupported (w : World) (runtime : string) : bool :=
  match builders w !! runtime with Some _ => true | None => false end.

(** [Builder]; its [onDone] is called on success and acts on nothing
    the model holds. *)
Record Builder := {
  name : string;
  B_verbose : bool;
  impl : option languageBuilder;
}.

Definition NewBuilder (name : string) (verbose : bool) : Builder :=
  {| name := name; B_verbose := verbose; impl := None |}.

Definition newBuildJob (w : World) (f : Function) (pp : list fnPlatform) (verbose : bool)
  : M (buildJob * languageBuilder) :=
  fun st =>
    match Fingerprint w st (Root f) with
    | Err e => (Err (Wrapped "error calculating fingerprint for build." e), st)
    | Ok h =>
        let job := {| start := Now w; hash := h; function := f;
                      platforms := toPlatforms pp; verbose := verbose |} in
        match builders w !! Runtime f with
        | None =>
            (Err (ErrorNew (Runtime f +:+ " functions are not yet supported by the host builder")),
             st)
        | Some lb => (Ok (job, lb), st)
        end
    end.

(** [defer cleanup(job)]: the rest of the function, then the cleanup,
    whatever the rest returned. *)
Definition deferred {A} (after : Fs.sys -> Fs.sys) (m : M A) : M A :=
  fun st => let '(r, st') := m st in (r, after st').

Definition Build (w : World) (b : Builder) (f : Function) (pp : list fnPlatform) : M unit :=
  let pp := match pp with [] => DefaultPlatforms | _ => pp end in
  created <- newBuildJob w f pp (B_verbose b) ;;
  let job := fst created in
  let lb := match impl b with Some i => i | None => snd created end in
  setup job ;;;
  deferred (cleanup job)
    (scaffold w job ;;;
     containerize w lb job ;;;
     updateLastLink job).

(** ** [cmd/build.go] *)

(** [fn.BuildOption]; the command makes one kind. *)
Inductive BuildOption :=
| BuildWithPlatforms (pp : list fnPlatform).

(** [buildConfig], with the fields of the [config.Global] it embeds. *)
Record buildConfig := {
  BC_Builder : string;
  BC_Confirm : bool;
  BC_Registry : string;
  BC_Verbose : bool;
  BC_RegistryInsecure : bool;
  BC_BuilderImage : string;
  BC_Image : string;
  BC_BaseImage : string;
  BC_Path : string;
  BC_Platform : string;
  BC_Push : bool;
  BC_Username : string;
  BC_Password : string;
  BC_Token : string;
  BC_WithTimestamp : bool;
}.

(** [buildOptions]; in Go the error comes with the empty list. *)
Definition buildOptions (c : buildConfig) : result (list BuildOption) :=
  let oo := [] in
  if negb (String.eqb (BC_Platform c) "") then
    let parts := Path.split (BC_Platform c) in
    if negb (length parts =? 2)%nat then
      Err (ErrorNew ("the value for --patform must be in the form [OS]/[Architecture].  eg "
                     +:+ quote +:+ "linux/amd64" +:+ quote))
    else
      Ok (oo ++ [BuildWithPlatforms
                   [ {| fnOS := nth 0 parts ""; fnArchitecture := nth 1 parts "";
                        fnVariant := "" |} ]])
  else Ok oo.

(** ** Notions the statements use *)

(** A relative path begins with a parent-traversal element. *)
Definition begins_with_parent (rel : string) : bool :=
  String.eqb (hd "" (Path.split rel)) "..".

(** An entry of a tarball is owned by the default user and group. *)
Definition owned_by_default (e : Header * string) : Prop :=
  Uid (fst e) = DefaultUid /\ Gid (fst e) = DefaultGid.

(** [ids] are the diff ids of [layers], one each and in their order. *)
Definition diffIDs_of (layers : list imageLayer) (ids : list Hash) : Prop :=
  Forall2 (fun l id => L_DiffID (IL_Layer l) = Ok id) layers ids.

(** What a base image brings: the layers of its manifest, and the
    environment and the diff ids of its configuration; nothing when
    there is no base. *)
Definition base_layers (base : option Image) : list Descriptor :=
  match base with
  | Some b => match Img_Manifest b with Ok m => Layers m | Err _ => [] end
  | None => []
  end.
Definition base_env (base : option Image) : list string :=
  match base with
  | Some b => match Img_ConfigFile b with Ok c => Env (CF_Config c) | Err _ => [] end
  | None => []
  end.
Definition base_diffIDs (base : option Image) : list Hash :=
  match base with
  | Some b => match Img_ConfigFile b with Ok c => DiffIDs (CF_RootFS c) | Err _ => [] end
  | None => []
  end.

(** The image [containerize] made for one platform has its layers in
    order: the manifest lists the layers of the base, then the shared
    layers, then the layers the plugin wrote for the platform, and the
    configuration lists the diff ids of the base, then those of the
    same layers. *)
Definition layers_in_order (w : World) (lb : languageBuilder) (job : buildJob)
    (sharedLayers : list imageLayer) (im : platformImage) : Prop :=
  (exists s1 s2 s3,
      WritePlatform lb job (PI_Platform im) s1 = (Ok (PI_Specific im), s2) /\
      pullBase w lb job (PI_Platform im) s2 = (Ok (PI_Base im), s3)) /\
  Layers (PI_Manifest im)
  = base_layers (PI_Base im) ++ map IL_Descriptor (sharedLayers ++ PI_Specific im) /\
  exists ids,
    diffIDs_of (sharedLayers ++ PI_Specific im) ids /\
    DiffIDs (CF_RootFS (PI_ConfigFile im)) = base_diffIDs (PI_Base im) ++ ids.

(** The descriptors of a platform's image after a successful
    [containerizePlatform]: the manifest names the configuration by the
    digest and size of its encoding and with the OCI configuration
    media type, and the descriptor of the manifest, which the index
    lists, carries the digest and size of the encoded manifest, the
    OCI manifest media type and the platform. *)
Definition described (w : World) (im : platformImage) : Prop :=
  (exists bytes,
      json_Encode w (JConfig (PI_ConfigFile im)) = Ok bytes /\
      M_Config (PI_Manifest im)
      = {| MediaType := OCIConfigJSON; D_Size := Z.of_nat (String.length bytes);
           Digest := {| Algorithm := "sha256"; Hex := Sha256.Hex bytes |};
           D_Platform := None |}) /\
  (exists bytes,
      json_Encode w (JManifest (PI_Manifest im)) = Ok bytes /\
      PI_Descriptor im
      = {| MediaType := OCIManifestSchema1; D_Size := Z.of_nat (String.length bytes);
           Digest := {| Algorithm := "sha256"; Hex := Sha256.Hex bytes |};
           D_Platform := Some (PI_Platform im) |}) /\
  SchemaVersion (PI_Manifest im) = 2 /\
  M_MediaType (PI_Manifest im) = OCIManifestSchema1.

(** [k] is a directory of the tree. *)
Definition is_dir (t : Fs.tree) (k : list string) : bool :=
  match Fs.lookup t k with
  | Some n => match Fs.kind_of n with Fs.Directory => true | _ => false end
  | None => false
  end.

(** From [base] down, each of [names] is a directory in the one
    before it, none of them a link. *)
Fixpoint real_dirs (t : Fs.tree) (base names : list string) : bool :=
  match names with
  | [] => true
  | n :: rest => is_dir t (base ++ [n]) && real_dirs t (base ++ [n]) rest
  end.

(** The layout of a job is in place: the root of the project is a
    rooted path, the hash is a name, and [by-pid] and the build
    directory are directories reached through directories from the
    root of the file system. *)
Definition laid_out (job : buildJob) (st : Fs.sys) : bool :=
  Path.IsAbs (Root (function job)) && Path.plain (hash job)
  && real_dirs (Fs.files st) []
       (Path.elements (Root (function job)) ++ [RunDataDir; "builds"; "by-pid"])
  && real_dirs (Fs.files st) []
       (Path.elements (Root (function job)) ++ [RunDataDir; "builds"; "by-hash"; hash job]).

(** The link of the running process is in [by-pid] as [setup] wrote
    it, with the target [../by-hash/<hash>]. *)
Definition own_link (job : buildJob) (st : Fs.sys) : bool :=
  match Fs.lookup (Fs.files st)
          (Path.elements (Root (function job))
           ++ [RunDataDir; "builds"; "by-pid"; Str.Itoa (Fs.self st)]) with
  | Some n =>
      match Fs.kind_of n with
      | Fs.SymLink target => String.eqb target (Path.Join [".."; "by-hash"; hash job])
      | _ => false
      end
  | None => false
  end.

(** One tree holds all the entries of another. *)
Definition ext (t t' : Fs.tree) : Prop :=
  forall k n, Fs.lookup t k = Some n -> Fs.lookup t' k = Some n.

(** The state of the process that no file operation changes. *)
Definition same_process (st st' : Fs.sys) : Prop :=
  Fs.self st' = Fs.self st /\ Fs.live st' = Fs.live st /\ Fs.windows st' = Fs.windows st.

(** What the first loop of [cleanup] keeps as it is. *)
Definition guarded (job : buildJob) (st : Fs.sys) : Prop :=
  0 <= Fs.self st < 2 ^ 63 /\ laid_out job st = true /\ own_link job st = true.

(** A result is the error of the build in progress. *)
Definition in_progress {A} (r : result A) : bool :=
  match r with
  | Err (ErrBuildInProgress _) => true
  | _ => false
  end.

(** What the resolution sees of an entry: its kind, and of a link its
    target. *)
Definition shape (n : Fs.node) : Fs.kind :=
  match Fs.kind_of n with
  | Fs.Regular _ => Fs.Regular ""
  | k => k
  end.

(** [walk depth st fn root rinfo tw0] calls [fn] at the entry [path],
    which is no directory, when the tar writer holds [tw]. *)
Inductive visits (st : Fs.sys) (fn : WalkFunc)
  : nat -> string -> Fs.FileInfo -> tarWriter -> string -> Fs.FileInfo -> tarWriter -> Prop :=
| visits_here depth path info tw :
    Fs.IsDir info = false ->
    visits st fn (S depth) path info tw path info tw
| visits_below depth dir dinfo tw tw1 before name after tw2 finfo path info tw' :
    Fs.IsDir dinfo = true ->
    Fs.ReadDir st dir = Ok (before ++ name :: after) ->
    fn dir (Some dinfo) None tw = (None, tw1) ->
    walk_names st fn (walk depth st fn) dir before tw1 = (None, tw2) ->
    Fs.Lstat st (Path.Join [dir; name]) = Ok finfo ->
    visits st fn depth (Path.Join [dir; name]) finfo tw2 path info tw' ->
    visits st fn (S depth) dir dinfo tw path info tw'.

(** The tar writer only grows. *)
Definition grows (tw tw' : tarWriter) : Prop := exists more, tw' = tw ++ more.

(** The link [last] of the job leads to [target], and the directories
    it stands in and beside are in place: the root of the project is a
    rooted path, and [by-pid] and [by-hash] are directories reached
    through directories. *)
Definition keeps_last (job : buildJob) (target : string) (st : Fs.sys) : Prop :=
  Path.IsAbs (Root (function job)) = true /\
  real_dirs (Fs.files st) []
    (Path.elements (Root (function job)) ++ [RunDataDir; "builds"; "by-pid"]) = true /\
  real_dirs (Fs.files st) []
    (Path.elements (Root (function job)) ++ [RunDataDir; "builds"; "by-hash"]) = true /\
  exists n,
    Fs.lookup (Fs.files st)
      (Path.elements (Root (function job)) ++ [RunDataDir; "builds"; "last"]) = Some n /\
    Fs.kind_of n = Fs.SymLink target.

(** Every directory and every link of [st] is in [st'] as it was. *)
Definition spares (st st' : Fs.sys) : Prop :=
  forall q n,
    Fs.lookup (Fs.files st) q = Some n ->
    (forall data, Fs.kind_of n <> Fs.Regular data) ->
    Fs.lookup (Fs.files st') q = Some n.

(** The last element of a path as it is written. *)
Definition final (path : string) : string := hd "" (rev (Path.split path)).

(** A step keeps [P], and what it returns satisfies [Q]. *)
Definition hoare {A} (P : Fs.sys -> Prop) (m : M A) (Q : A -> Prop) : Prop :=
  forall s, P s -> P (snd (m s)) /\ forall a, fst (m s) = Ok a -> Q a.

(** The digest of a layer made from a file is the digest of bytes. *)
Definition hashed (l : Layer) : Prop :=
  exists msg, L_Digest l = Ok {| Algorithm := "sha256"; Hex := Sha256.Hex msg |}.

(** ** A sample machine

    A world, a function and machines to run the builder on. *)

Module Sample.

(** An archive format that can be read by eye: for each entry its
    name, owner and bytes. *)
Definition tar (tw : tarWriter) : string :=
  fold_right (fun e acc =>
                Name (fst e) +:+ " " +:+ Str.Itoa (Uid (fst e)) +:+ ":"
                +:+ Str.Itoa (Gid (fst e)) +:+ " " +:+ snd e +:+ ";" +:+ acc) "" tw.

Definition encode (d : jsonData) : result string :=
  Ok match d with
     | JConfig c => "config " +:+ CF_Architecture c
     | JManifest m => "manifest " +:+ Hex (Digest (M_Config m))
     | JIndex _ => "index"
     end.

(** The toolchain: [go build -o out] leaves a binary at [out]. *)
Definition toolchain (gobin : string) (args envs : list string) (dir : string) : M unit :=
  match args with
  | ["build"; "-o"; out] =>
      (fun st => Fs.MkdirAll st (Path.Join [dir; "result"]) 493) ;;;
      (fun st => Fs.WriteFile st (Path.Join [dir; out]) ("ELF " +:+ out) 493)
  | _ => ret tt
  end.

(** The value of a result, [d] when it is an error. *)
Definition value {A} (d : A) (r : result A) : A :=
  match r with Ok a => a | Err _ => d end.

Definition none : languageBuilder :=
  {| Base := fun s => s;
     WriteShared := fun _ => ret [];
     WritePlatform := fun _ _ => ret [];
     Configure := fun _ _ c => Ok c |}.

Definition hello : Hash :=
  {| Algorithm := "sha256";
     Hex := "2cf24dba5fb0a30e26e83b2ac5b9e29e1b161e5c1fa7425e73043362938b9824" |}.

Definition world_with (served_layers : list served) : World :=
  {| Now := {| year := 2024; month := 5; day := 7;
               hour := 13; minute := 4; second := 9; zone := 120 |};
     Getenv := fun _ => "";
     Environ := ["PATH=/bin"; "GOOS=plan9"];
     Fingerprint := fun _ _ => Ok "abc";
     scaffolding_Write := fun dest _ _ _ st =>
       Fs.WriteFile st (Path.Join [dest; "ca-certificates.crt"]) "CERTS" 420;
     git_describe := fun _ _ _ => Ok ("v1.2" +:+ String "010" "");
     go_run := toolchain;
     registry := fun _ _ =>
       Ok (served_layers,
           Ok {| Created := {| year := 2020; month := 1; day := 1;
                               hour := 0; minute := 0; second := 0; zone := 0 |};
                 CF_Architecture := "amd64"; CF_OS := "linux";
                 CF_OSVersion := ""; CF_Variant := "";
                 CF_Config := {| Env := ["PATH=/usr/bin"]; Volumes := ∅;
                                 ExposedPorts := ∅; WorkingDir := "";
                                 StopSignal := ""; User := "65532"; Cmd := [] |};
                 CF_History := [];
                 CF_RootFS := {| RF_Type := "layers"; DiffIDs := [hello] |} |},
           Ok {| SchemaVersion := 2; M_MediaType := OCIManifestSchema1;
                 M_Config := {| MediaType := OCIConfigJSON; D_Size := 0;
                                Digest := hello; D_Platform := None |};
                 Layers := [ {| MediaType := OCILayer; D_Size := 5;
                                Digest := hello; D_Platform := None |} ] |});
     tar_encode := tar;
     deflate := fun s => s;
     inflate := fun s => Ok (String.substring 2 (String.length s - 2) s);
     json_Encode := encode;
     pythonBuilder := none |}.

Definition world : World := world_with [].

(** The same world on a machine without git. *)
Definition offline : World :=
  {| Now := Now world; Getenv := Getenv world; Environ := Environ world;
     Fingerprint := Fingerprint world; scaffolding_Write := scaffolding_Write world;
     git_describe := fun _ _ _ => Err (ErrorNew "exit status 128");
     go_run := go_run world; registry := registry world;
     tar_encode := tar_encode world; deflate := deflate world;
     inflate := inflate world; json_Encode := json_Encode world;
     pythonBuilder := pythonBuilder world |}.

Definition f : Function :=
  {| Root := "/p"; Runtime := "go"; Invoke := ""; BaseImage := "";
     Envs_Slice := ["A=b"]; Run_Volumes := [] |}.

Definition amd64 : fnPlatform :=
  {| fnOS := "linux"; fnArchitecture := "amd64"; fnVariant := "" |}.

Definition job : buildJob :=
  {| start := Now world; hash := "abc"; function := f;
     platforms := toPlatforms [amd64]; verbose := false |}.

(** A project owned by user 1001, who runs process 77. *)
Definition project : Fs.tree :=
  [ (["p"], Fs.Node Fs.Directory 493 1001 1001);
    (["p"; "f.go"], Fs.Node (Fs.Regular "package f") 420 1001 1001);
    (["p"; "lnk"], Fs.Node (Fs.SymLink "f.go") 511 1001 1001);
    (["p"; ".git"], Fs.Node Fs.Directory 493 1001 1001);
    (["p"; ".git"; "HEAD"], Fs.Node (Fs.Regular "ref") 420 1001 1001) ].

Definition machine : Fs.sys := Fs.Sys project [] 77 1001 1001 18 false.

(** What [os.Lstat] says of the link in the project. *)
Definition lnk_info : Fs.FileInfo :=
  {| Fs.fi_name := "lnk"; Fs.fi_size := 0; Fs.fi_kind := Fs.SymLink "f.go";
     Fs.fi_perm := 511; Fs.fi_uid := 1001; Fs.fi_gid := 1001 |}.

(** The same project with a link to a file outside of it, and with a
    link that climbs out of it. *)
Definition absolute_link : Fs.sys :=
  Fs.with_files machine
    (Fs.put ["p"; "a"] (Fs.Node (Fs.SymLink "/etc/passwd") 511 1001 1001) project).
Definition escaping_link : Fs.sys :=
  Fs.with_files machine
    (Fs.put ["p"; "a"] (Fs.Node (Fs.SymLink "../etc/passwd") 511 1001 1001) project).

(** The machine after [setup]. *)
Definition prepared : Fs.sys :=
  Eval vm_compute in snd (setup job machine).

(** The machine when [containerize] starts, and what it makes of it. *)
Definition scaffolded : Fs.sys :=
  Eval vm_compute in snd ((setup job ;;; scaffold world job) machine).
Definition images : list platformImage :=
  Eval vm_compute in value [] (fst (containerize world (goBuilder world) job scaffolded)).
Definition containerized : Fs.sys :=
  Eval vm_compute in snd (containerize world (goBuilder world) job scaffolded).

(** The machine after [updateLastLink]. *)
Definition linked : Fs.sys :=
  Eval vm_compute in snd (updateLastLink job containerized).

(** A base image of one layer, as [remoteImage] hands it over. *)
Definition base : Image :=
  match remoteImage (world_with [ {| declared := hello; body := "hello";
                                     broken := None; diff_id := Ok hello |} ])
                    "debian:stable" (hd {| OS := ""; Architecture := ""; Variant := "";
                                           OSVersion := "" |} (platforms job)) with
  | Ok image => image
  | Err _ => {| Img_Layers := Ok []; Img_ConfigFile := Err (ErrorNew "");
                Img_Manifest := Err (ErrorNew "") |}
  end.

(** A binary that user 1001 compiled, and a directory for its layer. *)
Definition compiled : Fs.sys :=
  Fs.Sys [ (["b"], Fs.Node Fs.Directory 493 1001 1001);
           (["b"; "f"], Fs.Node (Fs.Regular "ELF") 493 1001 1001) ]
         [] 77 1001 1001 18 false.

(** The machine after [setup] with the directory of an older build
    beside the one of the job. *)
Definition stale : Fs.sys :=
  Eval vm_compute in
    Fs.with_files scaffolded
      (Fs.put ["p"; ".func"; "builds"; "by-hash"; "old"]
              (Fs.Node Fs.Directory 493 1001 1001) (Fs.files scaffolded)).

(** The machine when [newDataTarball] starts, and when it has created
    its target. *)
Definition layout : Fs.sys :=
  Eval vm_compute in
    snd ((setup job ;;; scaffold world job ;;;
          (fun s => Fs.WriteFile s (Path.Join [ociDir job; "oci-layout"]) oci_layout 511))
           machine).
Definition opened : Fs.sys :=
  Eval vm_compute in
    snd (Fs.WriteFile layout (Path.Join [buildDir job; "datalayer.tar.gz"]) "" 438).

(** What [os.Lstat] says of the project root. *)
Definition root_info : Fs.FileInfo :=
  Eval vm_compute in value lnk_info (Fs.Lstat opened "/p").

(** What the tar writer holds when the walk comes to the link. *)
Definition before_lnk : tarWriter :=
  Eval vm_compute in
    snd (walk_names opened (walkFn opened "/p" defaultIgnored)
           (walk (length (Fs.files opened)) opened (walkFn opened "/p" defaultIgnored))
           "/p" [".func"; ".git"; "f.go"]
           (snd (walkFn opened "/p" defaultIgnored "/p" (Some root_info) None []))).

(** The same project with a link that has the name of an ignored file
    and leads out of the project, and the machine when the walk of
    that project starts. *)
Definition ignored_link : Fs.sys :=
  Fs.with_files machine
    (Fs.put ["p"; ".gitignore"] (Fs.Node (Fs.SymLink "/etc/passwd") 511 1001 1001) project).
Definition ignored_opened : Fs.sys :=
  Eval vm_compute in
    snd ((setup job ;;; scaffold world job ;;;
          (fun s => Fs.WriteFile s (Path.Join [ociDir job; "oci-layout"]) oci_layout 511) ;;;
          (fun s => Fs.WriteFile s (Path.Join [buildDir job; "datalayer.tar.gz"]) "" 438))
           ignored_link).
Definition ignored_info : Fs.FileInfo :=
  {| Fs.fi_name := ".gitignore"; Fs.fi_size := 0; Fs.fi_kind := Fs.SymLink "/etc/passwd";
     Fs.fi_perm := 511; Fs.fi_uid := 1001; Fs.fi_gid := 1001 |}.
Definition before_ignored : tarWriter :=
  Eval vm_compute in
    snd (walk_names ignored_opened (walkFn ignored_opened "/p" defaultIgnored)
           (walk (length (Fs.files ignored_opened)) ignored_opened
                 (walkFn ignored_opened "/p" defaultIgnored))
           "/p" [".func"; ".git"]
           (snd (walkFn ignored_opened "/p" defaultIgnored "/p" (Some root_info) None []))).
(** The project with what an older build left behind: its directory
    under [by-hash], to which nothing refers. *)
Definition leftover : Fs.sys :=
  Fs.with_files machine
    (project ++
     [ (["p"; ".func"], Fs.Node Fs.Directory 493 1001 1001);
       (["p"; ".func"; "builds"], Fs.Node Fs.Directory 493 1001 1001);
       (["p"; ".func"; "builds"; "by-hash"], Fs.Node Fs.Directory 493 1001 1001);
       (["p"; ".func"; "builds"; "by-hash"; "old"], Fs.Node Fs.Directory 493 1001 1001);
       (["p"; ".func"; "builds"; "by-hash"; "old"; "oci"], Fs.Node Fs.Directory 493 1001 1001) ]).

(** The machine after a build on it. *)
Definition rebuilt : Fs.sys :=
  Eval vm_compute in
    snd (Build world (NewBuilder "host" false) f [amd64] leftover).

(** The function on a base image, a registry whose transfer of the
    layer of that image breaks off, and one that serves it whole. *)
Definition based : Function :=
  {| Root := "/p"; Runtime := "go"; Invoke := ""; BaseImage := "debian:stable";
     Envs_Slice := ["A=b"]; Run_Volumes := [] |}.
Definition interrupted : World :=
  world_with [ {| declared := hello; body := "hel";
                  broken := Some (ErrorNew "unexpected EOF"); diff_id := Ok hello |} ].
Definition serving : World :=
  world_with [ {| declared := hello; body := "hello"; broken := None; diff_id := Ok hello |} ].

(** The machine after the build that the broken transfer failed, and
    the same files before another process, 78, when process 77 has
    gone. *)
Definition cut : Fs.sys :=
  Eval vm_compute in
    snd (Build interrupted (NewBuilder "host" false) based [amd64] machine).
Definition later : Fs.sys :=
  Eval vm_compute in Fs.Sys (Fs.files cut) [] 78 1001 1001 18 false.
Definition linked_cut : Fs.sys :=
  Eval vm_compute in
    snd (Build serving (NewBuilder "host" false) based [amd64] later).

(** A Windows machine on which a process that is gone, 99, has left
    its link to the build directory of the job. *)
Definition abandoned : Fs.sys :=
  Fs.Sys (project ++
          [ (["p"; ".func"], Fs.Node Fs.Directory 493 1001 1001);
            (["p"; ".func"; "builds"], Fs.Node Fs.Directory 493 1001 1001);
            (["p"; ".func"; "builds"; "by-hash"], Fs.Node Fs.Directory 493 1001 1001);
            (["p"; ".func"; "builds"; "by-hash"; "abc"], Fs.Node Fs.Directory 493 1001 1001);
            (["p"; ".func"; "builds"; "by-pid"], Fs.Node Fs.Directory 493 1001 1001);
            (["p"; ".func"; "builds"; "by-pid"; "99"],
             Fs.Node (Fs.SymLink "../by-hash/abc") 511 1001 1001) ])
         [] 77 1001 1001 18 true.

(** The machine after the build, when [cleanup] has run. *)
Definition built : Fs.sys := Eval vm_compute in cleanup job linked.

(** The world once the project has changed: its fingerprint is another
    one. *)
Definition changed : World :=
  {| Now := Now world; Getenv := Getenv world; Environ := Environ world;
     Fingerprint := fun _ _ => Ok "new"; scaffolding_Write := scaffolding_Write world;
     git_describe := git_describe world;
     go_run := go_run world; registry := registry world;
     tar_encode := tar_encode world; deflate := deflate world;
     inflate := inflate world; json_Encode := json_Encode world;
     pythonBuilder := pythonBuilder world |}.

(** The project while another process, 99, builds it with the
    fingerprint [new], and the machine after the build of the
    fingerprint [abc] by process 77 beside it. *)
Definition shared : Fs.sys :=
  Fs.Sys (project ++
          [ (["p"; ".func"], Fs.Node Fs.Directory 493 1001 1001);
            (["p"; ".func"; "builds"], Fs.Node Fs.Directory 493 1001 1001);
            (["p"; ".func"; "builds"; "by-hash"], Fs.Node Fs.Directory 493 1001 1001);
            (["p"; ".func"; "builds"; "by-hash"; "new"], Fs.Node Fs.Directory 493 1001 1001);
            (["p"; ".func"; "builds"; "by-pid"], Fs.Node Fs.Directory 493 1001 1001);
            (["p"; ".func"; "builds"; "by-pid"; "99"],
             Fs.Node (Fs.SymLink "../by-hash/new") 511 1001 1001) ])
         [99] 77 1001 1001 18 false.
Definition shared_built : Fs.sys :=
  Eval vm_compute in snd (Build world (NewBuilder "host" false) f [amd64] shared).

(** The machine after the build of process 77 when that process has
    gone, before process 78; and the world once the project has
    changed, with a registry whose transfer breaks off. *)
Definition moved_on : Fs.sys :=
  Eval vm_compute in Fs.Sys (Fs.files built) [] 78 1001 1001 18 false.
Definition changed_cut : World :=
  {| Now := Now world; Getenv := Getenv world; Environ := Environ world;
     Fingerprint := fun _ _ => Ok "new"; scaffolding_Write := scaffolding_Write world;
     git_describe := git_describe world;
     go_run := go_run world; registry := registry interrupted;
     tar_encode := tar_encode world; deflate := deflate world;
     inflate := inflate world; json_Encode := json_Encode world;
     pythonBuilder := pythonBuilder world |}.
End Sample.

(** * Properties *)

(** Closes an equation between closed terms by evaluation; the right
    side is kept as it is written. *)
Ltac vm_refl :=
  lazymatch goal with
  | |- @eq ?T ?l ?r => vm_cast_no_check (@eq_refl T r)
  end.

(** ** Paths *)

Lemma split_nonempty s : Path.split s <> [].
Proof.
  destruct s as [|c s]; simpl; [discriminate|].
  destruct (Ascii.eqb c Path.Separator); [discriminate|].
  destruct (Path.split s); discriminate.
Qed.

Lemma split_app_sep a b :
  Path.split (a +:+ String Path.Separator b) = Path.split a ++ Path.split b.
Proof.
  induction a as [|c a IH]; simpl.
  - reflexivity.
  - destruct (Ascii.eqb c Path.Separator) eqn:E.
    + simpl. now rewrite IH.
    + rewrite IH.
      destruct (Path.split a) eqn:Ea; [now apply split_nonempty in Ea|].
      reflexivity.
Qed.

Lemma join_split s : Path.join (Path.split s) = s.
Proof.
  induction s as [|c s IH]; simpl; [reflexivity|].
  destruct (Ascii.eqb c Path.Separator) eqn:E.
  - apply Ascii.eqb_eq in E. subst c.
    destruct (Path.split s) eqn:Es; [now apply split_nonempty in Es|].
    simpl in *. now rewrite IH.
  - destruct (Path.split s) as [|h t] eqn:Es; [now apply split_nonempty in Es|].
    destruct t; simpl in *; now rewrite <- IH.
Qed.

(** A string free of separators is one element. *)
Definition sepfree (e : string) : Prop := Path.split e = [e].

Lemma sepfree_split s : Forall sepfree (Path.split s).
Proof.
  induction s as [|c s IH]; simpl.
  - repeat constructor.
  - destruct (Ascii.eqb c Path.Separator) eqn:E.
    + constructor; [reflexivity|exact IH].
    + destruct (Path.split s) as [|h t] eqn:Es; [now apply split_nonempty in Es|].
      inversion IH as [|? ? Hh Ht]; subst.
      constructor; [|exact Ht].
      unfold sepfree in *. simpl. rewrite E, Hh. reflexivity.
Qed.

Lemma plain_sepfree n : Path.plain n = true -> sepfree n.
Proof.
  unfold Path.plain, sepfree. intros H.
  apply andb_true_iff in H as [_ H].
  pose proof (join_split n) as J.
  destruct (Path.split n) as [|x [|y l]]; try discriminate.
  simpl in J. now subst.
Qed.

Lemma split_join es :
  es <> [] -> Forall sepfree es -> Path.split (Path.join es) = es.
Proof.
  induction es as [|e es IH]; [congruence|].
  intros _ H. inversion H as [|? ? He Hes]; subst.
  destruct es as [|e' es'].
  - exact He.
  - change (Path.join (e :: e' :: es')) with (e +:+ String Path.Separator (Path.join (e' :: es'))).
    rewrite split_app_sep, He, IH; [reflexivity|discriminate|exact Hes].
Qed.

Lemma clean_onto_app r l1 l2 out :
  Path.clean_onto r out (l1 ++ l2) = Path.clean_onto r (Path.clean_onto r out l1) l2.
Proof.
  revert out. induction l1 as [|e l1 IH]; intros out; simpl; [reflexivity|].
  destruct (_ || _); [apply IH|].
  destruct (String.eqb e "..").
  - destruct out as [|top below]; [destruct r; apply IH|].
    destruct (String.eqb top ".."); apply IH.
  - apply IH.
Qed.

Lemma plain_parts n :
  Path.plain n = true ->
  String.eqb n "" = false /\ String.eqb n "." = false /\ String.eqb n ".." = false.
Proof.
  unfold Path.plain. intros H.
  repeat (apply andb_true_iff in H as [H ?]).
  repeat split; now apply negb_true_iff.
Qed.

Lemma clean_onto_plain r names out :
  Forall (fun n => Path.plain n = true) names ->
  Path.clean_onto r out names = rev names ++ out.
Proof.
  intros H. revert out. induction H as [|n names Hn _ IH]; intros out; simpl; [reflexivity|].
  destruct (plain_parts n Hn) as (-> & -> & ->). simpl.
  rewrite IH, <- app_assoc. reflexivity.
Qed.

(** The elements of a rooted path are plain names. *)
Lemma clean_onto_rooted l out :
  Forall sepfree l ->
  Forall (fun n => Path.plain n = true) out ->
  Forall (fun n => Path.plain n = true) (Path.clean_onto true out l).
Proof.
  intros Hl. revert out. induction Hl as [|e l He _ IH]; intros out Hout; simpl; [exact Hout|].
  destruct (String.eqb e "") eqn:E1; [now apply IH|].
  destruct (String.eqb e ".") eqn:E2; [now apply IH|]. simpl.
  destruct (String.eqb e "..") eqn:E3.
  - destruct out as [|top below]; [now apply IH|].
    inversion Hout as [|? ? Ht Hb]; subst.
    destruct (plain_parts top Ht) as (_ & _ & ->). now apply IH.
  - apply IH. constructor; [|exact Hout].
    unfold Path.plain. rewrite E1, E2, E3, He. reflexivity.
Qed.

Lemma elements_rooted p :
  Path.IsAbs p = true -> Forall (fun n => Path.plain n = true) (Path.elements p).
Proof.
  intros H. unfold Path.elements. rewrite H.
  apply Forall_rev, clean_onto_rooted; [apply sepfree_split|constructor].
Qed.

Lemma IsAbs_app a b : a <> "" -> Path.IsAbs (a +:+ b) = Path.IsAbs a.
Proof. destruct a; [congruence|reflexivity]. Qed.

Lemma join_cons e es :
  es <> [] -> Path.join (e :: es) = e +:+ String Path.Separator (Path.join es).
Proof. destruct es; [congruence|reflexivity]. Qed.

Lemma elements_join R names :
  R <> "" ->
  Forall (fun n => Path.plain n = true) names ->
  Path.IsAbs (Path.join (R :: names)) = Path.IsAbs R /\
  Path.elements (Path.join (R :: names)) = Path.elements R ++ names.
Proof.
  intros HR Hn. destruct names as [|n names].
  - simpl. now rewrite app_nil_r.
  - rewrite join_cons by discriminate.
    rewrite (IsAbs_app R _ HR). split; [reflexivity|].
    unfold Path.elements. rewrite (IsAbs_app R _ HR), split_app_sep.
    rewrite split_join; [|discriminate|].
    + rewrite clean_onto_app, clean_onto_plain by exact Hn.
      rewrite rev_app_distr, rev_involutive. reflexivity.
    + eapply Forall_impl; [exact Hn|]. intros. now apply plain_sepfree.
Qed.

(** What [filepath.Join] of a rooted path and plain names is. *)
Lemma Join_rooted R names :
  Path.IsAbs R = true ->
  Forall (fun n => Path.plain n = true) names ->
  Path.Join (R :: names) = Path.print true (Path.elements R ++ names).
Proof.
  intros HR Hn.
  assert (R <> "") as HR' by (intros ->; discriminate).
  unfold Path.Join. fold Path.Join.
  destruct (String.eqb R "") eqn:E; [apply String.eqb_eq in E; congruence|].
  unfold Path.Clean.
  destruct (elements_join R names HR' Hn) as [-> ->]. now rewrite HR.
Qed.

(** The elements of a path that the resolution does not skip. *)
Definition comps (p : string) : list string :=
  filter (fun c => Is_true (negb (String.eqb c "" || String.eqb c "."))) (Path.split p).

Lemma filter_plain names :
  Forall (fun n => Path.plain n = true) names ->
  filter (fun c => Is_true (negb (String.eqb c "" || String.eqb c "."))) names = names.
Proof.
  induction 1 as [|n names Hn _ IH]; [reflexivity|].
  rewrite filter_cons_True; [now rewrite IH|].
  destruct (plain_parts n Hn) as (-> & -> & _). exact I.
Qed.

Lemma comps_print names :
  Forall (fun n => Path.plain n = true) names ->
  comps (Path.print true names) = names.
Proof.
  intros Hn. unfold comps, Path.print.
  destruct names as [|n names]; [reflexivity|].
  change (String Path.Separator (Path.join (n :: names)))
    with ("" +:+ String Path.Separator (Path.join (n :: names))).
  rewrite split_app_sep, split_join; [|discriminate|].
  - simpl Path.split. rewrite filter_app, (filter_plain (n :: names)) by exact Hn.
    reflexivity.
  - eapply Forall_impl; [exact Hn|]. intros. now apply plain_sepfree.
Qed.

Lemma comps_Join R names :
  Path.IsAbs R = true ->
  Forall (fun n => Path.plain n = true) names ->
  comps (Path.Join (R :: names)) = Path.elements R ++ names.
Proof.
  intros HR Hn. rewrite Join_rooted by assumption.
  apply comps_print, Forall_app. split; [now apply elements_rooted|exact Hn].
Qed.

(** ** The tarballs *)

Lemma hd_split_cons c s :
  hd "" (Path.split (String c s)) =
  if Ascii.eqb c Path.Separator then "" else String c (hd "" (Path.split s)).
Proof.
  simpl. destruct (Ascii.eqb c Path.Separator); [reflexivity|].
  destruct (Path.split s) eqn:E; [now apply split_nonempty in E|reflexivity].
Qed.

Lemma prefix_cons a s b t :
  String.prefix (String a s) (String b t) = Ascii.eqb a b && String.prefix s t.
Proof.
  simpl. destruct (ascii_dec a b) as [->|N].
  - now rewrite Ascii.eqb_refl.
  - apply Ascii.eqb_neq in N. now rewrite N.
Qed.

(** The test of [validatedLinkTarget] is the test for a first element
    [..]. *)
Lemma escapes_iff rel :
  (Path.HasPrefix rel "../" || String.eqb rel "..") = begins_with_parent rel.
Proof.
  unfold begins_with_parent, Path.HasPrefix.
  destruct rel as [|c1 rel]; [reflexivity|].
  rewrite hd_split_cons, prefix_cons. simpl String.eqb.
  rewrite (Ascii.eqb_sym c1).
  destruct (Ascii.eqb "." c1) eqn:E1.
  2:{ simpl. destruct (Ascii.eqb c1 Path.Separator); [reflexivity|].
      simpl. rewrite Ascii.eqb_sym, E1. reflexivity. }
  apply Ascii.eqb_eq in E1. subst c1. simpl.
  destruct rel as [|c2 rel]; [reflexivity|].
  rewrite hd_split_cons, prefix_cons. simpl String.eqb.
  rewrite (Ascii.eqb_sym c2).
  destruct (Ascii.eqb "." c2) eqn:E2.
  2:{ simpl. destruct (Ascii.eqb c2 Path.Separator); [reflexivity|].
      simpl. rewrite Ascii.eqb_sym, E2. reflexivity. }
  apply Ascii.eqb_eq in E2. subst c2. simpl.
  destruct rel as [|c3 rel]; [reflexivity|].
  rewrite hd_split_cons, prefix_cons.
  change (Ascii.eqb "/" c3) with (Ascii.eqb Path.Separator c3).
  rewrite (Ascii.eqb_sym Path.Separator c3).
  destruct (Ascii.eqb c3 Path.Separator) eqn:E3.
  - destruct rel; reflexivity.
  - reflexivity.
Qed.

(** What [walkFn] does at a symbolic link. *)
Lemma walkFn_link st root ignored path info tgt tw :
  Fs.IsSymlink info = true ->
  Fs.Readlink st path = Ok tgt ->
  let visit := walkFn st root ignored path (Some info) None tw in
  if existsb (String.eqb (Fs.fi_name info)) ignored then visit = (None, tw)
  else
    (Path.IsAbs tgt = true -> visit = (Some (Stop ErrAbsoluteLink), tw)) /\
    (Path.IsAbs tgt = false ->
     forall rel, Path.Rel root (Path.Join [Path.Dir path; tgt]) = Some rel ->
       (begins_with_parent rel = true ->
        visit = (Some (Stop ErrLinkEscapesRoot), tw)) /\
       (begins_with_parent rel = false ->
        forall relPath, Path.Rel root path = Some relPath ->
          exists header,
            visit = (None, tw ++ [(header, "")]) /\
            Typeflag header = TypeSymlink /\
            Linkname header = tgt /\
            Name header = Path.Join ["/func"; relPath])).
Proof.
  intros Hlink Hread visit. subst visit.
  unfold walkFn. destruct (existsb _ ignored).
  { unfold Fs.IsSymlink in Hlink. unfold Fs.IsDir.
    destruct (Fs.fi_kind info); try discriminate. reflexivity. }
  rewrite Hlink. unfold validatedLinkTarget. rewrite Hread.
  split.
  - intros ->. reflexivity.
  - intros -> rel ->. rewrite escapes_iff. split.
    + intros ->. reflexivity.
    + intros -> relPath ->.
      unfold Fs.IsSymlink in Hlink. unfold FileInfoHeader, Fs.IsRegular.
      destruct (Fs.fi_kind info); try discriminate.
      eexists. split; [reflexivity|]. simpl. auto.
Qed.

(** An entry that is no directory is visited once. *)
Lemma walk_file depth st fn path info tw :
  Fs.IsDir info = false ->
  walk (S depth) st fn path info tw = fn path (Some info) None tw.
Proof. intros H. simpl. now rewrite H. Qed.

(** An error stops the loop over a directory. *)
Lemma walk_names_stop st fn rec path name rest info tw e tw' :
  Fs.Lstat st (Path.Join [path; name]) = Ok info ->
  rec (Path.Join [path; name]) info tw = (Some (Stop e), tw') ->
  walk_names st fn rec path (name :: rest) tw = (Some (Stop e), tw').
Proof. intros H1 H2. cbn [walk_names]. now rewrite H1, H2. Qed.

Example Build_absolute_link :
  fst (Build Sample.world (NewBuilder "host" false) Sample.f [Sample.amd64] Sample.absolute_link)
  = Err ErrAbsoluteLink.
Proof. vm_compute. reflexivity. Qed.

Example Build_escaping_link :
  fst (Build Sample.world (NewBuilder "host" false) Sample.f [Sample.amd64] Sample.escaping_link)
  = Err ErrLinkEscapesRoot.
Proof. vm_compute. reflexivity. Qed.

Lemma walkFn_owner st root ignored path info err tw :
  Forall owned_by_default tw ->
  Forall owned_by_default (snd (walkFn st root ignored path info err tw)).
Proof.
  intros H. unfold walkFn.
  destruct err; [exact H|]. destruct info as [info|]; [|exact H].
  destruct (existsb _ ignored); [destruct (Fs.IsDir info); exact H|].
  destruct (if Fs.IsSymlink info then _ else _); [|exact H].
  destruct (FileInfoHeader info a); [|exact H].
  destruct (Path.Rel root path); [|exact H].
  assert (forall data,
            Forall owned_by_default
              (tw ++ [({| Typeflag := Typeflag a0; Name := Path.Join ["/func"; s];
                          Linkname := Linkname a0; Size := Size a0; Mode := Mode a0;
                          Uid := DefaultUid; Gid := DefaultGid |}, data)])) as Hadd.
  { intros data. apply Forall_app. split; [exact H|]. repeat constructor. }
  destruct (negb (Fs.IsRegular info)); [apply Hadd|].
  destruct (Fs.ReadFile st path); apply Hadd.
Qed.

Lemma walk_names_owner st fn rec path names tw :
  (forall p i e t, Forall owned_by_default t -> Forall owned_by_default (snd (fn p i e t))) ->
  (forall p i t, Forall owned_by_default t -> Forall owned_by_default (snd (rec p i t))) ->
  Forall owned_by_default tw ->
  Forall owned_by_default (snd (walk_names st fn rec path names tw)).
Proof.
  intros Hfn Hrec. revert tw. induction names as [|name rest IH]; intros tw H; [exact H|].
  cbn [walk_names]. destruct (Fs.Lstat st _) as [fi|e].
  - specialize (Hrec (Path.Join [path; name]) fi tw H).
    destruct (rec _ fi tw) as [[[|e']|] tw']; simpl in Hrec.
    + destruct (Fs.IsDir fi); [now apply IH|exact Hrec].
    + exact Hrec.
    + now apply IH.
  - specialize (Hfn (Path.Join [path; name]) None (Some e) tw H).
    destruct (fn _ None (Some e) tw) as [[[|e']|] tw']; simpl in Hfn;
      [now apply IH|exact Hfn|now apply IH].
Qed.

Lemma walk_owner depth st fn path info tw :
  (forall p i e t, Forall owned_by_default t -> Forall owned_by_default (snd (fn p i e t))) ->
  Forall owned_by_default tw ->
  Forall owned_by_default (snd (walk depth st fn path info tw)).
Proof.
  intros Hfn. revert path info tw.
  induction depth as [|depth IH]; intros path info tw H; [exact H|].
  cbn [walk]. destruct (negb (Fs.IsDir info)); [now apply Hfn|].
  pose proof (Hfn path (Some info)
                (match Fs.ReadDir st path with Err e => Some e | Ok _ => None end) tw H) as H1.
  destruct (fn path (Some info) _ tw) as [err1 tw1]. simpl in H1.
  destruct (Fs.ReadDir st path) as [names|e]; [|exact H1].
  destruct err1; [exact H1|].
  apply walk_names_owner; auto.
Qed.

(** Every entry of the source data tarball is owned by the default
    user and group. *)
Lemma Walk_owner st root ignored :
  Forall owned_by_default (snd (Walk st root (walkFn st root ignored) [])).
Proof.
  unfold Walk.
  assert (Forall owned_by_default
            (snd (match Fs.Lstat st root with
                  | Err e => walkFn st root ignored root None (Some e) []
                  | Ok info =>
                      walk (S (length (Fs.files st))) st (walkFn st root ignored) root info []
                  end))) as H.
  { destruct (Fs.Lstat st root).
    - apply walk_owner; [intros; now apply walkFn_owner|constructor].
    - apply walkFn_owner. constructor. }
  destruct (match Fs.Lstat st root with Err _ => _ | Ok _ => _ end) as [[[|e]|] tw];
    exact H.
Qed.

(** So is every entry of the certificates tarball. *)
Lemma certs_entries_owner st source fi paths tw :
  Forall owned_by_default tw ->
  Forall owned_by_default (snd (certs_entries st source fi paths tw)).
Proof.
  revert tw. induction paths as [|path rest IH]; intros tw H; [exact H|].
  cbn [certs_entries]. unfold FileInfoHeader.
  destruct (Fs.ReadFile st source).
  - apply IH. apply Forall_app. split; [exact H|]. repeat constructor.
  - simpl. apply Forall_app. split; [exact H|]. repeat constructor.
Qed.

(** C3: the executable tarball of the Go plugin does not set the owner
    of its entry.  The binary that user 1001 compiled goes into the
    layer with uid 1001 and gid 1001, where the claim has 1000. *)
Theorem goExeTarball_keeps_owner :
  let header :=
    {| Typeflag := TypeReg; Name := "/func/f"; Linkname := ""; Size := 3;
       Mode := 493; Uid := 1001; Gid := 1001 |} in
  exists st,
    goExeTarball Sample.world "/b/f" "/b/execlayer.tar.gz" Sample.compiled = (Ok tt, st) /\
    Fs.ReadFile st "/b/execlayer.tar.gz" = Ok (targz Sample.world [(header, "ELF")]) /\
    Sample.tar [(header, "ELF")] = "/func/f 1001:1001 ELF;" /\
    ~ owned_by_default (header, "ELF").
Proof.
  eexists. split; [vm_compute; reflexivity|].
  split; [vm_compute; reflexivity|].
  split; [vm_compute; reflexivity|].
  intros [H _]. discriminate H.
Qed.

(** ** The configuration and the manifest *)

Lemma bind_Ok {A B} (m : M A) (k : A -> M B) st b st' :
  bind m k st = (Ok b, st') ->
  exists a st1, m st = (Ok a, st1) /\ k a st1 = (Ok b, st').
Proof.
  unfold bind. destruct (m st) as [[a|e] st1]; [eauto|discriminate].
Qed.

Lemma lift_Ok {A} (r : result A) st a st' :
  lift r st = (Ok a, st') -> r = Ok a /\ st' = st.
Proof. unfold lift. intros [= -> ->]. auto. Qed.

Lemma read_Ok {A} (f : Fs.sys -> result A) st a st' :
  read f st = (Ok a, st') -> f st = Ok a /\ st' = st.
Proof. unfold read. intros [= -> ->]. auto. Qed.

Lemma ret_Ok {A} (x : A) st a st' :
  ret x st = (Ok a, st') -> a = x /\ st' = st.
Proof. unfold ret. intros [= -> ->]. auto. Qed.

Lemma with_DiffIDs_same cfg :
  with_DiffIDs cfg (DiffIDs (CF_RootFS cfg) ++ []) = cfg.
Proof. destruct cfg as [? ? ? ? ? ? ? []]. unfold with_DiffIDs. simpl. now rewrite app_nil_r. Qed.

Lemma populate_DiffIDs_spec layers cfg cfg' :
  populate_DiffIDs cfg layers = Ok cfg' ->
  exists ids, diffIDs_of layers ids /\
              cfg' = with_DiffIDs cfg (DiffIDs (CF_RootFS cfg) ++ ids).
Proof.
  revert cfg. induction layers as [|l layers IH]; intros cfg H; simpl in H.
  - injection H as <-. exists []. split; [constructor|]. now rewrite with_DiffIDs_same.
  - destruct (L_DiffID (IL_Layer l)) as [id|] eqn:E; [|discriminate].
    apply IH in H as (ids & Hids & ->).
    exists (id :: ids). split; [now constructor|].
    unfold with_DiffIDs. simpl. now rewrite <- app_assoc.
Qed.

(** C7: with a base image, the configuration takes the user of the
    base unless that is empty, and then is 1000:1000; the environment,
    the history and the diff ids of the base come first, in their
    order, before the environment of the build, its one history entry
    and the diff ids of the new layers. *)
Theorem newConfigFile_base w job p base baseCfg layers st cfg :
  Img_ConfigFile base = Ok baseCfg ->
  newConfigFile w job p (Some base) layers st = Ok cfg ->
  User (CF_Config cfg)
  = (if String.eqb (User (CF_Config baseCfg)) "" then "1000:1000"
     else User (CF_Config baseCfg)) /\
  Env (CF_Config cfg) = Env (CF_Config baseCfg) ++ newConfigEnvs w job st /\
  CF_History cfg
  = CF_History baseCfg
    ++ [ {| Author := "func"; H_Created := start job;
            Comment := "func host builder"; EmptyLayer := true |} ] /\
  exists ids, diffIDs_of layers ids /\
              DiffIDs (CF_RootFS cfg) = DiffIDs (CF_RootFS baseCfg) ++ ids.
Proof.
  intros Hbase H. unfold newConfigFile in H.
  destruct (populate_DiffIDs _ layers) as [cfg1|] eqn:E; [|discriminate].
  rewrite Hbase in H. injection H as <-.
  apply populate_DiffIDs_spec in E as (ids & Hids & ->). simpl.
  repeat split.
  - destruct (String.eqb (User (CF_Config baseCfg)) ""); reflexivity.
  - destruct (String.eqb (User (CF_Config baseCfg)) ""); reflexivity.
  - destruct (String.eqb (User (CF_Config baseCfg)) ""); reflexivity.
  - exists ids. split; [exact Hids|].
    destruct (String.eqb (User (CF_Config baseCfg)) ""); reflexivity.
Qed.

Lemma newConfigFile_base_witness :
  let p := {| OS := "linux"; Architecture := "amd64"; Variant := ""; OSVersion := "" |} in
  exists baseCfg cfg,
    Img_ConfigFile Sample.base = Ok baseCfg /\
    newConfigFile Sample.world Sample.job p (Some Sample.base) [] Sample.machine = Ok cfg /\
    (User (CF_Config cfg)
     = (if String.eqb (User (CF_Config baseCfg)) "" then "1000:1000"
        else User (CF_Config baseCfg)) /\
     Env (CF_Config cfg)
     = Env (CF_Config baseCfg) ++ newConfigEnvs Sample.world Sample.job Sample.machine /\
     CF_History cfg
     = CF_History baseCfg
       ++ [ {| Author := "func"; H_Created := start Sample.job;
               Comment := "func host builder"; EmptyLayer := true |} ] /\
     exists ids, diffIDs_of [] ids /\
                 DiffIDs (CF_RootFS cfg) = DiffIDs (CF_RootFS baseCfg) ++ ids).
Proof.
  intros p. eexists. eexists.
  split; [vm_compute; reflexivity|].
  split; [vm_compute; reflexivity|].
  eapply (newConfigFile_base Sample.world Sample.job p Sample.base);
    vm_compute; reflexivity.
Defined.

(** The sample base image runs as user 65532, and so does the image
    built on it. *)
Example User_of_base :
  (fun cfg => User (CF_Config cfg))
    <$> match newConfigFile Sample.world Sample.job
                {| OS := "linux"; Architecture := "amd64"; Variant := ""; OSVersion := "" |}
                (Some Sample.base) [] Sample.machine with
        | Ok cfg => Some cfg
        | Err _ => None
        end
  = Some "65532".
Proof. vm_compute. reflexivity. Qed.

Lemma with_Env_env c env : Env (with_Env c env) = env.
Proof. reflexivity. Qed.

(** The environment [newConfigFile] composes: that of the base, then
    that of the build. *)
Lemma newConfigFile_env w job p base layers st cfg :
  newConfigFile w job p base layers st = Ok cfg ->
  Env (CF_Config cfg) = base_env base ++ newConfigEnvs w job st.
Proof.
  intros H. unfold newConfigFile in H.
  destruct (populate_DiffIDs _ layers) as [cfg1|] eqn:E; [|discriminate].
  apply populate_DiffIDs_spec in E as (ids & _ & ->).
  destruct base as [b|]; simpl.
  - destruct (Img_ConfigFile b) as [baseCfg|]; [|discriminate].
    injection H as <-.
    destruct (String.eqb (User (CF_Config baseCfg)) ""); reflexivity.
  - injection H as <-. reflexivity.
Qed.

Lemma populate_DiffIDs_total layers cfg :
  Forall (fun l => exists id, L_DiffID (IL_Layer l) = Ok id) layers ->
  exists cfg', populate_DiffIDs cfg layers = Ok cfg'.
Proof.
  intros H. revert cfg. induction H as [|l layers (id & Hid) _ IH]; intros cfg; simpl.
  - eauto.
  - rewrite Hid. apply IH.
Qed.

(** C9: the configuration is made whenever the diff ids of the layers
    and the configuration of the base image, if there is one, can be
    read, whether [git describe --tags] succeeds or fails; and the
    environment of the configuration the Go plugin is done with is,
    after that of the base image, the start of the job in RFC 3339,
    the version [git describe --tags] printed, trimmed, or the empty
    version when it failed, then the environment the function
    declares, then the listen address of the plugin. *)
Theorem go_config_env w job p base layers st :
  Forall (fun l => exists id, L_DiffID (IL_Layer l) = Ok id) layers ->
  (forall b, base = Some b -> exists baseCfg, Img_ConfigFile b = Ok baseCfg) ->
  let gitbin := if String.eqb (Getenv w "FUNC_GIT") "" then "git" else Getenv w "FUNC_GIT" in
  exists cfg0 cfg,
    newConfigFile w job p base layers st = Ok cfg0 /\
    Configure (goBuilder w) job p cfg0 = Ok cfg /\
    Env (CF_Config cfg)
    = base_env base
      ++ ["FUNC_CREATED=" +:+ Format_RFC3339 (start job);
          "FUNC_VERSION=" +:+ match git_describe w gitbin (Root (function job)) st with
                              | Ok output => Str.TrimSpace output
                              | Err _ => ""
                              end]
      ++ Envs_Slice (function job)
      ++ ["LISTEN_ADDRESS=[::]:8080"].
Proof.
  intros Hl Hb gitbin.
  assert (exists cfg0, newConfigFile w job p base layers st = Ok cfg0) as (cfg0 & H0).
  { unfold newConfigFile.
    destruct (populate_DiffIDs_total layers
                {| Created := start job; CF_Architecture := Architecture p; CF_OS := OS p;
                   CF_OSVersion := OSVersion p; CF_Variant := Variant p;
                   CF_Config :=
                     {| Env := newConfigEnvs w job st; Volumes := newConfigVolumes job;
                        ExposedPorts := {["8080/tcp"]}; WorkingDir := "/func/";
                        StopSignal := "SIGKILL";
                        User := Str.Itoa DefaultUid +:+ ":" +:+ Str.Itoa DefaultGid;
                        Cmd := [] |};
                   CF_History :=
                     [ {| Author := "func"; H_Created := start job;
                          Comment := "func host builder"; EmptyLayer := true |} ];
                   CF_RootFS := {| RF_Type := "layers"; DiffIDs := [] |} |} Hl)
      as (cfg1 & ->).
    destruct base as [b|]; [|eauto].
    destruct (Hb b eq_refl) as (baseCfg & ->). eauto. }
  exists cfg0. eexists. split; [exact H0|]. split; [reflexivity|].
  apply newConfigFile_env in H0. simpl. rewrite H0.
  unfold newConfigEnvs. fold gitbin.
  destruct (git_describe w gitbin (Root (function job)) st); simpl;
    now rewrite <- !app_assoc.
Qed.

Lemma go_config_env_witness :
  let p := {| OS := "linux"; Architecture := "amd64"; Variant := ""; OSVersion := "" |} in
  let layers := concat (map PI_Specific Sample.images) in
  Forall (fun l => exists id, L_DiffID (IL_Layer l) = Ok id) layers /\
  (forall b, Some Sample.base = Some b -> exists baseCfg, Img_ConfigFile b = Ok baseCfg) /\
  exists cfg0 cfg,
    newConfigFile Sample.offline Sample.job p (Some Sample.base) layers Sample.machine
    = Ok cfg0 /\
    Configure (goBuilder Sample.offline) Sample.job p cfg0 = Ok cfg /\
    Env (CF_Config cfg)
    = base_env (Some Sample.base)
      ++ ["FUNC_CREATED=" +:+ Format_RFC3339 (start Sample.job);
          "FUNC_VERSION=" +:+ match git_describe Sample.offline "git" "/p" Sample.machine with
                              | Ok output => Str.TrimSpace output
                              | Err _ => ""
                              end]
      ++ Envs_Slice (function Sample.job)
      ++ ["LISTEN_ADDRESS=[::]:8080"].
Proof.
  intros p layers.
  assert (Forall (fun l => exists id, L_DiffID (IL_Layer l) = Ok id) layers) as H1.
  { repeat constructor. eexists. reflexivity. }
  assert (forall b, Some Sample.base = Some b ->
                    exists baseCfg, Img_ConfigFile b = Ok baseCfg) as H2.
  { intros b [= <-]. eexists. reflexivity. }
  split; [exact H1|]. split; [exact H2|].
  exact (go_config_env Sample.offline Sample.job p (Some Sample.base) layers Sample.machine
           H1 H2).
Defined.

(** Without git the sample configuration is still made, on the sample
    base, with an empty version. *)
Example offline_env :
  (fun cfg => Env (CF_Config cfg))
    <$> match newConfigFile Sample.offline Sample.job
                {| OS := "linux"; Architecture := "amd64"; Variant := ""; OSVersion := "" |}
                (Some Sample.base) [] Sample.machine with
        | Ok cfg => Some cfg
        | Err _ => None
        end
  = Some ["PATH=/usr/bin"; "FUNC_CREATED=2024-05-07T13:04:09+02:00"; "FUNC_VERSION="; "A=b"].
Proof. vm_compute. reflexivity. Qed.

(** White space goes from both ends of what git printed, the
    no-break space U+00A0 and the next line U+0085 with it. *)
Example TrimSpace_unicode :
  Str.TrimSpace (Str.of_bytes [194; 160; 32; 118; 49; 46; 50; 10; 194; 133; 13]) = "v1.2" /\
  Str.TrimSpace (Str.of_bytes [118; 49; 160; 32]) = Str.of_bytes [118; 49; 160].
Proof. split; vm_compute; reflexivity. Qed.

(** The environment of the sample build. *)
Example sample_env :
  (fun cfg => Env (CF_Config cfg)) <$> head (map PI_ConfigFile Sample.images)
  = Some ["FUNC_CREATED=2024-05-07T13:04:09+02:00"; "FUNC_VERSION=v1.2"; "A=b";
          "LISTEN_ADDRESS=[::]:8080"].
Proof. vm_compute. reflexivity. Qed.

(** A failing [git describe] leaves the version empty and the build
    going. *)
Example FUNC_VERSION_empty :
  let w := {| Now := Now Sample.world; Getenv := Getenv Sample.world;
              Environ := Environ Sample.world; Fingerprint := Fingerprint Sample.world;
              scaffolding_Write := scaffolding_Write Sample.world;
              git_describe := fun _ _ _ => Err (ErrorNew "exit status 128");
              go_run := go_run Sample.world; registry := registry Sample.world;
              tar_encode := tar_encode Sample.world; deflate := deflate Sample.world;
              inflate := inflate Sample.world; json_Encode := json_Encode Sample.world;
              pythonBuilder := pythonBuilder Sample.world |} in
  newConfigEnvs w Sample.job Sample.machine
  = ["FUNC_CREATED=2024-05-07T13:04:09+02:00"; "FUNC_VERSION="; "A=b"].
Proof. vm_compute. reflexivity. Qed.

Lemma newConfigFile_diffIDs w job p base layers st cfg :
  newConfigFile w job p base layers st = Ok cfg ->
  exists ids, diffIDs_of layers ids /\
              DiffIDs (CF_RootFS cfg) = base_diffIDs base ++ ids.
Proof.
  intros H. unfold newConfigFile in H.
  destruct (populate_DiffIDs _ layers) as [cfg1|] eqn:E; [|discriminate].
  apply populate_DiffIDs_spec in E as (ids & Hids & ->).
  exists ids. split; [exact Hids|].
  destruct base as [b|]; simpl.
  - destruct (Img_ConfigFile b) as [baseCfg|]; [|discriminate].
    injection H as <-.
    destruct (String.eqb (User (CF_Config baseCfg)) ""); reflexivity.
  - injection H as <-. reflexivity.
Qed.

Lemma newManifest_layers base configDesc layers m :
  newManifest base configDesc layers = Ok m ->
  Layers m = base_layers base ++ map IL_Descriptor layers.
Proof.
  unfold newManifest, base_layers. intros H.
  destruct base as [b|].
  - destruct (Img_Manifest b); [|discriminate]. now injection H as <-.
  - now injection H as <-.
Qed.

Lemma containerizePlatform_order w lb job sharedLayers p st im st' :
  (forall j q cf cf', Configure lb j q cf = Ok cf' -> CF_RootFS cf' = CF_RootFS cf) ->
  containerizePlatform w lb job sharedLayers p st = (Ok im, st') ->
  PI_Platform im = p /\ layers_in_order w lb job sharedLayers im.
Proof.
  intros Hcfg H. unfold containerizePlatform in H.
  apply bind_Ok in H as (plat & s1 & Hplat & H).
  apply bind_Ok in H as (base & s2 & Hbase & H).
  apply bind_Ok in H as (cf0 & s3 & Hnew & H). apply read_Ok in Hnew as [Hnew ->].
  apply bind_Ok in H as (cf & s4 & Hconf & H). apply lift_Ok in Hconf as [Hconf ->].
  apply bind_Ok in H as (config & s5 & Hwc & H).
  apply bind_Ok in H as (wr & s6 & Hwm & H).
  apply ret_Ok in H as [-> ->].
  unfold writeManifest in Hwm.
  apply bind_Ok in Hwm as (m & s7 & Hman & Hwm). apply lift_Ok in Hman as [Hman ->].
  apply bind_Ok in Hwm as (md & s8 & Hblob & Hwm).
  apply ret_Ok in Hwm as [-> ->].
  simpl. split; [reflexivity|]. unfold layers_in_order. simpl.
  split; [eauto|].
  split; [now apply newManifest_layers in Hman|].
  apply newConfigFile_diffIDs in Hnew as (ids & Hids & Hd).
  exists ids. split; [exact Hids|].
  now rewrite (Hcfg _ _ _ _ Hconf).
Qed.

Lemma containerizePlatforms_order w lb job sharedLayers pp st images st' :
  (forall j q cf cf', Configure lb j q cf = Ok cf' -> CF_RootFS cf' = CF_RootFS cf) ->
  containerizePlatforms w lb job sharedLayers pp st = (Ok images, st') ->
  map PI_Platform images = pp /\
  Forall (layers_in_order w lb job sharedLayers) images.
Proof.
  intros Hcfg. revert st images.
  induction pp as [|p pp IH]; intros st images H; simpl in H.
  - apply ret_Ok in H as [-> _]. split; constructor.
  - apply bind_Ok in H as (im & s1 & Him & H).
    apply bind_Ok in H as (ims & s2 & Hims & H).
    apply ret_Ok in H as [-> ->].
    apply (containerizePlatform_order _ _ _ _ _ _ _ _ Hcfg) in Him as [Hp Him].
    apply IH in Hims as [Hpp Hims].
    split; [simpl; congruence|now constructor].
Qed.

(** The Go plugin leaves the root file system of the configuration as
    it finds it. *)
Lemma go_Configure_RootFS w j q cf cf' :
  Configure (goBuilder w) j q cf = Ok cf' -> CF_RootFS cf' = CF_RootFS cf.
Proof. simpl. now intros [= <-]. Qed.

(** C2: after a successful [containerize] there is one image for each
    platform of the job, in their order, and each has its layers in
    order: in the manifest the layers of the base (when there is one),
    then the data layer, the certificates layer, the shared layers of
    the plugin and its layers for the platform; in the configuration
    the diff ids of the base, then those of the same layers.  The
    plugin is any whose [Configure] leaves the root file system of the
    configuration alone, as the Go plugin does. *)
Theorem manifest_layer_order w lb job st images st' :
  (forall j q cf cf', Configure lb j q cf = Ok cf' -> CF_RootFS cf' = CF_RootFS cf) ->
  containerize w lb job st = (Ok images, st') ->
  exists data certs shared s0 s1 s2 s3,
    writeDataLayer w job s0 = (Ok data, s1) /\
    writeCertsLayer w job s1 = (Ok certs, s2) /\
    WriteShared lb job s2 = (Ok shared, s3) /\
    map PI_Platform images = platforms job /\
    Forall (layers_in_order w lb job ([data; certs] ++ shared)) images.
Proof.
  intros Hcfg H. unfold containerize in H.
  apply bind_Ok in H as (_u & s0 & _ & H).
  apply bind_Ok in H as (data & s1 & Hdata & H).
  apply bind_Ok in H as (certs & s2 & Hcerts & H).
  apply bind_Ok in H as (shared & s3 & Hshared & H).
  apply bind_Ok in H as (ims & s4 & Hims & H).
  apply bind_Ok in H as (_v & s5 & _ & H).
  apply ret_Ok in H as [-> ->].
  apply (containerizePlatforms_order _ _ _ _ _ _ _ _ Hcfg) in Hims as [Hpp Hims].
  exists data, certs, shared, s0, s1, s2, s3. auto.
Qed.

Lemma manifest_layer_order_witness :
  (forall j q cf cf',
      Configure (goBuilder Sample.world) j q cf = Ok cf' -> CF_RootFS cf' = CF_RootFS cf) /\
  containerize Sample.world (goBuilder Sample.world) Sample.job Sample.scaffolded
  = (Ok Sample.images, Sample.containerized) /\
  exists data certs shared s0 s1 s2 s3,
    writeDataLayer Sample.world Sample.job s0 = (Ok data, s1) /\
    writeCertsLayer Sample.world Sample.job s1 = (Ok certs, s2) /\
    WriteShared (goBuilder Sample.world) Sample.job s2 = (Ok shared, s3) /\
    map PI_Platform Sample.images = platforms Sample.job /\
    Forall (layers_in_order Sample.world (goBuilder Sample.world) Sample.job
                            ([data; certs] ++ shared)) Sample.images.
Proof.
  split; [apply go_Configure_RootFS|].
  split; [vm_refl|].
  apply (manifest_layer_order Sample.world (goBuilder Sample.world) Sample.job
           Sample.scaffolded Sample.images Sample.containerized).
  - apply go_Configure_RootFS.
  - vm_refl.
Defined.

(** The sample build on one platform: three layers, data, certificates
    and executable, and their three diff ids. *)
Example sample_layers :
  map (fun im => (length (Layers (PI_Manifest im)),
                  length (DiffIDs (CF_RootFS (PI_ConfigFile im)))))
      Sample.images
  = [(3%nat, 3%nat)].
Proof. vm_compute. reflexivity. Qed.

(** ** The coordinator: [setup], [cleanup] and the liveness check *)

Lemma keq_spec a b : Fs.keq a b = true <-> a = b.
Proof.
  revert b. induction a as [|x a IH]; intros [|y b]; simpl; try (split; congruence).
  rewrite andb_true_iff, String.eqb_eq, IH. split; [intros [-> ->]|intros [= -> ->]]; auto.
Qed.

Lemma mkdir_all_not_in_progress st path mode rest t dest :
  in_progress (fst (Fs.mkdir_all st path mode t dest rest)) = false.
Proof.
  revert t dest. induction rest as [|c rest IH]; intros t dest;
    cbn [Fs.mkdir_all]; [reflexivity|].
  destruct (_ || _); [apply IH|].
  destruct (String.eqb c ".."); [apply IH|].
  destruct (Fs.lookup t (dest ++ [c])) as [n|]; [|apply IH].
  destruct (Fs.kind_of n); [apply IH|reflexivity|].
  destruct (Fs.resolve Fs.MAXSYMLINKS t dest [c]) as [e|d];
    [destruct e as [[]|]; reflexivity|].
  destruct (Fs.lookup t d) as [[[] ? ? ?]|]; try reflexivity. apply IH.
Qed.

Lemma locate_cases st op path :
  (exists k, Fs.locate st op path = Ok k) \/
  (exists e, Fs.locate st op path = Err (PathError op path e)).
Proof.
  unfold Fs.locate, Fs.follow.
  destruct (rev _) as [|nm up]; [eauto|].
  destruct (_ || _).
  - destruct (String.eqb path ""); [eauto|].
    destruct (Fs.resolve _ _ _ _); [eauto|].
    destruct (Fs.directory _ _); eauto.
  - destruct (Fs.resolve _ _ _ _); [eauto|].
    destruct (Fs.directory _ _); eauto.
Qed.

Lemma Symlink_not_in_progress st target path :
  in_progress (fst (Fs.Symlink st target path)) = false.
Proof.
  unfold Fs.Symlink.
  destruct (locate_cases st "symlink" path) as [[k ->]|[e ->]]; [|reflexivity].
  destruct (Fs.lookup _ k); reflexivity.
Qed.

Lemma RemoveAll_Ok st path : fst (Fs.RemoveAll st path) = Ok tt.
Proof. unfold Fs.RemoveAll. destruct (Fs.locate st _ path); reflexivity. Qed.

Lemma bind_in_progress {A B} (m : M A) (k : A -> M B) st :
  in_progress (fst (m st)) = false ->
  (forall a st', in_progress (fst (k a st')) = false) ->
  in_progress (fst (bind m k st)) = false.
Proof.
  intros Hm Hk. unfold bind. destruct (m st) as [[a|e] st']; [apply Hk|exact Hm].
Qed.

(** [setup] refuses a live fingerprint, and only that: it fails with
    the error of the build in progress exactly when [isActive] holds,
    which is when some name in [by-pid] is the number of a live process
    and, as a link, resolves to where the build directory resolves; and
    then it has touched nothing. *)
Theorem setup_refuses_live job st :
  (in_progress (fst (setup job st)) = true <-> isActive job st = true) /\
  (isActive job st = true ->
   setup job st = (Err (ErrBuildInProgress (buildDir job)), st)) /\
  (isActive job st = true <->
   exists d k,
     In d (entries st (pidsDir job)) /\
     processExists st d = true /\
     Fs.EvalSymlinks st (Path.Join [pidsDir job; d]) = Ok k /\
     Fs.EvalSymlinks st (buildDir job) = Ok k).
Proof.
  repeat split.
  - destruct (isActive job st) eqn:E; [reflexivity|].
    intros H. exfalso. revert H. unfold setup. rewrite E.
    match goal with |- ?x = true -> False =>
      assert (x = false) as ->; [|discriminate] end.
    apply bind_in_progress.
    { destruct (negb _); [now rewrite RemoveAll_Ok|reflexivity]. }
    intros _ st1. apply bind_in_progress; [apply mkdir_all_not_in_progress|].
    intros _ st2. apply bind_in_progress.
    { destruct (IsNotExist _); [apply mkdir_all_not_in_progress|reflexivity]. }
    intros _ st3. apply bind_in_progress; [apply Symlink_not_in_progress|].
    intros _ st4. apply bind_in_progress; [apply mkdir_all_not_in_progress|].
    intros _ st5. apply bind_in_progress; [apply mkdir_all_not_in_progress|].
    intros _ st6. reflexivity.
  - unfold setup. now intros ->.
  - unfold setup. now intros ->.
  - unfold isActive. rewrite existsb_exists. intros (d & Hin & H).
    apply andb_true_iff in H as [Hp Hl]. unfold isLinkTo in Hl.
    destruct (Fs.EvalSymlinks st (Path.Join [pidsDir job; d])) as [k|] eqn:E1;
      [|discriminate].
    destruct (Fs.EvalSymlinks st (buildDir job)) as [k'|] eqn:E2; [|discriminate].
    apply keq_spec in Hl. subst k'. exists d, k. auto.
  - intros (d & k & Hin & Hp & H1 & H2).
    unfold isActive. rewrite existsb_exists. exists d. split; [exact Hin|].
    rewrite Hp. unfold isLinkTo. rewrite H1, H2. simpl. now apply keq_spec.
Qed.

(** While this job's own fingerprint is live, the second loop of
    [cleanup] removes nothing: each directory under [by-hash] is kept,
    whether or not anything stands for it. *)
Lemma cleanup_builds_active job dd st :
  isActive job st = true -> cleanup_builds job dd st = st.
Proof.
  intros H. induction dd as [|d dd IH]; simpl; [reflexivity|].
  rewrite H. destruct (isLinkTo st (lastLink job) _); exact IH.
Qed.

(** So a [cleanup] that finds the job's fingerprint live after reaping
    the dead links does no more than reap them. *)
Theorem cleanup_keeps_builds job st :
  isActive job (cleanup_pids job (entries st (pidsDir job)) st) = true ->
  cleanup job st = cleanup_pids job (entries st (pidsDir job)) st.
Proof. intros H. unfold cleanup. now apply cleanup_builds_active. Qed.

Lemma cleanup_keeps_builds_witness :
  isActive Sample.job
    (cleanup_pids Sample.job (entries Sample.stale (pidsDir Sample.job)) Sample.stale) = true /\
  cleanup Sample.job Sample.stale
  = cleanup_pids Sample.job (entries Sample.stale (pidsDir Sample.job)) Sample.stale.
Proof.
  split; [vm_refl|].
  apply (cleanup_keeps_builds Sample.job Sample.stale). vm_refl.
Defined.

(** The older build is still there after the [cleanup] of the sample
    job, whose own link is live. *)
Example stale_build_kept :
  Fs.IsDir <$> match Fs.Stat (cleanup Sample.job Sample.stale) "/p/.func/builds/by-hash/old" with
               | Ok fi => Some fi
               | Err _ => None
               end
  = Some true.
Proof. vm_refl. Qed.

(** ** The shared layers *)

(** Once [newDataTarball] has created its target, what it leaves there
    is the archive of entries that all belong to the default user and
    group, whether the walk ended well or not. *)
Theorem data_tarball_owner w root target ignored st st1 :
  Fs.WriteFile st target "" 438 = (Ok tt, st1) ->
  exists tw,
    Forall owned_by_default tw /\
    snd (newDataTarball w root target ignored st)
    = snd (Fs.WriteFile st1 target (targz w tw) 438).
Proof.
  intros H. exists (snd (Walk st1 root (walkFn st1 root ignored) [])).
  split; [apply Walk_owner|].
  unfold newDataTarball, bind. rewrite H. unfold written.
  destruct (Fs.WriteFile st1 target _ 438) as [[[]|e] st2]; [|reflexivity].
  now destruct (fst _).
Qed.

Lemma data_tarball_owner_witness :
  exists st1,
    Fs.WriteFile Sample.scaffolded "/p/.func/builds/by-hash/abc/datalayer.tar.gz" "" 438
    = (Ok tt, st1) /\
    exists tw,
      Forall owned_by_default tw /\
      snd (newDataTarball Sample.world "/p" "/p/.func/builds/by-hash/abc/datalayer.tar.gz"
                          defaultIgnored Sample.scaffolded)
      = snd (Fs.WriteFile st1 "/p/.func/builds/by-hash/abc/datalayer.tar.gz"
                          (targz Sample.world tw) 438).
Proof.
  eexists. split; [vm_compute; reflexivity|].
  eapply (data_tarball_owner Sample.world "/p" "/p/.func/builds/by-hash/abc/datalayer.tar.gz"
            defaultIgnored Sample.scaffolded).
  vm_compute. reflexivity.
Defined.

(** The certificates tarball holds the bundle twice, once under each
    of the two standard paths and in that order, each entry with the
    permission bits of the bundle and owned by the default user and
    group. *)
Theorem certs_tarball_entries st source fi data :
  Fs.ReadFile st source = Ok data ->
  exists tw,
    certs_entries st source fi certs_paths [] = (None, tw) /\
    map (fun e => (Name (fst e), snd e)) tw
    = [("/etc/ssl/certs/ca-certificates.crt", data);
       ("/etc/pki/tls/certs/ca-certificates.crt", data)] /\
    Forall owned_by_default tw /\
    Forall (fun e => Mode (fst e) = Fs.fi_perm fi) tw.
Proof.
  intros H. unfold certs_paths. cbn [certs_entries]. rewrite H.
  unfold FileInfoHeader. eexists. split; [reflexivity|]. simpl.
  split; [reflexivity|].
  split; repeat constructor; simpl; destruct (Fs.fi_kind fi); reflexivity.
Qed.

Lemma certs_tarball_entries_witness :
  let source := "/p/.func/builds/by-hash/abc/ca-certificates.crt" in
  let fi := {| Fs.fi_name := "ca-certificates.crt"; Fs.fi_size := 5;
               Fs.fi_kind := Fs.Regular "CERTS"; Fs.fi_perm := 420;
               Fs.fi_uid := 1001; Fs.fi_gid := 1001 |} in
  Fs.ReadFile Sample.scaffolded source = Ok "CERTS" /\
  exists tw,
    certs_entries Sample.scaffolded source fi certs_paths [] = (None, tw) /\
    map (fun e => (Name (fst e), snd e)) tw
    = [("/etc/ssl/certs/ca-certificates.crt", "CERTS");
       ("/etc/pki/tls/certs/ca-certificates.crt", "CERTS")] /\
    Forall owned_by_default tw /\
    Forall (fun e => Mode (fst e) = Fs.fi_perm fi) tw.
Proof.
  intros source fi. split; [vm_refl|].
  apply (certs_tarball_entries Sample.scaffolded source fi "CERTS"). vm_refl.
Defined.

(** ** Volumes *)

Lemma fold_volumes (l : list (option string)) (acc : gset string) path :
  path ∈ fold_left (fun volumes v =>
                      match v with
                      | None => volumes
                      | Some path => {[path]} ∪ volumes
                      end) l acc
  <-> path ∈ acc \/ In (Some path) l.
Proof.
  revert acc. induction l as [|[q|] l IH]; intros acc; simpl.
  - tauto.
  - rewrite IH. rewrite elem_of_union, elem_of_singleton.
    split; [intros [[->|]|]; auto|intros [|[[= ->]|]]; auto].
  - rewrite IH. split; [intros [|]; auto|intros [|[|]]; auto; discriminate].
Qed.

(** The volumes of the configuration are the paths the function's
    volumes give, each once; a volume without a path adds nothing. *)
Theorem newConfigVolumes_paths job path :
  path ∈ newConfigVolumes job <-> In (Some path) (Run_Volumes (function job)).
Proof.
  unfold newConfigVolumes. rewrite fold_volumes. rewrite elem_of_empty. tauto.
Qed.

(** ** The environment of the Go toolchain *)

(** The environment of [go mod tidy] and [go build]: first the
    settings the builder pegs, which are CGO_ENABLED=0, the GOOS and
    GOARCH of the platform and, for a variant of arm or amd64, GOARM
    or GOAMD64; then, in its order, what the process inherited, less
    every entry that begins with the name of a pegged setting, whether
    or not that is the whole name of the entry. *)
Theorem goBuildEnvs_spec w p :
  exists variant,
    goBuildEnvs w p
    = ["CGO_ENABLED=0"; "GOOS=" +:+ OS p; "GOARCH=" +:+ Architecture p]
      ++ variant
      ++ List.filter
           (fun env =>
              negb (existsb (fun name => Path.HasPrefix env name)
                            (["CGO_ENABLED"; "GOOS"; "GOARCH"] ++ map before_equals variant)))
           (Environ w) /\
    (Variant p <> "" /\ Architecture p = "arm" ->
     variant = ["GOARM=" +:+ trim_v (Variant p)]) /\
    (Variant p <> "" /\ Architecture p = "amd64" -> variant = ["GOAMD64=" +:+ Variant p]) /\
    (Variant p = "" \/ (Architecture p <> "arm" /\ Architecture p <> "amd64") ->
     variant = []).
Proof.
  unfold goBuildEnvs.
  set (variant :=
         if negb (String.eqb (Variant p) "") && String.eqb (Architecture p) "arm"
         then ["GOARM=" +:+ trim_v (Variant p)]
         else if negb (String.eqb (Variant p) "") && String.eqb (Architecture p) "amd64"
              then ["GOAMD64=" +:+ Variant p] else []).
  assert ((if negb (String.eqb (Variant p) "") && String.eqb (Architecture p) "arm"
           then ["CGO_ENABLED=0"; "GOOS=" +:+ OS p; "GOARCH=" +:+ Architecture p]
                  ++ ["GOARM=" +:+ trim_v (Variant p)]
           else if negb (String.eqb (Variant p) "") && String.eqb (Architecture p) "amd64"
                then ["CGO_ENABLED=0"; "GOOS=" +:+ OS p; "GOARCH=" +:+ Architecture p]
                       ++ ["GOAMD64=" +:+ Variant p]
                else ["CGO_ENABLED=0"; "GOOS=" +:+ OS p; "GOARCH=" +:+ Architecture p])
          = ["CGO_ENABLED=0"; "GOOS=" +:+ OS p; "GOARCH=" +:+ Architecture p] ++ variant) as ->.
  { subst variant. destruct (negb _ && _); [reflexivity|]. now destruct (negb _ && _). }
  exists variant.
  assert (String.eqb (Variant p) "" = true <-> Variant p = "") as Hv by apply String.eqb_eq.
  assert (String.eqb (Architecture p) "arm" = true <-> Architecture p = "arm") as Harm
      by apply String.eqb_eq.
  assert (String.eqb (Architecture p) "amd64" = true <-> Architecture p = "amd64") as Hamd
      by apply String.eqb_eq.
  split; [|split; [|split]].
  - rewrite <- app_assoc. f_equal. f_equal.
    change ["CGO_ENABLED"; "GOOS"; "GOARCH"]
      with (map before_equals
                ["CGO_ENABLED=0"; "GOOS=" +:+ OS p; "GOARCH=" +:+ Architecture p]).
    rewrite <- map_app.
    generalize (["CGO_ENABLED=0"; "GOOS=" +:+ OS p; "GOARCH=" +:+ Architecture p] ++ variant).
    intros pegged. induction (Environ w) as [|env envs IH]; [reflexivity|].
    assert (existsb (fun v => Path.HasPrefix env (before_equals v)) pegged
            = existsb (fun name => Path.HasPrefix env name) (map before_equals pegged)) as E.
    { clear. induction pegged as [|v pegged IHp]; simpl; [reflexivity|]. now rewrite IHp. }
    cbn [List.filter]. rewrite <- E, <- IH.
    destruct (existsb (fun v => Path.HasPrefix env (before_equals v)) pegged) eqn:Ex.
    + rewrite filter_cons_False; [reflexivity|]. rewrite Ex. simpl. tauto.
    + rewrite filter_cons_True; [reflexivity|]. rewrite Ex. exact I.
  - intros [H1 H2]. subst variant.
    destruct (String.eqb (Variant p) ""); [exfalso; apply H1; now apply Hv|].
    apply Harm in H2. now rewrite H2.
  - intros [H1 H2]. subst variant.
    destruct (String.eqb (Variant p) ""); [exfalso; apply H1; now apply Hv|].
    rewrite H2. simpl. reflexivity.
  - intros H. subst variant.
    destruct (String.eqb (Variant p) "") eqn:E1; [reflexivity|]. simpl.
    destruct H as [H|[H1 H2]]; [apply Hv in H; discriminate|].
    destruct (String.eqb (Architecture p) "arm"); [exfalso; apply H1; now apply Harm|].
    destruct (String.eqb (Architecture p) "amd64"); [exfalso; apply H2; now apply Hamd|].
    reflexivity.
Qed.

(** The sample environment, with a GOOS of its own and one entry
    twice: the GOOS goes, both copies of the other stay. *)
Example goBuildEnvs_keeps_repeats :
  goBuildEnvs
    {| Now := Now Sample.world; Getenv := Getenv Sample.world;
       Environ := ["A=1"; "GOOS=plan9"; "A=1"; "GOOSE=2"];
       Fingerprint := Fingerprint Sample.world;
       scaffolding_Write := scaffolding_Write Sample.world;
       git_describe := git_describe Sample.world;
       go_run := go_run Sample.world; registry := registry Sample.world;
       tar_encode := tar_encode Sample.world; deflate := deflate Sample.world;
       inflate := inflate Sample.world; json_Encode := json_Encode Sample.world;
       pythonBuilder := pythonBuilder Sample.world |}
    {| OS := "linux"; Architecture := "arm"; Variant := "v7"; OSVersion := "" |}
  = ["CGO_ENABLED=0"; "GOOS=linux"; "GOARCH=arm"; "GOARM=7"; "A=1"; "A=1"].
Proof. reflexivity. Qed.

(** ** Digests *)

(** A property of the numbers below [k], checked one by one. *)
Lemma below_cases (P : Z -> Prop) (k : nat) :
  (forall i, (i < k)%nat -> P (Z.of_nat i)) -> forall n, 0 <= n < Z.of_nat k -> P n.
Proof. intros H n Hn. rewrite <- (Z2Nat.id n) by lia. apply H. lia. Qed.

Lemma hexdigit_is_hex x : is_hex (Str.hexdigit (Z.land x 15)) = true.
Proof.
  apply (below_cases (fun n => is_hex (Str.hexdigit n) = true) 16).
  - intros i Hi. do 16 (destruct i as [|i]; [reflexivity|]). lia.
  - change 15 with (Z.ones 4). rewrite Z.land_ones by lia.
    change (2 ^ 4) with 16. apply Z.mod_pos_bound. lia.
Qed.

Lemma hex32_is_hex w : forallb is_hex (Str.hex32 w) = true /\ length (Str.hex32 w) = 8%nat.
Proof.
  unfold Str.hex32. cbn [map forallb length]. rewrite !hexdigit_is_hex. auto.
Qed.

(** A SHA-256 digest in hexadecimal is a hash [v1.NewHash] accepts. *)
Lemma Hex_valid msg :
  valid_hash {| Algorithm := "sha256"; Hex := Sha256.Hex msg |} = true.
Proof.
  unfold valid_hash, Sha256.Hex. cbn [Algorithm Hex].
  destruct (Sha256.Sum256 msg) as [[[[[[[a b] c] d] e] f] g] h].
  assert (forall l, forallb is_hex (concat (map Str.hex32 l)) = true /\
                    length (concat (map Str.hex32 l)) = (8 * length l)%nat) as H.
  { induction l as [|x l [IH1 IH2]]; [auto|]. cbn [map concat].
    rewrite forallb_app, length_app, IH1, IH2.
    destruct (hex32_is_hex x) as [-> ->]. cbn [length]. split; [reflexivity|lia]. }
  destruct (H [a; b; c; d; e; f; g; h]) as [H1 H2].
  rewrite list_ascii_of_string_of_list_ascii, H1.
  rewrite <- (list_ascii_of_string_of_list_ascii (concat _)) in H2.
  assert (forall s, length (list_ascii_of_string s) = String.length s) as Hlen.
  { induction s; simpl; congruence. }
  rewrite Hlen in H2. rewrite H2. reflexivity.
Qed.

Lemma writeAsJSONBlob_parts w job tempName data st desc st' :
  writeAsJSONBlob w job tempName data st = (Ok desc, st') ->
  exists bytes,
    json_Encode w data = Ok bytes /\
    desc = {| MediaType := ""; D_Size := Z.of_nat (String.length bytes);
              Digest := {| Algorithm := "sha256"; Hex := Sha256.Hex bytes |};
              D_Platform := None |}.
Proof.
  intros H. unfold writeAsJSONBlob in H.
  apply bind_Ok in H as (_u & s1 & _ & H).
  apply bind_Ok in H as (bytes & s2 & Hb & H). apply lift_Ok in Hb as [Hb ->].
  apply bind_Ok in H as (_v & s3 & _ & H).
  apply bind_Ok in H as (_w & s4 & _ & H).
  apply ret_Ok in H as [-> ->]. eauto.
Qed.

(** What [writeAsJSONBlob] returns when it succeeds describes the bytes
    the encoder produced: their SHA-256 digest, which is a well-formed
    hash, and their count; media type and platform are left empty. *)
Theorem writeAsJSONBlob_digest w job tempName data st desc st' :
  writeAsJSONBlob w job tempName data st = (Ok desc, st') ->
  exists bytes,
    json_Encode w data = Ok bytes /\
    desc = {| MediaType := ""; D_Size := Z.of_nat (String.length bytes);
              Digest := {| Algorithm := "sha256"; Hex := Sha256.Hex bytes |};
              D_Platform := None |} /\
    valid_hash (Digest desc) = true.
Proof.
  intros H. apply writeAsJSONBlob_parts in H as (bytes & Hb & ->).
  exists bytes. split; [exact Hb|]. split; [reflexivity|]. apply Hex_valid.
Qed.

Lemma writeAsJSONBlob_digest_witness :
  let index := JIndex {| I_SchemaVersion := 2; I_MediaType := OCIImageIndex; Manifests := [] |} in
  exists desc st',
    writeAsJSONBlob Sample.world Sample.job "index.json" index Sample.scaffolded
    = (Ok desc, st') /\
    exists bytes,
      json_Encode Sample.world index = Ok bytes /\
      desc = {| MediaType := ""; D_Size := Z.of_nat (String.length bytes);
                Digest := {| Algorithm := "sha256"; Hex := Sha256.Hex bytes |};
                D_Platform := None |} /\
      valid_hash (Digest desc) = true.
Proof.
  intros index. eexists. eexists. split; [vm_compute; reflexivity|].
  eapply (writeAsJSONBlob_digest Sample.world Sample.job "index.json" index Sample.scaffolded).
  vm_compute. reflexivity.
Defined.

(** The layer [tarball.LayerFromFile] makes of a file, described by
    [newDescriptor]: the digest and the size are those of the bytes the
    layer delivers. *)
Lemma layer_descriptor w path st layer st' desc :
  LayerFromFile w path st = (Ok layer, st') ->
  newDescriptor layer = Ok desc ->
  exists bytes,
    L_Compressed layer = Ok (bytes, None) /\
    desc = {| MediaType := OCILayer; D_Size := Z.of_nat (String.length bytes);
              Digest := {| Algorithm := "sha256"; Hex := Sha256.Hex bytes |};
              D_Platform := None |}.
Proof.
  intros H Hd. unfold LayerFromFile in H.
  apply bind_Ok in H as (data & s1 & Hr & H). apply read_Ok in Hr as [Hr ->].
  destruct (String.prefix gzip_magic data).
  - apply bind_Ok in H as (plain & s2 & Hp & H). apply lift_Ok in Hp as [Hp ->].
    apply ret_Ok in H as [-> ->]. unfold newDescriptor in Hd. simpl in Hd.
    injection Hd as <-. eauto.
  - apply ret_Ok in H as [-> ->]. unfold newDescriptor in Hd. simpl in Hd.
    injection Hd as <-. eauto.
Qed.

(** Each layer the builder writes itself, for the source, for the
    certificates and for the executable of the Go plugin, comes with a
    descriptor of the OCI layer media type whose digest is the SHA-256
    of the compressed bytes of the layer and whose size is their
    count; only the layer of the executable names a platform, the one
    it was compiled for, and the plugin returns that layer alone. *)
Theorem written_layers_described w job :
  (forall st l st',
      writeDataLayer w job st = (Ok l, st') ->
      exists bytes,
        L_Compressed (IL_Layer l) = Ok (bytes, None) /\
        IL_Descriptor l
        = {| MediaType := OCILayer; D_Size := Z.of_nat (String.length bytes);
             Digest := {| Algorithm := "sha256"; Hex := Sha256.Hex bytes |};
             D_Platform := None |}) /\
  (forall st l st',
      writeCertsLayer w job st = (Ok l, st') ->
      exists bytes,
        L_Compressed (IL_Layer l) = Ok (bytes, None) /\
        IL_Descriptor l
        = {| MediaType := OCILayer; D_Size := Z.of_nat (String.length bytes);
             Digest := {| Algorithm := "sha256"; Hex := Sha256.Hex bytes |};
             D_Platform := None |}) /\
  (forall p st layers st',
      go_WritePlatform w job p st = (Ok layers, st') ->
      exists l bytes,
        layers = [l] /\
        L_Compressed (IL_Layer l) = Ok (bytes, None) /\
        IL_Descriptor l
        = {| MediaType := OCILayer; D_Size := Z.of_nat (String.length bytes);
             Digest := {| Algorithm := "sha256"; Hex := Sha256.Hex bytes |};
             D_Platform := Some p |}).
Proof.
  split; [|split].
  - intros st l st' H. unfold writeDataLayer in H.
    apply bind_Ok in H as (_u & s1 & _ & H).
    apply bind_Ok in H as (layer & s2 & Hl & H).
    apply bind_Ok in H as (desc & s3 & Hd & H). apply lift_Ok in Hd as [Hd ->].
    apply bind_Ok in H as (_v & s4 & _ & H). apply ret_Ok in H as [-> ->].
    destruct (layer_descriptor _ _ _ _ _ _ Hl Hd) as (bytes & Hc & ->). eauto.
  - intros st l st' H. unfold writeCertsLayer in H.
    apply bind_Ok in H as (_u & s1 & _ & H).
    apply bind_Ok in H as (layer & s2 & Hl & H).
    apply bind_Ok in H as (desc & s3 & Hd & H). apply lift_Ok in Hd as [Hd ->].
    apply bind_Ok in H as (_v & s4 & _ & H). apply ret_Ok in H as [-> ->].
    destruct (layer_descriptor _ _ _ _ _ _ Hl Hd) as (bytes & Hc & ->). eauto.
  - intros p st layers st' H. unfold go_WritePlatform in H.
    apply bind_Ok in H as (exe & s0 & _ & H).
    apply bind_Ok in H as (_u & s1 & _ & H).
    apply bind_Ok in H as (layer & s2 & Hl & H).
    apply bind_Ok in H as (desc & s3 & Hd & H). apply lift_Ok in Hd as [Hd ->].
    apply bind_Ok in H as (_v & s4 & _ & H). apply ret_Ok in H as [-> ->].
    destruct (layer_descriptor _ _ _ _ _ _ Hl Hd) as (bytes & Hc & ->). eauto.
Qed.

Lemma containerizePlatform_described w lb job sharedLayers p st im st' :
  containerizePlatform w lb job sharedLayers p st = (Ok im, st') ->
  described w im.
Proof.
  intros H. unfold containerizePlatform in H.
  apply bind_Ok in H as (plat & s1 & Hplat & H).
  apply bind_Ok in H as (base & s2 & Hbase & H).
  apply bind_Ok in H as (cf0 & s3 & Hnew & H). apply read_Ok in Hnew as [Hnew ->].
  apply bind_Ok in H as (cf & s4 & Hconf & H). apply lift_Ok in Hconf as [Hconf ->].
  apply bind_Ok in H as (config & s5 & Hwc & H).
  apply bind_Ok in H as (wr & s6 & Hwm & H).
  apply ret_Ok in H as [-> ->].
  unfold writeConfig in Hwc.
  apply bind_Ok in Hwc as (cd & s7 & Hcd & Hwc). apply ret_Ok in Hwc as [-> ->].
  apply writeAsJSONBlob_parts in Hcd as (cbytes & Hce & ->).
  unfold writeManifest in Hwm.
  apply bind_Ok in Hwm as (m & s8 & Hman & Hwm). apply lift_Ok in Hman as [Hman ->].
  apply bind_Ok in Hwm as (md & s9 & Hblob & Hwm).
  apply ret_Ok in Hwm as [-> ->].
  apply writeAsJSONBlob_parts in Hblob as (mbytes & Hme & ->).
  assert (M_Config m = with_MediaType
                         {| MediaType := ""; D_Size := Z.of_nat (String.length cbytes);
                            Digest := {| Algorithm := "sha256"; Hex := Sha256.Hex cbytes |};
                            D_Platform := None |} OCIConfigJSON /\
          SchemaVersion m = 2 /\ M_MediaType m = OCIManifestSchema1) as (Hm1 & Hm2 & Hm3).
  { unfold newManifest in Hman.
    destruct (match base with Some _ => _ | None => _ end); [|discriminate].
    injection Hman as <-. auto. }
  unfold described. simpl. rewrite Hm1. eauto 10.
Qed.

Lemma containerizePlatforms_described w lb job sharedLayers pp st images st' :
  containerizePlatforms w lb job sharedLayers pp st = (Ok images, st') ->
  Forall (described w) images.
Proof.
  revert st images. induction pp as [|p pp IH]; intros st images H; simpl in H.
  - apply ret_Ok in H as [-> _]. constructor.
  - apply bind_Ok in H as (im & s1 & Him & H).
    apply bind_Ok in H as (ims & s2 & Hims & H).
    apply ret_Ok in H as [-> ->].
    constructor; [now apply containerizePlatform_described in Him|now apply IH in Hims].
Qed.

Lemma containerizePlatforms_platforms w lb job sharedLayers pp st images st' :
  containerizePlatforms w lb job sharedLayers pp st = (Ok images, st') ->
  map PI_Platform images = pp.
Proof.
  revert st images. induction pp as [|p pp IH]; intros st images H; simpl in H.
  - now apply ret_Ok in H as [-> _].
  - apply bind_Ok in H as (im & s1 & Him & H).
    apply bind_Ok in H as (ims & s2 & Hims & H).
    apply ret_Ok in H as [-> ->]. apply IH in Hims. simpl. f_equal; [|exact Hims].
    unfold containerizePlatform in Him.
    repeat (apply bind_Ok in Him as (? & ? & _ & Him)).
    now apply ret_Ok in Him as [-> _].
Qed.

(** After a successful [containerize] every image is described as
    above, and the last thing done was to write the encoding of the
    index, which lists the descriptors of the manifests, one for each
    platform of the job and in their order. *)
Theorem containerize_index w lb job st images st' :
  containerize w lb job st = (Ok images, st') ->
  Forall (described w) images /\
  map D_Platform (map PI_Descriptor images) = map Some (platforms job) /\
  exists bytes s,
    json_Encode w (JIndex {| I_SchemaVersion := 2; I_MediaType := OCIImageIndex;
                             Manifests := map PI_Descriptor images |}) = Ok bytes /\
    Fs.WriteFile s (Path.Join [ociDir job; "index.json"]) bytes 438 = (Ok tt, st').
Proof.
  intros H. unfold containerize in H.
  apply bind_Ok in H as (_u & s0 & _ & H).
  apply bind_Ok in H as (data & s1 & _ & H).
  apply bind_Ok in H as (certs & s2 & _ & H).
  apply bind_Ok in H as (shared & s3 & _ & H).
  apply bind_Ok in H as (ims & s4 & Hims & H).
  apply bind_Ok in H as ([] & s5 & Hix & H).
  apply ret_Ok in H as [-> ->].
  pose proof (containerizePlatforms_described _ _ _ _ _ _ _ _ Hims) as Hd.
  apply containerizePlatforms_platforms in Hims.
  split; [exact Hd|]. split.
  - rewrite <- Hims. clear -Hd. induction Hd as [|im ims (_ & (b & _ & Hm) & _) _ IH]; simpl.
    + reflexivity.
    + rewrite Hm, IH. reflexivity.
  - unfold writeIndex in Hix.
    apply bind_Ok in Hix as (_v & s6 & _ & Hix).
    apply bind_Ok in Hix as (bytes & s7 & Hb & Hix). apply lift_Ok in Hb as [Hb ->].
    eauto.
Qed.

(** The sample build. *)
Lemma sample_containerize :
  containerize Sample.world (goBuilder Sample.world) Sample.job Sample.scaffolded
  = (Ok Sample.images, Sample.containerized).
Proof. vm_refl. Qed.

Lemma containerize_index_witness :
  containerize Sample.world (goBuilder Sample.world) Sample.job Sample.scaffolded
  = (Ok Sample.images, Sample.containerized) /\
  Forall (described Sample.world) Sample.images /\
  map D_Platform (map PI_Descriptor Sample.images) = map Some (platforms Sample.job) /\
  exists bytes s,
    json_Encode Sample.world
      (JIndex {| I_SchemaVersion := 2; I_MediaType := OCIImageIndex;
                 Manifests := map PI_Descriptor Sample.images |}) = Ok bytes /\
    Fs.WriteFile s (Path.Join [ociDir Sample.job; "index.json"]) bytes 438
    = (Ok tt, Sample.containerized).
Proof.
  split; [exact sample_containerize|].
  exact (containerize_index Sample.world (goBuilder Sample.world) Sample.job
           Sample.scaffolded Sample.images Sample.containerized sample_containerize).
Defined.

(** ** The job *)

Lemma builders_lookup w r :
  builders w !! r
  = if String.eqb r "go" then Some (goBuilder w)
    else if String.eqb r "python" then Some (pythonBuilder w) else None.
Proof.
  unfold builders.
  destruct (String.eqb r "go") eqn:E1.
  - apply String.eqb_eq in E1 as ->. now rewrite lookup_insert.
  - apply String.eqb_neq in E1. rewrite lookup_insert_ne by congruence.
    destruct (String.eqb r "python") eqn:E2.
    + apply String.eqb_eq in E2 as ->. now rewrite lookup_singleton.
    + apply String.eqb_neq in E2. now rewrite lookup_singleton_ne by congruence.
Qed.

Lemma newBuildJob_state w f pp verbose st : snd (newBuildJob w f pp verbose st) = st.
Proof.
  unfold newBuildJob. destruct (Fingerprint w st (Root f)); [|reflexivity].
  now destruct (builders w !! Runtime f).
Qed.

(** [newBuildJob] touches nothing.  It succeeds exactly for a project
    that has a fingerprint and whose runtime is go or python, with the
    fingerprint as the hash of the job and the plugin of the runtime;
    [IsSupported] says which runtimes those are. *)
Theorem newBuildJob_spec w f pp verbose st :
  snd (newBuildJob w f pp verbose st) = st /\
  (IsSupported w (Runtime f) = true <-> Runtime f = "go" \/ Runtime f = "python") /\
  (forall job lb,
      fst (newBuildJob w f pp verbose st) = Ok (job, lb) <->
      Fingerprint w st (Root f) = Ok (hash job) /\
      job = {| start := Now w; hash := hash job; function := f;
               platforms := toPlatforms pp; verbose := verbose |} /\
      (Runtime f = "go" /\ lb = goBuilder w \/
       Runtime f = "python" /\ lb = pythonBuilder w)).
Proof.
  split; [|split].
  - apply newBuildJob_state.
  - unfold IsSupported. rewrite builders_lookup.
    destruct (String.eqb (Runtime f) "go") eqn:E1.
    + apply String.eqb_eq in E1. tauto.
    + destruct (String.eqb (Runtime f) "python") eqn:E2.
      * apply String.eqb_eq in E2. tauto.
      * apply String.eqb_neq in E1, E2. split; [discriminate|tauto].
  - intros job lb. unfold newBuildJob. rewrite builders_lookup.
    destruct (Fingerprint w st (Root f)) as [h|e]; simpl.
    + destruct (String.eqb (Runtime f) "go") eqn:E1.
      * apply String.eqb_eq in E1. simpl. split.
        -- intros [= <- <-]. simpl. auto.
        -- intros ([= ->] & -> & [[_ ->]|[E2 _]]); [reflexivity|].
           rewrite E2 in E1. discriminate.
      * apply String.eqb_neq in E1.
        destruct (String.eqb (Runtime f) "python") eqn:E2; simpl.
        -- apply String.eqb_eq in E2. split.
           ++ intros [= <- <-]. simpl. auto.
           ++ intros ([= ->] & -> & [[E3 _]|[_ ->]]); [contradiction|reflexivity].
        -- apply String.eqb_neq in E2. split; [discriminate|].
           intros (_ & _ & [[E3 _]|[E3 _]]); contradiction.
    + split; [discriminate|]. intros ([=] & _).
Qed.

(** [Build] for a project that another live process is building, or
    this one: the error of the build in progress, and the machine is
    as it was, for neither [setup] nor the deferred [cleanup] has
    touched it. *)
Theorem Build_in_progress w b f pp st job lb :
  fst (newBuildJob w f (match pp with [] => DefaultPlatforms | _ => pp end)
                   (B_verbose b) st) = Ok (job, lb) ->
  isActive job st = true ->
  Build w b f pp st = (Err (ErrBuildInProgress (buildDir job)), st).
Proof.
  intros Hjob Hact. unfold Build.
  pose proof (newBuildJob_state w f (match pp with [] => DefaultPlatforms | _ => pp end)
                (B_verbose b) st) as Hst.
  destruct (newBuildJob w f _ (B_verbose b) st) as [r st0] eqn:E.
  simpl in Hjob, Hst. subst r st0.
  unfold bind at 1. rewrite E. cbn [fst snd].
  unfold bind at 1. unfold setup. now rewrite Hact.
Qed.

Lemma Build_in_progress_witness :
  let b := NewBuilder "host" false in
  fst (newBuildJob Sample.world Sample.f [Sample.amd64] (B_verbose b) Sample.scaffolded)
  = Ok (Sample.job, goBuilder Sample.world) /\
  isActive Sample.job Sample.scaffolded = true /\
  Build Sample.world b Sample.f [Sample.amd64] Sample.scaffolded
  = (Err (ErrBuildInProgress (buildDir Sample.job)), Sample.scaffolded).
Proof.
  intros b.
  assert (fst (newBuildJob Sample.world Sample.f [Sample.amd64] (B_verbose b) Sample.scaffolded)
          = Ok (Sample.job, goBuilder Sample.world)) as H1 by reflexivity.
  assert (isActive Sample.job Sample.scaffolded = true) as H2 by vm_refl.
  split; [exact H1|]. split; [exact H2|].
  exact (Build_in_progress Sample.world b Sample.f [Sample.amd64] Sample.scaffolded
           Sample.job (goBuilder Sample.world) H1 H2).
Defined.

(** ** Process ids as names *)

Lemma digit_value_digit d : 0 <= d < 10 -> Str.digit_value (Str.digit d) = Some d.
Proof.
  apply (below_cases (fun d => Str.digit_value (Str.digit d) = Some d) 10).
  intros i Hi. do 10 (destruct i as [|i]; [reflexivity|]). lia.
Qed.

Lemma digits_S fuel n acc :
  Str.digits (S fuel) n acc
  = if n / 10 =? 0 then String (Str.digit (n mod 10)) acc
    else Str.digits fuel (n / 10) (String (Str.digit (n mod 10)) acc).
Proof. reflexivity. Qed.

Lemma append_cons s c rest : (s +:+ String c "") +:+ rest = s +:+ String c rest.
Proof.
  induction s as [|x s IH]; [reflexivity|].
  change (String x ((s +:+ String c "") +:+ rest) = String x (s +:+ String c rest)).
  now rewrite IH.
Qed.

(** The digits [Str.digits] puts before [acc] read back as the number. *)
Lemma read_digits_digits fuel n acc :
  0 <= n < 2 ^ Z.of_nat (S fuel) ->
  exists c s m,
    Str.digits (S fuel) n acc = String c (s +:+ acc) /\
    Str.digit_value c <> None /\
    forall a rest, Str.read_digits (String c (s +:+ rest)) a = Str.read_digits rest (a * m + n).
Proof.
  revert n acc. induction fuel as [|fuel IH]; intros n acc Hn.
  - assert (n / 10 = 0) as Hq by (apply Z.div_small; simpl in Hn; lia).
    assert (n mod 10 = n) as Hr by (apply Z.mod_small; simpl in Hn; lia).
    rewrite digits_S, Hq, Hr. simpl (0 =? 0).
    exists (Str.digit n), "", 10. split; [reflexivity|].
    rewrite digit_value_digit by (simpl in Hn; lia).
    split; [discriminate|]. intros a rest. cbn [Str.read_digits append].
    rewrite digit_value_digit by (simpl in Hn; lia). f_equal. lia.
  - assert (0 <= n mod 10 < 10) as Hr by (apply Z.mod_pos_bound; lia).
    pose proof (Z.div_mod n 10 ltac:(lia)) as Hdm.
    rewrite digits_S.
    destruct (n / 10 =? 0) eqn:Hq.
    + apply Z.eqb_eq in Hq.
      exists (Str.digit (n mod 10)), "", 10. split; [reflexivity|].
      rewrite digit_value_digit by exact Hr.
      split; [discriminate|]. intros a rest. cbn [Str.read_digits append].
      rewrite digit_value_digit by exact Hr. f_equal. lia.
    + apply Z.eqb_neq in Hq.
      assert (0 <= n / 10 < 2 ^ Z.of_nat (S fuel)) as Hn'.
      { split; [apply Z.div_pos; lia|].
        apply Z.div_lt_upper_bound; [lia|].
        replace (Z.of_nat (S (S fuel))) with (Z.of_nat (S fuel) + 1) in Hn by lia.
        rewrite Z.pow_add_r in Hn by lia. lia. }
      destruct (IH (n / 10) (String (Str.digit (n mod 10)) acc) Hn')
        as (c & s & m & Heq & Hc & Hread).
      exists c, (s +:+ String (Str.digit (n mod 10)) ""), (m * 10).
      split.
      { rewrite Heq. now rewrite append_cons. }
      split; [exact Hc|]. intros a rest.
      rewrite append_cons, Hread. cbn [Str.read_digits].
      rewrite digit_value_digit by exact Hr. f_equal. lia.
Qed.

Lemma Atoi_unsigned c s :
  Str.digit_value c <> None ->
  Str.Atoi (String c s)
  = match Str.read_digits (String c s) 0 with
    | Some n => if (- 2 ^ 63 <=? n) && (n <? 2 ^ 63) then Some n else None
    | None => None
    end.
Proof.
  intros H. destruct c as [[] [] [] [] [] [] [] []];
    try reflexivity; exfalso; apply H; reflexivity.
Qed.

(** [strconv.Atoi] reads back what [strconv.Itoa] prints of a number
    that is not negative. *)
Lemma Atoi_Itoa n : 0 <= n < 2 ^ 63 -> Str.Atoi (Str.Itoa n) = Some n.
Proof.
  intros Hn. unfold Str.Itoa.
  destruct (n <? 0) eqn:E; [apply Z.ltb_lt in E; lia|].
  replace (Z.to_nat (Z.log2 n) + 1)%nat with (S (Z.to_nat (Z.log2 n))) by lia.
  assert (0 <= n < 2 ^ Z.of_nat (S (Z.to_nat (Z.log2 n)))) as Hb.
  { split; [lia|].
    destruct (Z.eq_dec n 0) as [->|Hz]; [simpl; lia|].
    replace (Z.of_nat (S (Z.to_nat (Z.log2 n)))) with (Z.succ (Z.log2 n))
      by (pose proof (Z.log2_nonneg n); lia).
    apply Z.log2_spec. lia. }
  destruct (read_digits_digits _ n "" Hb) as (c & s & m & -> & Hc & Hread).
  rewrite Atoi_unsigned by exact Hc. rewrite Hread. cbn [Str.read_digits].
  replace (0 * m + n) with n by lia.
  destruct (- 2 ^ 63 <=? n) eqn:E1; [|apply Z.leb_gt in E1; lia].
  destruct (n <? 2 ^ 63) eqn:E2; [reflexivity|apply Z.ltb_ge in E2; lia].
Qed.

(** The name of the link a process leaves in [by-pid] passes for a
    live process as long as that process asks, on any platform; so
    the first loop of [cleanup] never removes the link of the process
    that runs it. *)
Theorem own_pid_is_live job st :
  0 <= Fs.self st < 2 ^ 63 ->
  processExists st (Str.Itoa (Fs.self st)) = true /\
  cleanup_pids job [Str.Itoa (Fs.self st)] st = st.
Proof.
  intros H.
  assert (processExists st (Str.Itoa (Fs.self st)) = true) as Hp.
  { unfold processExists, Fs.FindProcess, Fs.signal0. rewrite Atoi_Itoa by exact H.
    rewrite Z.eqb_refl. now destruct (Fs.windows st). }
  split; [exact Hp|]. cbn [cleanup_pids]. now rewrite Hp.
Qed.

Lemma own_pid_is_live_witness :
  0 <= Fs.self Sample.machine < 2 ^ 63 /\
  processExists Sample.machine (Str.Itoa (Fs.self Sample.machine)) = true /\
  cleanup_pids Sample.job [Str.Itoa (Fs.self Sample.machine)] Sample.machine = Sample.machine.
Proof.
  assert (0 <= Fs.self Sample.machine < 2 ^ 63) as H by (simpl; lia).
  split; [exact H|]. exact (own_pid_is_live Sample.job Sample.machine H).
Defined.

(** ** The file system *)

Lemma keq_refl k : Fs.keq k k = true.
Proof. now apply keq_spec. Qed.

Lemma keq_neq a b : a <> b -> Fs.keq a b = false.
Proof. intros H. apply not_true_iff_false. now rewrite keq_spec. Qed.

Lemma find_keep (P : list string -> bool) t k :
  P k = true -> Fs.find (Fs.keep P t) k = Fs.find t k.
Proof.
  intros H. induction t as [|[k' n] t IH]; simpl; [reflexivity|].
  destruct (P k') eqn:E; simpl.
  - now rewrite IH.
  - destruct (Fs.keq k' k) eqn:Ek; [|exact IH].
    apply keq_spec in Ek. congruence.
Qed.

Lemma find_keep_out (P : list string -> bool) t k :
  P k = false -> Fs.find (Fs.keep P t) k = None.
Proof.
  intros H. induction t as [|[k' n] t IH]; simpl; [reflexivity|].
  destruct (P k') eqn:E; simpl; [|exact IH].
  destruct (Fs.keq k' k) eqn:Ek; [|exact IH].
  apply keq_spec in Ek. congruence.
Qed.

Lemma lookup_find t k : k <> [] -> Fs.lookup t k = Fs.find t k.
Proof. destruct k; [congruence|reflexivity]. Qed.

Lemma lookup_put_eq t k n : k <> [] -> Fs.lookup (Fs.put k n t) k = Some n.
Proof.
  intros H. rewrite lookup_find by exact H. unfold Fs.put. simpl. now rewrite keq_refl.
Qed.

Lemma lookup_put_ne t k n k' : k' <> k -> Fs.lookup (Fs.put k n t) k' = Fs.lookup t k'.
Proof.
  intros H. destruct k' as [|c k']; [reflexivity|].
  unfold Fs.lookup, Fs.put. simpl Fs.find.
  rewrite (keq_neq k (c :: k')) by congruence.
  unfold Fs.del. apply find_keep. rewrite keq_neq by congruence. reflexivity.
Qed.

Lemma lookup_keep (P : list string -> bool) t k :
  P k = true -> Fs.lookup (Fs.keep P t) k = Fs.lookup t k.
Proof. intros H. destruct k; [reflexivity|]. now apply find_keep. Qed.

Lemma ext_refl t : ext t t.
Proof. intros k n H. exact H. Qed.

Lemma ext_trans t1 t2 t3 : ext t1 t2 -> ext t2 t3 -> ext t1 t3.
Proof. intros H1 H2 k n H. auto. Qed.

Lemma ext_put t k n : Fs.lookup t k = None -> ext t (Fs.put k n t).
Proof.
  intros H k' n' H'. rewrite lookup_put_ne; [exact H'|]. intros ->. congruence.
Qed.

(** The equations of [Fs.resolve]. *)
Lemma resolve_nil links t dest : Fs.resolve links t dest [] = inr dest.
Proof. destruct links; reflexivity. Qed.

Lemma resolve_cons links t dest c rest :
  Fs.resolve links t dest (c :: rest)
  = if String.eqb c "" || String.eqb c "." then Fs.resolve links t dest rest
    else if String.eqb c ".." then Fs.resolve links t (removelast dest) rest
    else
      match Fs.lookup t (dest ++ [c]) with
      | None => inl (Some ENOENT)
      | Some n =>
          match Fs.kind_of n with
          | Fs.Directory => Fs.resolve links t (dest ++ [c]) rest
          | Fs.Regular _ =>
              match rest with
              | [] => inr (dest ++ [c])
              | _ => inl (Some ENOTDIR)
              end
          | Fs.SymLink target =>
              match links with
              | O => inl (Some ELOOP)
              | S links' =>
                  Fs.resolve links' t (if Path.IsAbs target then [] else dest)
                             (Path.split target ++ rest)
              end
          end
      end.
Proof. destruct links; reflexivity. Qed.

(** A resolution that succeeds is the same in a tree that holds more. *)
Lemma resolve_ext t t' :
  ext t t' ->
  forall links dest rest d,
    Fs.resolve links t dest rest = inr d -> Fs.resolve links t' dest rest = inr d.
Proof.
  intros He. induction links as [|links IHl].
  - intros dest rest. revert dest. induction rest as [|c rest IH]; intros dest d.
    + now rewrite !resolve_nil.
    + rewrite !resolve_cons. destruct (_ || _); [apply IH|].
      destruct (String.eqb c ".."); [apply IH|].
      destruct (Fs.lookup t (dest ++ [c])) as [n|] eqn:E; [|discriminate].
      rewrite (He _ _ E). destruct (Fs.kind_of n); [apply IH|auto|discriminate].
  - intros dest rest. revert dest. induction rest as [|c rest IH]; intros dest d.
    + now rewrite !resolve_nil.
    + rewrite !resolve_cons. destruct (_ || _); [apply IH|].
      destruct (String.eqb c ".."); [apply IH|].
      destruct (Fs.lookup t (dest ++ [c])) as [n|] eqn:E; [|discriminate].
      rewrite (He _ _ E). destruct (Fs.kind_of n); [apply IH|auto|apply IHl].
Qed.

Lemma is_dir_ext t t' k : ext t t' -> is_dir t k = true -> is_dir t' k = true.
Proof.
  unfold is_dir. intros He H.
  destruct (Fs.lookup t k) as [n|] eqn:E; [|discriminate]. now rewrite (He _ _ E).
Qed.

(** Through directories the resolution goes name by name. *)
Lemma resolve_real links t base names :
  Forall (fun n => Path.plain n = true) names ->
  real_dirs t base names = true ->
  Fs.resolve links t base names = inr (base ++ names).
Proof.
  intros Hn. revert base. induction Hn as [|n names Hp _ IH]; intros base H.
  - now rewrite resolve_nil, app_nil_r.
  - simpl in H. apply andb_true_iff in H as [H1 H2].
    rewrite resolve_cons. destruct (plain_parts n Hp) as (-> & -> & ->). simpl.
    unfold is_dir in H1. destruct (Fs.lookup t (base ++ [n])) as [x|]; [|discriminate].
    destruct (Fs.kind_of x); try discriminate.
    rewrite IH by exact H2. now rewrite <- app_assoc.
Qed.

Lemma resolve_real_root links t names :
  Forall (fun n => Path.plain n = true) names ->
  real_dirs t [] names = true ->
  Fs.resolve links t [] names = inr names.
Proof. intros Hn H. now rewrite resolve_real. Qed.

Lemma real_dirs_app t base a b :
  real_dirs t base (a ++ b) = real_dirs t base a && real_dirs t (base ++ a) b.
Proof.
  revert base. induction a as [|x a IH]; intros base; simpl.
  - now rewrite app_nil_r.
  - rewrite IH, <- app_assoc, andb_assoc. reflexivity.
Qed.

Lemma real_dirs_ext t t' base names :
  ext t t' -> real_dirs t base names = true -> real_dirs t' base names = true.
Proof.
  intros He. revert base. induction names as [|n names IH]; intros base H; [reflexivity|].
  simpl in *. apply andb_true_iff in H as [H1 H2].
  rewrite (is_dir_ext _ _ _ He H1). now apply IH.
Qed.

(** ** The paths of a job *)

Lemma split_print names :
  Forall (fun n => Path.plain n = true) names -> names <> [] ->
  Path.split (Path.print true names) = "" :: names.
Proof.
  intros Hn Hne. unfold Path.print.
  change (String Path.Separator (Path.join names))
    with ("" +:+ String Path.Separator (Path.join names)).
  rewrite split_app_sep, split_join; [reflexivity|exact Hne|].
  eapply Forall_impl; [exact Hn|]. intros. now apply plain_sepfree.
Qed.

Lemma elements_print names :
  Forall (fun n => Path.plain n = true) names ->
  Path.elements (Path.print true names) = names.
Proof.
  intros Hn. destruct names as [|n names]; [reflexivity|].
  unfold Path.elements. rewrite split_print by (exact Hn || discriminate).
  change (Path.IsAbs (Path.print true (n :: names))) with true.
  change (Path.clean_onto true [] ("" :: n :: names))
    with (Path.clean_onto true [] (n :: names)).
  rewrite clean_onto_plain by exact Hn. now rewrite app_nil_r, rev_involutive.
Qed.

(** Joining one more name. *)
Lemma Join_snoc R names d :
  Path.IsAbs R = true ->
  Forall (fun n => Path.plain n = true) names ->
  Path.plain d = true ->
  Path.Join [Path.Join (R :: names); d] = Path.Join (R :: names ++ [d]).
Proof.
  intros HR Hn Hd.
  assert (Forall (fun n => Path.plain n = true) (Path.elements R ++ names)) as Hall
      by (apply Forall_app; split; [now apply elements_rooted|exact Hn]).
  rewrite (Join_rooted R names HR Hn).
  rewrite Join_rooted; [|reflexivity|now repeat constructor].
  rewrite elements_print by exact Hall.
  rewrite Join_rooted; [|exact HR|apply Forall_app; split; [exact Hn|now repeat constructor]].
  now rewrite app_assoc.
Qed.

(** Where a path of the job leads: the resolution of the elements of
    the root and the names joined to it. *)
Lemma resolve_Join links t R names :
  Path.IsAbs R = true ->
  Forall (fun n => Path.plain n = true) names ->
  Fs.resolve links t [] (Path.split (Path.Join (R :: names)))
  = Fs.resolve links t [] (Path.elements R ++ names).
Proof.
  intros HR Hn. rewrite Join_rooted by assumption.
  assert (Forall (fun n => Path.plain n = true) (Path.elements R ++ names)) as Hall
      by (apply Forall_app; split; [now apply elements_rooted|exact Hn]).
  destruct (Path.elements R ++ names) as [|x l] eqn:E.
  - change (Path.split (Path.print true [])) with [""; ""].
    now rewrite !resolve_cons, resolve_nil.
  - rewrite split_print by (exact Hall || discriminate). now rewrite resolve_cons.
Qed.

Lemma follow_Join_rooted st op R names :
  Path.IsAbs R = true ->
  Forall (fun n => Path.plain n = true) names ->
  Fs.follow st op (Path.Join (R :: names))
  = match Fs.resolve Fs.MAXSYMLINKS (Fs.files st) [] (Path.elements R ++ names) with
    | inr k => Ok k
    | inl e => Err (PathError op (Path.Join (R :: names)) (Fs.errno_of e))
    end.
Proof.
  intros HR Hn. unfold Fs.follow. rewrite resolve_Join by assumption.
  rewrite (Join_rooted R names HR Hn) at 1. reflexivity.
Qed.

Lemma locate_Join st op R names d :
  Path.IsAbs R = true ->
  Forall (fun n => Path.plain n = true) names ->
  Path.plain d = true ->
  Fs.locate st op (Path.Join (R :: names ++ [d]))
  = match Fs.resolve Fs.MAXSYMLINKS (Fs.files st) [] (Path.elements R ++ names) with
    | inr k =>
        if Fs.directory (Fs.files st) k then Ok (k ++ [d])
        else Err (PathError op (Path.Join (R :: names ++ [d])) ENOTDIR)
    | inl e => Err (PathError op (Path.Join (R :: names ++ [d])) (Fs.errno_of e))
    end.
Proof.
  intros HR Hn Hd.
  assert (Forall (fun n => Path.plain n = true) (names ++ [d])) as Hnd
      by (apply Forall_app; split; [exact Hn|now repeat constructor]).
  assert (Forall (fun n => Path.plain n = true) (Path.elements R ++ names ++ [d])) as Hall
      by (apply Forall_app; split; [now apply elements_rooted|exact Hnd]).
  unfold Fs.locate.
  rewrite (Join_rooted R _ HR Hnd) at 1.
  rewrite split_print; [|exact Hall|intros E; apply app_eq_nil in E as [_ E]; now apply app_eq_nil in E as [_ E]].
  rewrite app_assoc. cbn [rev]. rewrite rev_app_distr. cbn [rev app].
  destruct (plain_parts d Hd) as (-> & -> & ->). cbn [orb].
  rewrite rev_app_distr, rev_involutive. cbn [rev app].
  now rewrite resolve_cons.
Qed.

Lemma resolve_app_real links t base a b :
  Forall (fun n => Path.plain n = true) a ->
  real_dirs t base a = true ->
  Fs.resolve links t base (a ++ b) = Fs.resolve links t (base ++ a) b.
Proof.
  intros Hn. revert base. induction Hn as [|n a Hp _ IH]; intros base H.
  - now rewrite app_nil_r.
  - simpl in H. apply andb_true_iff in H as [H1 H2].
    cbn [app]. rewrite resolve_cons. destruct (plain_parts n Hp) as (-> & -> & ->). simpl.
    unfold is_dir in H1. destruct (Fs.lookup t (base ++ [n])) as [x|]; [|discriminate].
    destruct (Fs.kind_of x); try discriminate.
    rewrite IH by exact H2. now rewrite <- app_assoc.
Qed.

Lemma real_dirs_last t base a x :
  real_dirs t base (a ++ [x]) = true -> is_dir t (base ++ a ++ [x]) = true.
Proof.
  rewrite real_dirs_app. intros H. apply andb_true_iff in H as [_ H].
  simpl in H. apply andb_true_iff in H as [H _]. now rewrite app_assoc.
Qed.

Lemma real_dirs_directory t names :
  real_dirs t [] names = true -> Fs.directory t names = true.
Proof.
  destruct names as [|x l] using rev_ind; [reflexivity|].
  intros H. now apply real_dirs_last in H.
Qed.

(** The target [setup] gives the link of a process. *)
Lemma Join_parent h :
  Path.plain h = true ->
  Path.IsAbs (Path.Join [".."; "by-hash"; h]) = false /\
  Path.split (Path.Join [".."; "by-hash"; h]) = [".."; "by-hash"; h].
Proof.
  intros Hh. pose proof (plain_sepfree h Hh) as Hs.
  assert (Path.split (Path.join [".."; "by-hash"; h]) = [".."; "by-hash"; h]) as Hsplit.
  { apply split_join; [discriminate|]. repeat constructor; assumption. }
  assert (Path.Join [".."; "by-hash"; h] = Path.join [".."; "by-hash"; h]) as ->.
  { unfold Path.Join. cbn [String.eqb Ascii.eqb Bool.eqb]. unfold Path.Clean.
    assert (Path.IsAbs (Path.join [".."; "by-hash"; h]) = false) as -> by reflexivity.
    unfold Path.elements.
    assert (Path.IsAbs (Path.join [".."; "by-hash"; h]) = false) as -> by reflexivity.
    rewrite Hsplit. cbn [Path.clean_onto String.eqb Ascii.eqb Bool.eqb orb].
    destruct (plain_parts h Hh) as (-> & -> & ->). reflexivity. }
  split; [reflexivity|exact Hsplit].
Qed.

Lemma removelast_snoc {A} (l : list A) x : removelast (l ++ [x]) = l.
Proof. apply removelast_last. Qed.

(** What [laid_out] gives. *)
Lemma laid_out_parts job st :
  laid_out job st = true ->
  Path.IsAbs (Root (function job)) = true /\
  Path.plain (hash job) = true /\
  real_dirs (Fs.files st) []
    (Path.elements (Root (function job)) ++ [RunDataDir; "builds"; "by-pid"]) = true /\
  real_dirs (Fs.files st) []
    (Path.elements (Root (function job)) ++ [RunDataDir; "builds"; "by-hash"; hash job])
  = true /\
  Forall (fun n => Path.plain n = true) (Path.elements (Root (function job))).
Proof.
  unfold laid_out. intros H.
  repeat (apply andb_true_iff in H as [H ?]).
  repeat split; try assumption. now apply elements_rooted.
Qed.

Lemma In_uniq x l : In x l -> In x (Fs.uniq l).
Proof.
  induction l as [|a l IH]; [auto|].
  destruct l as [|b r]; [auto|].
  intros H. change (Fs.uniq (a :: b :: r))
    with (if String.eqb a b then Fs.uniq (b :: r) else a :: Fs.uniq (b :: r)).
  destruct (String.eqb a b) eqn:E.
  - apply String.eqb_eq in E. subst b. apply IH. destruct H as [->|H]; [now left|exact H].
  - destruct H as [->|H]; [now left|right; now apply IH].
Qed.

Lemma uniq_In x l : In x (Fs.uniq l) -> In x l.
Proof.
  induction l as [|a l IH]; [auto|].
  destruct l as [|b r]; [auto|].
  change (Fs.uniq (a :: b :: r))
    with (if String.eqb a b then Fs.uniq (b :: r) else a :: Fs.uniq (b :: r)).
  destruct (String.eqb a b); intros H.
  - right. now apply IH.
  - destruct H as [->|H]; [now left|right; now apply IH].
Qed.

Lemma below_app dir rest : Fs.below dir (dir ++ rest) = Some rest.
Proof. induction dir as [|d dir IH]; simpl; [reflexivity|]. now rewrite String.eqb_refl. Qed.

Lemma below_Some dir k rest : Fs.below dir k = Some rest -> k = dir ++ rest.
Proof.
  revert k. induction dir as [|d dir IH]; intros k H; simpl in H.
  - now injection H as ->.
  - destruct k as [|c k]; [discriminate|].
    destruct (String.eqb d c) eqn:E; [|discriminate].
    apply String.eqb_eq in E. subst c. simpl. f_equal. now apply IH.
Qed.

Lemma find_In t k n : Fs.find t k = Some n -> In (k, n) t.
Proof.
  induction t as [|[k' n'] t IH]; simpl; [discriminate|].
  destruct (Fs.keq k' k) eqn:E.
  - apply keq_spec in E. intros [= ->]. subst. now left.
  - intros H. right. now apply IH.
Qed.

(** The names [os.ReadDir] lists are those of the entries of the
    directory, and they are plain. *)
Lemma names_in_spec t dir name :
  In name (Fs.names_in t dir) <->
  Path.plain name = true /\ exists k n, In (k, n) t /\ k = dir ++ [name].
Proof.
  unfold Fs.names_in. split.
  - intros H. apply uniq_In in H. apply list_elem_of_In in H.
    rewrite merge_sort_Permutation in H.
    apply list_elem_of_omap in H as ([k n] & Hin & Hc). simpl in Hc.
    unfold Fs.child_of in Hc.
    destruct (Fs.below dir k) as [[|x [|]]|] eqn:E; try discriminate.
    destruct (Path.plain x) eqn:Ep; [|discriminate]. injection Hc as ->.
    apply below_Some in E. split; [exact Ep|]. exists k, n.
    split; [now apply list_elem_of_In|exact E].
  - intros (Hp & k & n & Hin & ->). apply In_uniq. apply list_elem_of_In.
    rewrite merge_sort_Permutation. apply list_elem_of_omap.
    exists (dir ++ [name], n). split; [now apply list_elem_of_In|].
    simpl. unfold Fs.child_of. now rewrite below_app, Hp.
Qed.

Lemma digits_sepfree s a v : Str.read_digits s a = Some v -> Path.split s = [s].
Proof.
  revert a. induction s as [|c s IH]; intros a H; [reflexivity|].
  simpl in H. destruct (Str.digit_value c) as [d|] eqn:Ed; [|discriminate].
  apply IH in H. simpl. rewrite H.
  destruct (Ascii.eqb c Path.Separator) eqn:E; [|reflexivity].
  apply Ascii.eqb_eq in E. subst c. discriminate.
Qed.

(** The name of a process is a plain name. *)
Lemma Itoa_plain n : 0 <= n -> Path.plain (Str.Itoa n) = true.
Proof.
  intros Hn. unfold Str.Itoa.
  destruct (n <? 0) eqn:E; [apply Z.ltb_lt in E; lia|].
  replace (Z.to_nat (Z.log2 n) + 1)%nat with (S (Z.to_nat (Z.log2 n))) by lia.
  assert (0 <= n < 2 ^ Z.of_nat (S (Z.to_nat (Z.log2 n)))) as Hb.
  { split; [lia|].
    destruct (Z.eq_dec n 0) as [->|Hz]; [simpl; lia|].
    replace (Z.of_nat (S (Z.to_nat (Z.log2 n)))) with (Z.succ (Z.log2 n))
      by (pose proof (Z.log2_nonneg n); lia).
    apply Z.log2_spec. lia. }
  destruct (read_digits_digits _ n "" Hb) as (c & s & m & -> & Hc & Hread).
  specialize (Hread 0 "").
  change (Str.read_digits "" (0 * m + n)) with (Some (0 * m + n)) in Hread.
  pose proof (digits_sepfree _ _ _ Hread) as Hs.
  unfold Path.plain. rewrite Hs.
  destruct c as [[] [] [] [] [] [] [] []]; try reflexivity; exfalso; apply Hc; reflexivity.
Qed.

Lemma processExists_own st :
  0 <= Fs.self st < 2 ^ 63 -> processExists st (Str.Itoa (Fs.self st)) = true.
Proof.
  intros H. unfold processExists, Fs.FindProcess, Fs.signal0.
  rewrite Atoi_Itoa by exact H. rewrite Z.eqb_refl. now destruct (Fs.windows st).
Qed.

Lemma app4 {A} (es : list A) a b c d : es ++ [a; b; c; d] = (es ++ [a; b]) ++ [c; d].
Proof. now rewrite <- app_assoc. Qed.

Lemma app3 {A} (es : list A) a b c : es ++ [a; b; c] = (es ++ [a; b]) ++ [c].
Proof. now rewrite <- app_assoc. Qed.

(** Where the build directory of a job that is laid out leads. *)
Lemma resolve_buildDir links job st :
  laid_out job st = true ->
  Fs.resolve links (Fs.files st) [] (Path.split (buildDir job))
  = inr (Path.elements (Root (function job)) ++ [RunDataDir; "builds"; "by-hash"; hash job]).
Proof.
  intros H. apply laid_out_parts in H as (HR & Hh & Hp & Hb & Hes).
  unfold buildDir. rewrite resolve_Join; [|exact HR|now repeat constructor].
  apply resolve_real_root; [|exact Hb].
  apply Forall_app. split; [exact Hes|now repeat constructor].
Qed.

Lemma resolve_pidsDir links job st :
  laid_out job st = true ->
  Fs.resolve links (Fs.files st) [] (Path.split (pidsDir job))
  = inr (Path.elements (Root (function job)) ++ [RunDataDir; "builds"; "by-pid"]).
Proof.
  intros H. apply laid_out_parts in H as (HR & Hh & Hp & Hb & Hes).
  unfold pidsDir. rewrite resolve_Join; [|exact HR|now repeat constructor].
  apply resolve_real_root; [|exact Hp].
  apply Forall_app. split; [exact Hes|now repeat constructor].
Qed.

(** The names in [by-pid] of a job that is laid out. *)
Lemma entries_pidsDir job st :
  laid_out job st = true ->
  entries st (pidsDir job)
  = Fs.names_in (Fs.files st)
      (Path.elements (Root (function job)) ++ [RunDataDir; "builds"; "by-pid"]).
Proof.
  intros H. unfold entries, Fs.ReadDir.
  pose proof (resolve_pidsDir Fs.MAXSYMLINKS job st H) as Hr.
  apply laid_out_parts in H as (HR & Hh & Hp & Hb & Hes).
  unfold pidsDir in *. rewrite follow_Join_rooted; [|exact HR|now repeat constructor].
  rewrite resolve_Join in Hr; [|exact HR|now repeat constructor]. rewrite Hr.
  rewrite app3 in Hp. apply real_dirs_last in Hp. rewrite <- app3 in Hp. simpl in Hp.
  unfold is_dir in Hp. unfold Fs.entry_at.
  destruct (Fs.lookup _ _) as [n|]; [|discriminate].
  now destruct (Fs.kind_of n).
Qed.

(** A link in [by-pid] to [../by-hash/<hash>] leads to the build
    directory. *)
Lemma isLinkTo_pid job st d n :
  laid_out job st = true ->
  Path.plain d = true ->
  Fs.lookup (Fs.files st)
    (Path.elements (Root (function job)) ++ [RunDataDir; "builds"; "by-pid"; d]) = Some n ->
  Fs.kind_of n = Fs.SymLink (Path.Join [".."; "by-hash"; hash job]) ->
  isLinkTo st (Path.Join [pidsDir job; d]) (buildDir job) = true.
Proof.
  intros H Hd Hl Hk. unfold isLinkTo, Fs.EvalSymlinks.
  rewrite resolve_buildDir by exact H.
  apply laid_out_parts in H as (HR & Hh & Hp & Hb & Hes).
  unfold pidsDir. rewrite Join_snoc; [|exact HR|now repeat constructor|exact Hd].
  rewrite resolve_Join; [|exact HR|now repeat constructor].
  cbn [app].
  change [RunDataDir; "builds"; "by-pid"; d] with ([RunDataDir; "builds"; "by-pid"] ++ [d]).
  rewrite app_assoc.
  rewrite resolve_app_real;
    [|apply Forall_app; split; [exact Hes|now repeat constructor]|exact Hp].
  cbn [app]. rewrite resolve_cons. destruct (plain_parts d Hd) as (-> & -> & ->). simpl orb.
  cbv iota. rewrite <- app_assoc. cbn [app]. rewrite Hl, Hk.
  destruct (Join_parent _ Hh) as [-> ->]. cbn [app].
  rewrite resolve_cons. cbn [String.eqb Ascii.eqb Bool.eqb orb]. cbv iota.
  rewrite app3, removelast_snoc.
  rewrite app4 in Hb. rewrite real_dirs_app in Hb. apply andb_true_iff in Hb as [_ Hb].
  rewrite resolve_real; [|now repeat constructor|exact Hb].
  rewrite <- app4. now rewrite keq_refl.
Qed.

Lemma own_link_is_active_parts job st :
  0 <= Fs.self st < 2 ^ 63 ->
  laid_out job st = true ->
  own_link job st = true ->
  isActive job st = true.
Proof.
  intros Hs Hl Ho. unfold isActive. apply existsb_exists.
  exists (Str.Itoa (Fs.self st)).
  assert (Path.plain (Str.Itoa (Fs.self st)) = true) as Hp by (apply Itoa_plain; lia).
  unfold own_link in Ho.
  destruct (Fs.lookup _ _) as [n|] eqn:E; [|discriminate].
  destruct (Fs.kind_of n) as [| |target] eqn:Ek; try discriminate.
  apply String.eqb_eq in Ho. subst target.
  split.
  - rewrite entries_pidsDir by exact Hl. apply names_in_spec. split; [exact Hp|].
    eexists. exists n. split; [|reflexivity].
    apply find_In. rewrite <- lookup_find; [|now destruct (Path.elements _)].
    rewrite <- E. f_equal. now rewrite <- app_assoc.
  - rewrite processExists_own by exact Hs. simpl.
    now apply (isLinkTo_pid job st _ n).
Qed.


(** The liveness check finds the link of the running process: while
    the layout of a job is in place and the link [setup] left for this
    process is in [by-pid], the job is active and [setup] refuses it. *)
Theorem own_link_is_active job st :
  0 <= Fs.self st < 2 ^ 63 ->
  laid_out job st = true ->
  own_link job st = true ->
  isActive job st = true /\
  setup job st = (Err (ErrBuildInProgress (buildDir job)), st).
Proof.
  intros Hs Hl Ho. pose proof (own_link_is_active_parts _ _ Hs Hl Ho) as Ha.
  split; [exact Ha|]. unfold setup. now rewrite Ha.
Qed.

Lemma own_link_is_active_witness :
  0 <= Fs.self Sample.scaffolded < 2 ^ 63 /\
  laid_out Sample.job Sample.scaffolded = true /\
  own_link Sample.job Sample.scaffolded = true /\
  isActive Sample.job Sample.scaffolded = true /\
  setup Sample.job Sample.scaffolded
  = (Err (ErrBuildInProgress (buildDir Sample.job)), Sample.scaffolded).
Proof.
  assert (0 <= Fs.self Sample.scaffolded < 2 ^ 63) as H1 by (simpl; lia).
  assert (laid_out Sample.job Sample.scaffolded = true) as H2 by vm_refl.
  assert (own_link Sample.job Sample.scaffolded = true) as H3 by vm_refl.
  split; [exact H1|]. split; [exact H2|]. split; [exact H3|].
  exact (own_link_is_active Sample.job Sample.scaffolded H1 H2 H3).
Defined.

(** ** What [cleanup] spares *)

Lemma outside_true X k : (forall r, k <> X ++ r) -> Fs.outside X k = true.
Proof.
  intros H. unfold Fs.outside. destruct (Fs.below X k) as [r|] eqn:E; [|reflexivity].
  apply below_Some in E. now apply H in E.
Qed.

Lemma real_dirs_keep t X base names :
  (forall r, base ++ names <> X ++ r) ->
  real_dirs t base names = true ->
  real_dirs (Fs.keep (Fs.outside X) t) base names = true.
Proof.
  revert base. induction names as [|n names IH]; intros base HX H; [reflexivity|].
  simpl in *. apply andb_true_iff in H as [H1 H2].
  rewrite IH; [|now rewrite <- app_assoc|exact H2].
  unfold is_dir in *. rewrite lookup_keep; [now rewrite H1|].
  apply outside_true. intros r Hr. apply (HX (r ++ names)).
  rewrite app_assoc, <- Hr, <- app_assoc. reflexivity.
Qed.

(** [os.RemoveAll] of an entry of [by-pid]. *)
Lemma RemoveAll_pid job st d :
  laid_out job st = true ->
  Path.plain d = true ->
  Fs.RemoveAll st (Path.Join [pidsDir job; d])
  = (Ok tt,
     Fs.with_files st
       (Fs.keep (Fs.outside (Path.elements (Root (function job))
                             ++ [RunDataDir; "builds"; "by-pid"; d]))
                (Fs.files st))).
Proof.
  intros H Hd. unfold Fs.RemoveAll.
  pose proof (resolve_pidsDir Fs.MAXSYMLINKS job st H) as Hr.
  apply laid_out_parts in H as (HR & Hh & Hp & Hb & Hes).
  unfold pidsDir in *. rewrite Join_snoc; [|exact HR|now repeat constructor|exact Hd].
  rewrite locate_Join; [|exact HR|now repeat constructor|exact Hd].
  rewrite resolve_Join in Hr; [|exact HR|now repeat constructor].
  rewrite Hr, (real_dirs_directory _ _ Hp). now rewrite <- app_assoc.
Qed.

Lemma guarded_RemoveAll job st d :
  guarded job st ->
  Path.plain d = true ->
  d <> Str.Itoa (Fs.self st) ->
  guarded job (snd (Fs.RemoveAll st (Path.Join [pidsDir job; d]))).
Proof.
  intros (Hs & Hl & Ho) Hd Hne. rewrite RemoveAll_pid by assumption. cbn [snd].
  pose proof (laid_out_parts _ _ Hl) as (HR & Hh & Hp & Hb & Hes).
  split; [exact Hs|]. split.
  - unfold laid_out. cbn [Fs.files Fs.with_files]. rewrite HR, Hh. cbn [andb].
    rewrite !real_dirs_keep; [reflexivity| |exact Hb| |exact Hp].
    + intros r E. cbn [app] in E. rewrite <- app_assoc in E.
      apply app_inv_head in E. discriminate E.
    + intros r E. cbn [app] in E. rewrite <- app_assoc in E.
      apply app_inv_head in E. discriminate E.
  - unfold own_link in *. cbn [Fs.files Fs.with_files Fs.self].
    rewrite lookup_keep; [exact Ho|].
    apply outside_true. intros r E. rewrite <- app_assoc in E.
    apply app_inv_head in E. injection E as E _. congruence.
Qed.

Lemma processExists_with_files st t d :
  processExists (Fs.with_files st t) d = processExists st d.
Proof. reflexivity. Qed.

Lemma cleanup_pids_guarded job dd st :
  Forall (fun n => Path.plain n = true) dd ->
  guarded job st ->
  guarded job (cleanup_pids job dd st).
Proof.
  intros Hdd. revert st. induction Hdd as [|d dd Hd _ IH]; intros st Hg; [exact Hg|].
  cbn [cleanup_pids]. destruct (processExists st d) eqn:E; [now apply IH|].
  apply IH. apply guarded_RemoveAll; [exact Hg|exact Hd|].
  intros ->. destruct Hg as (Hs & _). rewrite processExists_own in E by exact Hs.
  discriminate.
Qed.

Lemma entries_plain st dir : Forall (fun n => Path.plain n = true) (entries st dir).
Proof.
  unfold entries, Fs.ReadDir.
  destruct (Fs.follow st "open" dir) as [k|]; [|constructor].
  destruct (Fs.entry_at st "open" dir k) as [n|]; [|constructor].
  destruct (Fs.kind_of n); try constructor.
  apply Forall_forall. intros x Hx. apply list_elem_of_In in Hx.
  now apply names_in_spec in Hx as [Hx _].
Qed.

(** While the layout of the job is in place and the link of the
    running process is in [by-pid], [cleanup] stops after its first
    loop: it removes no build directory, leaves layout and link as
    they are, and the job is still active when it is done, so that
    the next [setup] for the same fingerprint is refused. *)
Theorem cleanup_spares_own_link job st :
  0 <= Fs.self st < 2 ^ 63 ->
  laid_out job st = true ->
  own_link job st = true ->
  cleanup job st = cleanup_pids job (entries st (pidsDir job)) st /\
  laid_out job (cleanup job st) = true /\
  own_link job (cleanup job st) = true /\
  isActive job (cleanup job st) = true /\
  fst (setup job (cleanup job st)) = Err (ErrBuildInProgress (buildDir job)).
Proof.
  intros Hs Hl Ho.
  assert (guarded job (cleanup_pids job (entries st (pidsDir job)) st)) as (Hs1 & Hl1 & Ho1).
  { apply cleanup_pids_guarded; [apply entries_plain|]. exact (conj Hs (conj Hl Ho)). }
  pose proof (own_link_is_active_parts _ _ Hs1 Hl1 Ho1) as Ha.
  assert (cleanup job st = cleanup_pids job (entries st (pidsDir job)) st) as ->.
  { unfold cleanup. now apply cleanup_builds_active. }
  split; [reflexivity|]. split; [exact Hl1|]. split; [exact Ho1|]. split; [exact Ha|].
  unfold setup. now rewrite Ha.
Qed.

Lemma cleanup_spares_own_link_witness :
  0 <= Fs.self Sample.stale < 2 ^ 63 /\
  laid_out Sample.job Sample.stale = true /\
  own_link Sample.job Sample.stale = true /\
  cleanup Sample.job Sample.stale
  = cleanup_pids Sample.job (entries Sample.stale (pidsDir Sample.job)) Sample.stale /\
  laid_out Sample.job (cleanup Sample.job Sample.stale) = true /\
  own_link Sample.job (cleanup Sample.job Sample.stale) = true /\
  isActive Sample.job (cleanup Sample.job Sample.stale) = true /\
  fst (setup Sample.job (cleanup Sample.job Sample.stale))
  = Err (ErrBuildInProgress (buildDir Sample.job)).
Proof.
  assert (0 <= Fs.self Sample.stale < 2 ^ 63) as H1 by (simpl; lia).
  assert (laid_out Sample.job Sample.stale = true) as H2 by vm_refl.
  assert (own_link Sample.job Sample.stale = true) as H3 by vm_refl.
  split; [exact H1|]. split; [exact H2|]. split; [exact H3|].
  exact (cleanup_spares_own_link Sample.job Sample.stale H1 H2 H3).
Defined.

(** ** What [setup] leaves *)

(** [os.MkdirAll] only adds. *)
Lemma mkdir_all_ext st path mode rest :
  forall t dest, exists r t',
    Fs.mkdir_all st path mode t dest rest = (r, Fs.with_files st t') /\ ext t t'.
Proof.
  induction rest as [|c rest IH]; intros t dest; cbn [Fs.mkdir_all].
  - exists (Ok tt), t. split; [reflexivity|apply ext_refl].
  - destruct (_ || _); [apply IH|].
    destruct (String.eqb c ".."); [apply IH|].
    destruct (Fs.lookup t (dest ++ [c])) as [n|] eqn:E.
    + destruct (Fs.kind_of n).
      * apply IH.
      * eexists. exists t. split; [reflexivity|apply ext_refl].
      * destruct (Fs.resolve Fs.MAXSYMLINKS t dest [c]) as [[[]|]|d];
          try (eexists; exists t; split; [reflexivity|apply ext_refl]).
        destruct (Fs.lookup t d) as [[[] ? ? ?]|];
          try (eexists; exists t; split; [reflexivity|apply ext_refl]).
        apply IH.
    + destruct (IH (Fs.put (dest ++ [c]) (Fs.created st Fs.Directory mode) t) (dest ++ [c]))
        as (r & t' & -> & He).
      exists r, t'. split; [reflexivity|].
      eapply ext_trans; [|exact He]. now apply ext_put.
Qed.

Lemma MkdirAll_ext st path mode r st' :
  Fs.MkdirAll st path mode = (r, st') ->
  ext (Fs.files st) (Fs.files st') /\ same_process st st'.
Proof.
  unfold Fs.MkdirAll. intros H.
  destruct (mkdir_all_ext st path mode (Path.split path) (Fs.files st) [])
    as (r' & t' & E & He).
  rewrite E in H. injection H as _ <-. split; [exact He|]. repeat split.
Qed.

Lemma same_process_refl st : same_process st st.
Proof. repeat split. Qed.

Lemma same_process_trans a b c : same_process a b -> same_process b c -> same_process a c.
Proof. intros (? & ? & ?) (? & ? & ?). repeat split; congruence. Qed.

Lemma RemoveAll_same st path : same_process st (snd (Fs.RemoveAll st path)).
Proof. unfold Fs.RemoveAll. destruct (Fs.locate st _ path); repeat split. Qed.

(** After [setup] the link of the process is where the liveness check
    looks for it: when [setup] has succeeded and left the layout of the
    job in place, the link of the running process is in [by-pid] with
    the target [../by-hash/<hash>], and the job is active from then on,
    so that a second [setup] for the same fingerprint is refused. *)
Theorem setup_leaves_own_link job st st' :
  0 <= Fs.self st < 2 ^ 63 ->
  setup job st = (Ok tt, st') ->
  laid_out job st' = true ->
  own_link job st' = true /\
  isActive job st' = true /\
  setup job st' = (Err (ErrBuildInProgress (buildDir job)), st').
Proof.
  intros Hs H Hl.
  assert (own_link job st' = true /\ Fs.self st' = Fs.self st) as [Ho Hself].
  2: { assert (0 <= Fs.self st' < 2 ^ 63) as Hs' by now rewrite Hself.
       pose proof (own_link_is_active_parts _ _ Hs' Hl Ho) as Ha.
       split; [exact Ho|]. split; [exact Ha|]. unfold setup. now rewrite Ha. }
  pose proof (laid_out_parts _ _ Hl) as (HR & Hh & Hp & Hb & Hes).
  unfold setup in H. destruct (isActive job st); [discriminate|].
  apply bind_Ok in H as (_u1 & s1 & H1 & H).
  apply bind_Ok in H as (_u2 & s2 & H2 & H).
  apply bind_Ok in H as (_u3 & s3 & H3 & H).
  apply bind_Ok in H as (_u4 & s4 & H4 & H).
  apply bind_Ok in H as (_u5 & s5 & H5 & H).
  apply bind_Ok in H as (_u6 & s6 & H6 & H).
  apply ret_Ok in H as [_ Hst]. subst s6.
  assert (same_process st s3) as P3.
  { eapply same_process_trans; [|eapply same_process_trans].
    - instantiate (1 := s1). destruct (negb _) in H1.
      + pose proof (RemoveAll_same st (buildDir job)) as P. now rewrite H1 in P.
      + injection H1 as _ <-. apply same_process_refl.
    - instantiate (1 := s2). now apply MkdirAll_ext in H2.
    - destruct (IsNotExist _) in H3.
      + now apply MkdirAll_ext in H3.
      + injection H3 as _ <-. apply same_process_refl. }
  apply MkdirAll_ext in H5 as [E5 P5]. apply MkdirAll_ext in H6 as [E6 P6].
  unfold Fs.Symlink in H4.
  change (pidLink job s3)
    with (Path.Join (Root (function job)
                     :: [RunDataDir; "builds"; "by-pid"] ++ [Str.Itoa (Fs.self s3)])) in H4.
  assert (Path.plain (Str.Itoa (Fs.self s3)) = true) as Hpid.
  { apply Itoa_plain. destruct P3 as (-> & _). lia. }
  rewrite locate_Join in H4; [|exact HR|now repeat constructor|exact Hpid].
  destruct (Fs.resolve Fs.MAXSYMLINKS (Fs.files s3) []
              (Path.elements (Root (function job)) ++ [RunDataDir; "builds"; "by-pid"]))
    as [e|k0] eqn:Er; [destruct (Fs.errno_of e); discriminate|].
  destruct (Fs.directory (Fs.files s3) k0); [|discriminate].
  destruct (Fs.lookup (Fs.files s3) (k0 ++ [Str.Itoa (Fs.self s3)])) eqn:El; [discriminate|].
  injection H4 as _ H4. subst s4.
  assert (ext (Fs.files s3) (Fs.files st')) as E36.
  { eapply ext_trans; [|eapply ext_trans; [exact E5|exact E6]].
    cbn [Fs.files Fs.with_files]. now apply ext_put. }
  apply (resolve_ext _ _ E36) in Er.
  rewrite resolve_real_root in Er;
    [|apply Forall_app; split; [exact Hes|now repeat constructor]|exact Hp].
  injection Er as <-.
  assert (Fs.self st' = Fs.self s3) as Hself3.
  { destruct P6 as (-> & _). destruct P5 as (-> & _). reflexivity. }
  split; [|destruct P3 as (<- & _); exact Hself3].
  unfold own_link. rewrite Hself3.
  change [RunDataDir; "builds"; "by-pid"; Str.Itoa (Fs.self s3)]
    with ([RunDataDir; "builds"; "by-pid"] ++ [Str.Itoa (Fs.self s3)]).
  rewrite app_assoc.
  erewrite E6; [|apply E5; cbn [Fs.files Fs.with_files]; apply lookup_put_eq;
                  intros E; apply app_eq_nil in E as [_ E]; discriminate E].
  cbn [Fs.kind_of Fs.created]. apply String.eqb_refl.
Qed.

Lemma setup_leaves_own_link_witness :
  0 <= Fs.self Sample.machine < 2 ^ 63 /\
  setup Sample.job Sample.machine = (Ok tt, Sample.prepared) /\
  laid_out Sample.job Sample.prepared = true /\
  own_link Sample.job Sample.prepared = true /\
  isActive Sample.job Sample.prepared = true /\
  setup Sample.job Sample.prepared
  = (Err (ErrBuildInProgress (buildDir Sample.job)), Sample.prepared).
Proof.
  assert (0 <= Fs.self Sample.machine < 2 ^ 63) as H1 by (simpl; lia).
  assert (setup Sample.job Sample.machine = (Ok tt, Sample.prepared)) as H2 by vm_refl.
  assert (laid_out Sample.job Sample.prepared = true) as H3 by vm_refl.
  split; [exact H1|]. split; [exact H2|]. split; [exact H3|].
  exact (setup_leaves_own_link Sample.job Sample.machine Sample.prepared H1 H2 H3).
Defined.

(** ** The link to the last build *)

Lemma Clean_print names :
  Forall (fun n => Path.plain n = true) names ->
  Path.Clean (Path.print true names) = Path.print true names.
Proof.
  intros H. unfold Path.Clean. rewrite elements_print by exact H. reflexivity.
Qed.

Lemma removelast_cons {A} (x : A) l : l <> [] -> removelast (x :: l) = x :: removelast l.
Proof. destruct l; [congruence|reflexivity]. Qed.

(** [filepath.Dir] of a rooted path of plain names. *)
Lemma Dir_print names n :
  Forall (fun n => Path.plain n = true) names ->
  Path.plain n = true ->
  Path.Dir (Path.print true (names ++ [n])) = Path.print true names.
Proof.
  intros Hn Hp.
  assert (Forall (fun n => Path.plain n = true) (names ++ [n])) as Hall
      by (apply Forall_app; split; [exact Hn|now repeat constructor]).
  unfold Path.Dir. rewrite split_print; [|exact Hall|now destruct names].
  destruct (names ++ [n]) as [|x l] eqn:E; [now destruct names|].
  rewrite <- E. rewrite removelast_cons by now destruct names.
  rewrite removelast_snoc.
  destruct names as [|y names].
  - reflexivity.
  - rewrite join_cons by discriminate.
    change ("" +:+ String Path.Separator (Path.join (y :: names)))
      with (Path.print true (y :: names)).
    unfold Path.Clean.
    assert (Path.IsAbs (Path.print true (y :: names) +:+ String Path.Separator "") = true)
      as -> by reflexivity.
    unfold Path.elements.
    assert (Path.IsAbs (Path.print true (y :: names) +:+ String Path.Separator "") = true)
      as -> by reflexivity.
    rewrite split_app_sep, split_print by (exact Hn || discriminate).
    change (Path.split "") with [""].
    change (("" :: y :: names) ++ [""]) with ("" :: (y :: names) ++ [""]).
    change (Path.clean_onto true [] ("" :: (y :: names) ++ [""]))
      with (Path.clean_onto true [] ((y :: names) ++ [""])).
    rewrite clean_onto_app, (clean_onto_plain true (y :: names) [] Hn).
    cbn [Path.clean_onto String.eqb orb]. now rewrite app_nil_r, rev_involutive.
Qed.

Lemma differ_prefix a t : Path.differ a (a ++ t) = ([], t).
Proof.
  induction a as [|x a IH]; simpl; [now destruct t|]. now rewrite String.eqb_refl.
Qed.

(** The target of the link to the last build. *)
Lemma Rel_last job :
  Path.IsAbs (Root (function job)) = true ->
  Path.plain (hash job) = true ->
  Path.Rel (Path.Dir (lastLink job)) (buildDir job) = Some ("by-hash/" +:+ hash job).
Proof.
  intros HR Hh. pose proof (elements_rooted _ HR) as Hes.
  unfold lastLink, buildDir.
  rewrite !Join_rooted by (exact HR || now repeat constructor).
  rewrite app3, Dir_print;
    [|apply Forall_app; split; [exact Hes|now repeat constructor]|reflexivity].
  rewrite app4.
  set (B := Path.elements (Root (function job)) ++ [RunDataDir; "builds"]).
  assert (Forall (fun n => Path.plain n = true) B) as HB
      by (apply Forall_app; split; [exact Hes|now repeat constructor]).
  assert (Forall (fun n => Path.plain n = true) (B ++ ["by-hash"; hash job])) as HT
      by (apply Forall_app; split; [exact HB|now repeat constructor]).
  unfold Path.Rel. rewrite !Clean_print by assumption.
  destruct (String.eqb _ _) eqn:E.
  { apply String.eqb_eq in E. apply (f_equal Path.elements) in E.
    rewrite !elements_print in E by assumption.
    apply (f_equal (@length string)) in E. rewrite length_app in E. simpl in E. lia. }
  rewrite !elements_print by assumption.
  assert (Path.IsAbs (Path.print true B) = true) as -> by reflexivity.
  assert (Path.IsAbs (Path.print true (B ++ ["by-hash"; hash job])) = true) as ->
      by reflexivity.
  cbn [Bool.eqb negb]. rewrite differ_prefix. reflexivity.
Qed.

Lemma laid_out_keep job st X :
  laid_out job st = true ->
  (forall r, Path.elements (Root (function job)) ++ [RunDataDir; "builds"; "by-pid"]
             <> X ++ r) ->
  (forall r, Path.elements (Root (function job)) ++ [RunDataDir; "builds"; "by-hash"; hash job]
             <> X ++ r) ->
  laid_out job (Fs.with_files st (Fs.keep (Fs.outside X) (Fs.files st))) = true.
Proof.
  intros Hl H1 H2. pose proof (laid_out_parts _ _ Hl) as (HR & Hh & Hp & Hb & Hes).
  unfold laid_out. cbn [Fs.files Fs.with_files]. rewrite HR, Hh. cbn [andb].
  rewrite !real_dirs_keep; [reflexivity|exact H2|exact Hb|exact H1|exact Hp].
Qed.

Lemma laid_out_ext job st t :
  laid_out job st = true -> ext (Fs.files st) t -> laid_out job (Fs.with_files st t) = true.
Proof.
  intros Hl He. pose proof (laid_out_parts _ _ Hl) as (HR & Hh & Hp & Hb & Hes).
  unfold laid_out. cbn [Fs.files Fs.with_files]. rewrite HR, Hh. cbn [andb].
  now rewrite (real_dirs_ext _ _ _ _ He Hp), (real_dirs_ext _ _ _ _ He Hb).
Qed.

(** Where [last] is looked up in a job that is laid out. *)
Lemma locate_lastLink job st op :
  laid_out job st = true ->
  Fs.locate st op (lastLink job)
  = Ok (Path.elements (Root (function job)) ++ [RunDataDir; "builds"; "last"]).
Proof.
  intros Hl. pose proof (laid_out_parts _ _ Hl) as (HR & Hh & Hp & Hb & Hes).
  unfold lastLink.
  change [RunDataDir; "builds"; "last"] with ([RunDataDir; "builds"] ++ ["last"]).
  rewrite locate_Join; [|exact HR|now repeat constructor|reflexivity].
  rewrite app3, real_dirs_app in Hp. apply andb_true_iff in Hp as [Hp _].
  rewrite resolve_real_root;
    [|apply Forall_app; split; [exact Hes|now repeat constructor]|exact Hp].
  rewrite (real_dirs_directory _ _ Hp). now rewrite <- app_assoc.
Qed.

Lemma updateLastLink_run job st :
  laid_out job st = true ->
  exists st',
    updateLastLink job st = (Ok tt, st') /\
    Fs.Readlink st' (lastLink job) = Ok ("by-hash/" +:+ hash job) /\
    isLinkTo st' (lastLink job) (buildDir job) = true /\
    laid_out job st' = true /\
    own_link job st' = own_link job st.
Proof.
  intros Hl. pose proof (laid_out_parts _ _ Hl) as (HR & Hh & Hp & Hb & Hes).
  set (L := Path.elements (Root (function job)) ++ [RunDataDir; "builds"; "last"]).
  assert (L <> []) as HL by (subst L; intros E; apply app_eq_nil in E as [_ E]; discriminate E).
  assert (forall r, Path.elements (Root (function job)) ++ [RunDataDir; "builds"; "by-pid"]
                    <> L ++ r) as N1.
  { intros r E. subst L. rewrite <- app_assoc in E. apply app_inv_head in E. discriminate E. }
  assert (forall r, Path.elements (Root (function job))
                    ++ [RunDataDir; "builds"; "by-hash"; hash job] <> L ++ r) as N2.
  { intros r E. subst L. rewrite <- app_assoc in E. apply app_inv_head in E. discriminate E. }
  pose proof (laid_out_keep job st L Hl N1 N2) as Hl1.
  set (st1 := Fs.with_files st (Fs.keep (Fs.outside L) (Fs.files st))) in *.
  assert (snd (Fs.RemoveAll st (lastLink job)) = st1) as Hrm.
  { unfold Fs.RemoveAll. now rewrite locate_lastLink by exact Hl. }
  assert (Fs.lookup (Fs.files st1) L = None) as Hnone.
  { rewrite lookup_find by exact HL. subst st1. cbn [Fs.files Fs.with_files].
    apply find_keep_out. unfold Fs.outside.
    rewrite <- (app_nil_r L) at 2. now rewrite below_app. }
  set (link := Fs.created st1 (Fs.SymLink ("by-hash/" +:+ hash job)) 511).
  set (st2 := Fs.with_files st1 (Fs.put L link (Fs.files st1))).
  assert (laid_out job st2 = true) as Hl2.
  { apply laid_out_ext; [exact Hl1|]. now apply ext_put. }
  assert (Fs.lookup (Fs.files st2) L = Some link) as Hlink.
  { subst st2. cbn [Fs.files Fs.with_files]. now apply lookup_put_eq. }
  exists st2. split; [|split; [|split; [|split]]].
  - unfold updateLastLink. rewrite Hrm, Rel_last by assumption.
    unfold Fs.Symlink. rewrite locate_lastLink by exact Hl1. fold L. now rewrite Hnone.
  - unfold Fs.Readlink. rewrite locate_lastLink by exact Hl2. fold L.
    unfold Fs.entry_at. now rewrite Hlink.
  - unfold isLinkTo, Fs.EvalSymlinks. rewrite resolve_buildDir by exact Hl2.
    unfold lastLink. rewrite resolve_Join; [|exact HR|now repeat constructor].
    pose proof (laid_out_parts _ _ Hl2) as (_ & _ & Hp2 & Hb2 & _).
    rewrite app3. rewrite app4, real_dirs_app in Hb2. apply andb_true_iff in Hb2 as [HB Hb2].
    rewrite resolve_app_real;
      [|apply Forall_app; split; [exact Hes|now repeat constructor]|exact HB].
    cbn [app]. rewrite resolve_cons. cbn [String.eqb Ascii.eqb Bool.eqb orb]. cbv iota.
    rewrite <- app3. fold L. rewrite Hlink. cbn [Fs.kind_of link Fs.created].
    assert (Path.split ("by-hash/" +:+ hash job) = ["by-hash"; hash job]) as ->.
    { change ("by-hash/" +:+ hash job) with (Path.join ["by-hash"; hash job]).
      apply split_join; [discriminate|].
      repeat constructor. now apply plain_sepfree. }
    assert (Path.IsAbs ("by-hash/" +:+ hash job) = false) as -> by reflexivity.
    rewrite app_nil_r, resolve_real; [|now repeat constructor|exact Hb2].
    rewrite <- app4. now rewrite keq_refl.
  - exact Hl2.
  - unfold own_link. subst st2 st1. cbn [Fs.files Fs.with_files Fs.self].
    rewrite lookup_put_ne.
    + rewrite lookup_keep; [reflexivity|]. apply outside_true. intros r E. subst L.
      rewrite <- app_assoc in E. apply app_inv_head in E. discriminate E.
    + subst L. intros E. apply app_inv_head in E. discriminate E.
Qed.

(** When [updateLastLink] succeeds in a job that is laid out,
    whatever [last] was before, a link, a file or a directory, is
    gone: [last] is a link with the relative target [by-hash/<hash>],
    it leads to the build directory of the job, and the layout and the
    link of the process are as they were. *)
Theorem updateLastLink_links job st st' :
  laid_out job st = true ->
  updateLastLink job st = (Ok tt, st') ->
  Fs.Readlink st' (lastLink job) = Ok ("by-hash/" +:+ hash job) /\
  isLinkTo st' (lastLink job) (buildDir job) = true /\
  laid_out job st' = true /\
  own_link job st' = own_link job st.
Proof.
  intros Hl H. destruct (updateLastLink_run job st Hl) as (st2 & Hrun & Hrest).
  rewrite Hrun in H. injection H as <-. exact Hrest.
Qed.

Lemma updateLastLink_links_witness :
  laid_out Sample.job Sample.containerized = true /\
  updateLastLink Sample.job Sample.containerized = (Ok tt, Sample.linked) /\
  Fs.Readlink Sample.linked (lastLink Sample.job) = Ok ("by-hash/" +:+ hash Sample.job) /\
  isLinkTo Sample.linked (lastLink Sample.job) (buildDir Sample.job) = true /\
  laid_out Sample.job Sample.linked = true /\
  own_link Sample.job Sample.linked = own_link Sample.job Sample.containerized.
Proof.
  assert (laid_out Sample.job Sample.containerized = true) as H1 by vm_refl.
  assert (updateLastLink Sample.job Sample.containerized = (Ok tt, Sample.linked)) as H2
      by vm_refl.
  split; [exact H1|]. split; [exact H2|].
  exact (updateLastLink_links Sample.job Sample.containerized Sample.linked H1 H2).
Defined.

(** ** A file that was created can be written *)

Lemma resolve_shape t t' :
  (forall k, shape <$> Fs.lookup t' k = shape <$> Fs.lookup t k) ->
  forall links dest rest, Fs.resolve links t' dest rest = Fs.resolve links t dest rest.
Proof.
  intros Hs. induction links as [|links IHl].
  - intros dest rest. revert dest. induction rest as [|c rest IH]; intros dest.
    + now rewrite !resolve_nil.
    + rewrite !resolve_cons. destruct (_ || _); [apply IH|].
      destruct (String.eqb c ".."); [apply IH|].
      specialize (Hs (dest ++ [c])).
      destruct (Fs.lookup t (dest ++ [c])) as [n|], (Fs.lookup t' (dest ++ [c])) as [n'|];
        try discriminate; [|reflexivity].
      injection Hs as Hs. unfold shape in Hs.
      destruct (Fs.kind_of n), (Fs.kind_of n'); try discriminate; try reflexivity.
      apply IH.
  - intros dest rest. revert dest. induction rest as [|c rest IH]; intros dest.
    + now rewrite !resolve_nil.
    + rewrite !resolve_cons. destruct (_ || _); [apply IH|].
      destruct (String.eqb c ".."); [apply IH|].
      specialize (Hs (dest ++ [c])).
      destruct (Fs.lookup t (dest ++ [c])) as [n|], (Fs.lookup t' (dest ++ [c])) as [n'|];
        try discriminate; [|reflexivity].
      injection Hs as Hs. unfold shape in Hs.
      destruct (Fs.kind_of n), (Fs.kind_of n'); try discriminate; try reflexivity.
      * apply IH.
      * injection Hs as ->. apply IHl.
Qed.

(** One more name after a path that leads to a directory, when the
    name is that of a file in it. *)
Lemma resolve_snoc t name n data :
  String.eqb name "" || String.eqb name "." || String.eqb name ".." = false ->
  forall links dest a d,
    Fs.resolve links t dest a = inr d ->
    Fs.directory t d = true ->
    Fs.lookup t (d ++ [name]) = Some n ->
    Fs.kind_of n = Fs.Regular data ->
    Fs.resolve links t dest (a ++ [name]) = inr (d ++ [name]).
Proof.
  intros Hname.
  apply orb_false_iff in Hname as [Hname H3]. apply orb_false_iff in Hname as [H1 H2].
  assert (forall links d, Fs.directory t d = true ->
            Fs.lookup t (d ++ [name]) = Some n -> Fs.kind_of n = Fs.Regular data ->
            Fs.resolve links t d [name] = inr (d ++ [name])) as Hlast.
  { intros links d _ Hl Hk. rewrite resolve_cons, H1, H2, H3, Hl, Hk. reflexivity. }
  induction links as [|links IHl].
  - intros dest a. revert dest. induction a as [|c a IH]; intros dest d H Hd Hl Hk.
    + rewrite resolve_nil in H. injection H as ->. now apply Hlast.
    + cbn [app]. rewrite resolve_cons in *. destruct (_ || _); [now apply IH|].
      destruct (String.eqb c ".."); [now apply IH|].
      destruct (Fs.lookup t (dest ++ [c])) as [x|] eqn:E; [|discriminate].
      destruct (Fs.kind_of x) eqn:Ex; [now apply IH| |discriminate].
      destruct a; [|discriminate]. injection H as <-.
      unfold Fs.directory in Hd. rewrite E, Ex in Hd. discriminate.
  - intros dest a. revert dest. induction a as [|c a IH]; intros dest d H Hd Hl Hk.
    + rewrite resolve_nil in H. injection H as ->. now apply Hlast.
    + cbn [app]. rewrite resolve_cons in *. destruct (_ || _); [now apply IH|].
      destruct (String.eqb c ".."); [now apply IH|].
      destruct (Fs.lookup t (dest ++ [c])) as [x|] eqn:E; [|discriminate].
      destruct (Fs.kind_of x) eqn:Ex; [now apply IH| |].
      * destruct a; [|discriminate]. injection H as <-.
        unfold Fs.directory in Hd. rewrite E, Ex in Hd. discriminate.
      * rewrite app_assoc. now apply IHl.
Qed.

Lemma directory_ext t t' k : ext t t' -> Fs.directory t k = true -> Fs.directory t' k = true.
Proof.
  unfold Fs.directory. intros He H.
  destruct (Fs.lookup t k) as [n|] eqn:E; [|discriminate]. now rewrite (He _ _ E).
Qed.

(** After [os.Create] and a write the file is there: the path leads
    to it and it holds what was written. *)
Lemma WriteFile_leaves st path data mode st1 :
  Fs.WriteFile st path data mode = (Ok tt, st1) ->
  exists k n,
    Fs.follow st1 "open" path = Ok k /\
    Fs.lookup (Fs.files st1) k = Some n /\
    Fs.kind_of n = Fs.Regular data.
Proof.
  unfold Fs.WriteFile. intros H.
  destruct (Fs.follow st "open" path) as [k|e] eqn:Ef.
  - destruct (Fs.lookup (Fs.files st) k) as [[[|old|] p u g]|] eqn:El; try discriminate.
    injection H as <-. exists k. eexists.
    assert (k <> []) as Hk by (intros ->; discriminate).
    split; [|split; [exact (lookup_put_eq _ _ _ Hk)|reflexivity]].
    unfold Fs.follow in *. destruct (String.eqb path ""); [discriminate|].
    unfold Fs.with_files; cbn [Fs.files]. rewrite (resolve_shape (Fs.files st)); [exact Ef|].
    intros k'. destruct (decide (k' = k)) as [->|Hne].
    + now rewrite lookup_put_eq, El.
    + now rewrite lookup_put_ne.
  - unfold Fs.locate in H.
    destruct (rev (Path.split path)) as [|name up] eqn:Es; [discriminate|].
    destruct (String.eqb name "" || String.eqb name "." || String.eqb name "..") eqn:En.
    { rewrite Ef in H. discriminate. }
    destruct (Fs.resolve Fs.MAXSYMLINKS (Fs.files st) [] (rev up)) as [e'|d] eqn:Er;
      [discriminate|].
    destruct (Fs.directory (Fs.files st) d) eqn:Ed; [|discriminate].
    destruct (Fs.lookup (Fs.files st) (d ++ [name])) eqn:El; [discriminate|].
    injection H as <-. exists (d ++ [name]). eexists.
    assert (d ++ [name] <> []) as Hk by now destruct d.
    pose proof (ext_put _ _ (Fs.created st (Fs.Regular data) mode) El) as He.
    split; [|split; [exact (lookup_put_eq _ _ _ Hk)|reflexivity]].
    unfold Fs.follow.
    assert (Path.split path = rev up ++ [name]) as Hsp.
    { rewrite <- (rev_involutive (Path.split path)), Es. reflexivity. }
    destruct (String.eqb path "") eqn:Ep.
    { apply String.eqb_eq in Ep. subst path. destruct (rev up) as [|x l]; [|destruct l; discriminate].
      injection Hsp as <-. discriminate. }
    unfold Fs.with_files; cbn [Fs.files]. rewrite Hsp.
    erewrite (resolve_snoc _ name (Fs.created st (Fs.Regular data) mode) data En);
      [reflexivity| | | |reflexivity].
    + apply (resolve_ext _ _ He). exact Er.
    + now apply (directory_ext _ _ _ He).
    + now apply lookup_put_eq.
Qed.

Lemma WriteFile_again st path data mode st1 data' mode' :
  Fs.WriteFile st path data mode = (Ok tt, st1) ->
  exists st2, Fs.WriteFile st1 path data' mode' = (Ok tt, st2).
Proof.
  intros H. apply WriteFile_leaves in H as (k & [kind p u g] & Hf & Hl & Hk).
  simpl in Hk. subst kind. unfold Fs.WriteFile. rewrite Hf, Hl. eauto.
Qed.

(** ** The links in the data tarball *)

Lemma walk_names_app st fn rec path before rest tw tw2 :
  walk_names st fn rec path before tw = (None, tw2) ->
  walk_names st fn rec path (before ++ rest) tw = walk_names st fn rec path rest tw2.
Proof.
  revert tw. induction before as [|name before IH]; intros tw H.
  - injection H as ->. reflexivity.
  - cbn [app walk_names] in *. destruct (Fs.Lstat st _) as [fi|e].
    + destruct (rec _ fi tw) as [[[|e']|] t1].
      * destruct (Fs.IsDir fi); [now apply IH|discriminate].
      * discriminate.
      * now apply IH.
    + destruct (fn _ None (Some e) tw) as [[[|e']|] t1]; [now apply IH|discriminate|now apply IH].
Qed.

(** An error at a visited entry is the error of the walk. *)
Lemma visits_stop st fn depth root rinfo tw0 path info tw e tw' :
  visits st fn depth root rinfo tw0 path info tw ->
  fn path (Some info) None tw = (Some (Stop e), tw') ->
  walk depth st fn root rinfo tw0 = (Some (Stop e), tw').
Proof.
  induction 1 as [depth path info tw Hd
                 |depth dir dinfo tw tw1 before name after tw2 finfo path info tw'' Hd Hr Hf Hb Hl Hv IH];
    intros Hfn.
  - now rewrite walk_file.
  - cbn [walk]. rewrite Hd, Hr, Hf. cbn [negb].
    rewrite (walk_names_app _ _ _ _ _ _ _ _ Hb).
    now apply walk_names_stop with finfo, IH.
Qed.

Lemma grows_refl tw : grows tw tw.
Proof. exists []. now rewrite app_nil_r. Qed.

Lemma grows_trans a b c : grows a b -> grows b c -> grows a c.
Proof. intros [x ->] [y ->]. exists (x ++ y). now rewrite app_assoc. Qed.

Lemma grows_In a b x : grows a b -> In x a -> In x b.
Proof. intros [m ->] H. apply in_or_app. now left. Qed.

Lemma walkFn_grows st root ignored path info err tw :
  grows tw (snd (walkFn st root ignored path info err tw)).
Proof.
  unfold walkFn.
  destruct err; [apply grows_refl|]. destruct info as [info|]; [|apply grows_refl].
  destruct (existsb _ ignored); [destruct (Fs.IsDir info); apply grows_refl|].
  destruct (if Fs.IsSymlink info then _ else _); [|apply grows_refl].
  destruct (FileInfoHeader info a); [|apply grows_refl].
  destruct (Path.Rel root path); [|apply grows_refl].
  destruct (negb (Fs.IsRegular info)); [eexists; reflexivity|].
  destruct (Fs.ReadFile st path); eexists; reflexivity.
Qed.

Lemma walk_names_grows st fn rec path names tw :
  (forall p i e t, grows t (snd (fn p i e t))) ->
  (forall p i t, grows t (snd (rec p i t))) ->
  grows tw (snd (walk_names st fn rec path names tw)).
Proof.
  intros Hfn Hrec. revert tw. induction names as [|name rest IH]; intros tw; [apply grows_refl|].
  cbn [walk_names]. destruct (Fs.Lstat st _) as [fi|e].
  - specialize (Hrec (Path.Join [path; name]) fi tw).
    destruct (rec _ fi tw) as [[[|e']|] tw']; simpl in Hrec.
    + destruct (Fs.IsDir fi); [now apply grows_trans with tw'|exact Hrec].
    + exact Hrec.
    + now apply grows_trans with tw'.
  - specialize (Hfn (Path.Join [path; name]) None (Some e) tw).
    destruct (fn _ None (Some e) tw) as [[[|e']|] tw']; simpl in Hfn;
      [now apply grows_trans with tw'|exact Hfn|now apply grows_trans with tw'].
Qed.

Lemma walk_grows st fn :
  (forall p i e t, grows t (snd (fn p i e t))) ->
  forall depth path info tw, grows tw (snd (walk depth st fn path info tw)).
Proof.
  intros Hfn. induction depth as [|depth IH]; intros path info tw; [apply grows_refl|].
  cbn [walk]. destruct (negb (Fs.IsDir info)); [apply Hfn|].
  pose proof (Hfn path (Some info)
                (match Fs.ReadDir st path with Err e => Some e | Ok _ => None end) tw) as H1.
  destruct (fn path (Some info) _ tw) as [err1 tw1]. simpl in H1.
  destruct (Fs.ReadDir st path) as [names|e]; [|exact H1].
  destruct err1; [exact H1|].
  apply grows_trans with tw1; [exact H1|]. now apply walk_names_grows.
Qed.

(** What was written at a visited entry stays in the archive. *)
Lemma visits_keeps st fn depth root rinfo tw0 path info tw :
  (forall p i e t, grows t (snd (fn p i e t))) ->
  visits st fn depth root rinfo tw0 path info tw ->
  grows (snd (fn path (Some info) None tw)) (snd (walk depth st fn root rinfo tw0)).
Proof.
  intros Hfn.
  induction 1 as [depth path info tw Hd
                 |depth dir dinfo tw tw1 before name after tw2 finfo path info tw'' Hd Hr Hf Hb Hl Hv IH].
  - rewrite walk_file by exact Hd. apply grows_refl.
  - cbn [walk]. rewrite Hd, Hr, Hf. cbn [negb].
    rewrite (walk_names_app _ _ _ _ _ _ _ _ Hb).
    cbn [walk_names]. rewrite Hl.
    destruct (walk depth st fn (Path.Join [dir; name]) finfo tw2) as [[[|e']|] t1];
      simpl in IH.
    + destruct (Fs.IsDir finfo); [|exact IH].
      apply grows_trans with t1; [exact IH|].
      apply walk_names_grows; [exact Hfn|]. intros. now apply walk_grows.
    + exact IH.
    + apply grows_trans with t1; [exact IH|].
      apply walk_names_grows; [exact Hfn|]. intros. now apply walk_grows.
Qed.

(** [newDataTarball] once the target was created: the archive of what
    the walk wrote is in the target, and the error of the walk is the
    error of the function. *)
Lemma newDataTarball_run w root target ignored st st1 :
  Fs.WriteFile st target "" 438 = (Ok tt, st1) ->
  let out := Walk st1 root (walkFn st1 root ignored) [] in
  exists st2,
    newDataTarball w root target ignored st
    = (match fst out with Some e => Err e | None => Ok tt end, st2) /\
    Fs.ReadFile st2 target = Ok (targz w (snd out)).
Proof.
  intros H out.
  destruct (WriteFile_again _ _ _ _ _ (targz w (snd out)) 438 H) as [st2 H2].
  exists st2. split.
  - unfold newDataTarball, bind. rewrite H. unfold written. fold out. rewrite H2.
    destruct (fst out); reflexivity.
  - apply WriteFile_leaves in H2 as (k & n & Hf & Hl & Hk).
    unfold Fs.ReadFile, Fs.entry_at. now rewrite Hf, Hl, Hk.
Qed.

Lemma bind_Err {A B} (m : M A) (k : A -> M B) st e :
  fst (m st) = Err e -> fst (bind m k st) = Err e.
Proof. unfold bind. destruct (m st) as [[a|e'] st']; simpl; [discriminate|now intros [= ->]]. Qed.

Lemma bind_step {A B} (m : M A) (k : A -> M B) st a st' :
  m st = (Ok a, st') -> bind m k st = k a st'.
Proof. unfold bind. now intros ->. Qed.

Lemma deferred_fst {A} after (m : M A) st : fst (deferred after m st) = fst (m st).
Proof. unfold deferred. now destruct (m st). Qed.

(** An error of [newDataTarball] is the error of [Build]. *)
Lemma Build_data_tarball w b f pp st0 job lb sa st e :
  newBuildJob w f (match pp with [] => DefaultPlatforms | _ => pp end) (B_verbose b) st0
  = (Ok (job, lb), sa) ->
  (setup job ;;; scaffold w job ;;;
   (fun s => Fs.WriteFile s (Path.Join [ociDir job; "oci-layout"]) oci_layout 511)) sa
  = (Ok tt, st) ->
  fst (newDataTarball w (Root (function job))
         (Path.Join [buildDir job; "datalayer.tar.gz"]) defaultIgnored st) = Err e ->
  fst (Build w b f pp st0) = Err e.
Proof.
  intros H1 H2 H3.
  apply bind_Ok in H2 as (? & sb & Hs & H2). apply bind_Ok in H2 as (? & sc & Hc & H2).
  unfold Build. rewrite (bind_step _ _ _ _ _ H1). cbn [fst].
  rewrite (bind_step _ _ _ _ _ Hs), deferred_fst, (bind_step _ _ _ _ _ Hc).
  apply bind_Err. unfold containerize. rewrite (bind_step _ _ _ _ _ H2).
  apply bind_Err. unfold writeDataLayer. apply bind_Err. exact H3.
Qed.

(** C6: the symbolic links the walk of [newDataTarball] comes to
    in a build.  A link whose name is one of the ignored names is
    passed over: nothing is written for it and the walk goes on,
    whatever its target.  For any other link: a rooted target makes
    [newDataTarball] and the build fail with the error of the absolute
    link; a target that, taken from the directory of the link and made
    relative to the project root, begins with a parent element makes
    them fail with the error of the link that escapes the root; and
    otherwise the archive that [newDataTarball] leaves holds an entry
    of type symlink for it that carries the target as it was read. *)
Theorem symlink_policy w b f pp st0 job lb sa st st1 rinfo path info tw tgt :
  newBuildJob w f (match pp with [] => DefaultPlatforms | _ => pp end) (B_verbose b) st0
  = (Ok (job, lb), sa) ->
  (setup job ;;; scaffold w job ;;;
   (fun s => Fs.WriteFile s (Path.Join [ociDir job; "oci-layout"]) oci_layout 511)) sa
  = (Ok tt, st) ->
  Fs.WriteFile st (Path.Join [buildDir job; "datalayer.tar.gz"]) "" 438 = (Ok tt, st1) ->
  Fs.Lstat st1 (Root f) = Ok rinfo ->
  visits st1 (walkFn st1 (Root f) defaultIgnored) (S (length (Fs.files st1)))
         (Root f) rinfo [] path info tw ->
  Fs.IsSymlink info = true ->
  Fs.Readlink st1 path = Ok tgt ->
  let target := Path.Join [buildDir job; "datalayer.tar.gz"] in
  let tarball := newDataTarball w (Root f) target defaultIgnored st in
  let failed e := fst tarball = Err e /\ fst (Build w b f pp st0) = Err e in
  if existsb (String.eqb (Fs.fi_name info)) defaultIgnored then
    walkFn st1 (Root f) defaultIgnored path (Some info) None tw = (None, tw)
  else
    (Path.IsAbs tgt = true -> failed ErrAbsoluteLink) /\
    (Path.IsAbs tgt = false ->
     forall rel, Path.Rel (Root f) (Path.Join [Path.Dir path; tgt]) = Some rel ->
       (begins_with_parent rel = true -> failed ErrLinkEscapesRoot) /\
       (begins_with_parent rel = false ->
        forall relPath, Path.Rel (Root f) path = Some relPath ->
          exists header archive,
            Fs.ReadFile (snd tarball) target = Ok (targz w archive) /\
            In (header, "") archive /\
            Typeflag header = TypeSymlink /\
            Linkname header = tgt /\
            Name header = Path.Join ["/func"; relPath])).
Proof.
  intros Hjob Hpre Hcreate Hroot Hvisit Hlink Hread target tarball failed.
  assert (function job = f) as Hf.
  { unfold newBuildJob in Hjob. destruct (Fingerprint w st0 (Root f)); [|discriminate].
    destruct (builders w !! Runtime f); [|discriminate]. now injection Hjob as <- _ _. }
  pose proof (walkFn_link st1 (Root f) defaultIgnored path info tgt tw Hlink Hread) as Hfn.
  cbv zeta in Hfn.
  destruct (existsb (String.eqb (Fs.fi_name info)) defaultIgnored); [exact Hfn|].
  destruct (newDataTarball_run w (Root f) target defaultIgnored st st1 Hcreate)
    as (st2 & Hrun & Hfile).
  fold tarball in Hrun. unfold Walk in Hrun, Hfile. rewrite Hroot in Hrun, Hfile.
  assert (forall e,
            walkFn st1 (Root f) defaultIgnored path (Some info) None tw = (Some (Stop e), tw) ->
            failed e) as Hfail.
  { intros e He. apply (visits_stop _ _ _ _ _ _ _ _ _ _ _ Hvisit) in He.
    rewrite He in Hrun. cbn [fst] in Hrun.
    assert (fst tarball = Err e) as Ht by now rewrite Hrun.
    split; [exact Ht|].
    apply (Build_data_tarball w b f pp st0 job lb sa st e Hjob Hpre).
    rewrite Hf. exact Ht. }
  destruct Hfn as [Habs Hrel]. split.
  - intros Ha. apply Hfail. now apply Habs.
  - intros Ha rel Hr. destruct (Hrel Ha rel Hr) as [Hesc Hin]. split.
    + intros Hb. apply Hfail. now apply Hesc.
    + intros Hb relPath Hp. destruct (Hin Hb relPath Hp) as (header & Hv & Ht & Hl & Hn).
      pose proof (visits_keeps _ _ _ _ _ _ _ _ _ (walkFn_grows st1 (Root f) defaultIgnored) Hvisit)
        as Hk.
      rewrite Hv in Hk. cbn [snd] in Hk.
      exists header. eexists. split; [|split; [|auto]].
      * rewrite Hrun. cbn [snd]. exact Hfile.
      * destruct (walk _ st1 _ (Root f) rinfo []) as [[[|e]|] t]; cbn [snd] in *;
          (apply (grows_In _ _ _ Hk), in_or_app; right; now left).
Qed.

Lemma symlink_policy_witness :
  let target := Path.Join [buildDir Sample.job; "datalayer.tar.gz"] in
  let tarball := newDataTarball Sample.world "/p" target defaultIgnored Sample.layout in
  Fs.Readlink Sample.opened "/p/lnk" = Ok "f.go" /\
  exists header archive,
    Fs.ReadFile (snd tarball) target = Ok (targz Sample.world archive) /\
    In (header, "") archive /\
    Typeflag header = TypeSymlink /\
    Linkname header = "f.go" /\
    Name header = Path.Join ["/func"; "lnk"].
Proof.
  intros target tarball.
  assert (Fs.Readlink Sample.opened "/p/lnk" = Ok "f.go") as Hread by vm_refl.
  split; [exact Hread|].
  assert (newBuildJob Sample.world Sample.f [Sample.amd64] false Sample.machine
          = (Ok (Sample.job, goBuilder Sample.world), Sample.machine)) as H1 by reflexivity.
  assert ((setup Sample.job ;;; scaffold Sample.world Sample.job ;;;
           (fun s => Fs.WriteFile s (Path.Join [ociDir Sample.job; "oci-layout"]) oci_layout 511))
            Sample.machine = (Ok tt, Sample.layout)) as H2 by vm_refl.
  assert (Fs.WriteFile Sample.layout target "" 438 = (Ok tt, Sample.opened)) as H3 by vm_refl.
  assert (Fs.Lstat Sample.opened "/p" = Ok Sample.root_info) as H4 by vm_refl.
  assert (visits Sample.opened (walkFn Sample.opened "/p" defaultIgnored)
            (S (length (Fs.files Sample.opened))) "/p" Sample.root_info []
            "/p/lnk" Sample.lnk_info Sample.before_lnk) as H5.
  { apply (visits_below _ _ _ "/p" Sample.root_info []
             (snd (walkFn Sample.opened "/p" defaultIgnored "/p" (Some Sample.root_info) None []))
             [".func"; ".git"; "f.go"] "lnk" [] Sample.before_lnk Sample.lnk_info).
    - reflexivity.
    - vm_refl.
    - vm_compute. reflexivity.
    - vm_refl.
    - vm_refl.
    - apply (visits_here Sample.opened _ _ "/p/lnk" Sample.lnk_info Sample.before_lnk).
      reflexivity. }
  pose proof (symlink_policy Sample.world (NewBuilder "host" false) Sample.f [Sample.amd64]
                Sample.machine Sample.job (goBuilder Sample.world) Sample.machine
                Sample.layout Sample.opened Sample.root_info "/p/lnk" Sample.lnk_info
                Sample.before_lnk "f.go" H1 H2 H3 H4 H5 eq_refl Hread) as H.
  cbv zeta in H.
  change (existsb (String.eqb (Fs.fi_name Sample.lnk_info)) defaultIgnored) with false in H.
  destruct H as [_ H].
  destruct (H eq_refl "f.go" eq_refl) as [_ Hin].
  exact (Hin eq_refl "lnk" eq_refl).
Defined.

(** A link with an ignored name is not validated: the walk comes to
    the link [.gitignore] of the project, its target is rooted and
    leaves the project, and the build succeeds. *)
Lemma symlink_policy_counterexample :
  let target := Path.Join [buildDir Sample.job; "datalayer.tar.gz"] in
  let st1 := Sample.ignored_opened in
  (setup Sample.job ;;; scaffold Sample.world Sample.job ;;;
   (fun s => Fs.WriteFile s (Path.Join [ociDir Sample.job; "oci-layout"]) oci_layout 511) ;;;
   (fun s => Fs.WriteFile s target "" 438)) Sample.ignored_link = (Ok tt, st1) /\
  Fs.Lstat st1 "/p" = Ok Sample.root_info /\
  visits st1 (walkFn st1 "/p" defaultIgnored) (S (length (Fs.files st1)))
         "/p" Sample.root_info [] "/p/.gitignore" Sample.ignored_info Sample.before_ignored /\
  Fs.IsSymlink Sample.ignored_info = true /\
  Fs.Readlink st1 "/p/.gitignore" = Ok "/etc/passwd" /\
  Path.IsAbs "/etc/passwd" = true /\
  fst (Build Sample.world (NewBuilder "host" false) Sample.f [Sample.amd64]
         Sample.ignored_link) = Ok tt.
Proof.
  intros target st1.
  split; [vm_refl|]. split; [vm_refl|]. split; [|split; [reflexivity|]].
  - apply (visits_below _ _ _ "/p" Sample.root_info []
             (snd (walkFn st1 "/p" defaultIgnored "/p" (Some Sample.root_info) None []))
             [".func"; ".git"] ".gitignore" ["f.go"; "lnk"]
             Sample.before_ignored Sample.ignored_info).
    + reflexivity.
    + vm_refl.
    + vm_compute. reflexivity.
    + vm_refl.
    + vm_refl.
    + apply (visits_here st1 _ _ "/p/.gitignore" Sample.ignored_info Sample.before_ignored).
      reflexivity.
  - split; [vm_refl|]. split; [reflexivity|]. vm_compute. reflexivity.
Qed.

(** ** Builds that leave something behind *)

(** C4: [cleanup] keeps a build directory to which nothing refers.
    On a project that holds the directory [by-hash/old] of an older
    build, a build of the fingerprint [abc] succeeds; afterwards [last]
    leads to [by-hash/abc], the one link in [by-pid] is that of the
    process and leads there too, neither leads to [by-hash/old], and
    [by-hash/old] is still there: the second loop of the deferred
    [cleanup] asks whether the job is active, which it is by the link
    of the process itself, and not whether the entry is. *)
Theorem cleanup_keeps_stale_build :
  let st := Sample.rebuilt in
  let old := Path.Join [buildsDir Sample.job; "old"] in
  Build Sample.world (NewBuilder "host" false) Sample.f [Sample.amd64] Sample.leftover
  = (Ok tt, st) /\
  isLinkTo st (lastLink Sample.job) (buildDir Sample.job) = true /\
  isLinkTo st (lastLink Sample.job) old = false /\
  entries st (pidsDir Sample.job) = ["77"] /\
  isLinkTo st (Path.Join [pidsDir Sample.job; "77"]) old = false /\
  entries st (buildsDir Sample.job) = ["abc"; "old"] /\
  entries st old = ["oci"].
Proof.
  cbv zeta. repeat split; vm_refl.
Qed.

(** C1: a blob whose name is not the digest of its bytes.  The
    transfer of the base layer [hello] breaks off after three bytes:
    the build fails and [ensureCached] leaves the three bytes in the
    cache under the digest of the layer.  The next build, by another
    process and with the registry serving the layer whole, finds that
    file, takes it for the layer and links it into [blobs/sha256]; it
    succeeds, and the blob named by the digest of [hello] holds [hel]. *)
Theorem cached_layer_unverified :
  let b := NewBuilder "host" false in
  let name := Hex Sample.hello in
  Build Sample.interrupted b Sample.based [Sample.amd64] Sample.machine
  = (Err (ErrorNew "unexpected EOF"), Sample.cut) /\
  Fs.ReadFile Sample.cut (Path.Join [cacheDir Sample.job; name]) = Ok "hel" /\
  Build Sample.serving b Sample.based [Sample.amd64] Sample.later
  = (Ok tt, Sample.linked_cut) /\
  Fs.ReadFile Sample.linked_cut (Path.Join [blobsDir Sample.job; name]) = Ok "hel" /\
  Sha256.Hex "hello" = name /\
  Sha256.Hex "hel" <> name.
Proof.
  cbv zeta. split; [vm_refl|]. split; [vm_refl|]. split; [vm_refl|]. split; [vm_refl|].
  split; [vm_refl|].
  intros H.
  assert (String.eqb (Sha256.Hex "hel") (Hex Sample.hello) = false) as E by vm_refl.
  rewrite H, String.eqb_refl in E. discriminate E.
Qed.

(** ** The build in progress *)

(** [processExists] by its three steps. *)
Lemma processExists_steps st d :
  processExists st d = true <->
  exists p, Str.Atoi d = Some p /\ Fs.FindProcess st p = true /\
            (Fs.windows st = true \/ Fs.signal0 st p = true).
Proof.
  unfold processExists. destruct (Str.Atoi d) as [p|].
  - destruct (Fs.FindProcess st p) eqn:Ef; simpl.
    + destruct (Fs.windows st) eqn:Ew.
      * split; [intros _; exists p; auto|auto].
      * split.
        -- intros H. exists p. auto.
        -- intros (q & [= <-] & _ & [H|H]); [discriminate|exact H].
    + split; [discriminate|]. intros (q & [= <-] & H & _). congruence.
  - split; [discriminate|]. intros (q & H & _). discriminate.
Qed.

Lemma isActive_links job st :
  isActive job st = true <->
  exists d k,
    In d (entries st (pidsDir job)) /\
    processExists st d = true /\
    Fs.EvalSymlinks st (Path.Join [pidsDir job; d]) = Ok k /\
    Fs.EvalSymlinks st (buildDir job) = Ok k.
Proof.
  split.
  - unfold isActive. rewrite existsb_exists. intros (d & Hin & H).
    apply andb_true_iff in H as [Hp Hl]. unfold isLinkTo in Hl.
    destruct (Fs.EvalSymlinks st (Path.Join [pidsDir job; d])) as [k|] eqn:E1;
      [|discriminate].
    destruct (Fs.EvalSymlinks st (buildDir job)) as [k'|] eqn:E2; [|discriminate].
    apply keq_spec in Hl. subst k'. exists d, k. auto.
  - intros (d & k & Hin & Hp & H1 & H2).
    unfold isActive. rewrite existsb_exists. exists d. split; [exact Hin|].
    rewrite Hp. unfold isLinkTo. rewrite H1, H2. simpl. now apply keq_spec.
Qed.

Lemma setup_idle job st :
  isActive job st = false -> in_progress (fst (setup job st)) = false.
Proof.
  intros E. unfold setup. rewrite E.
  apply bind_in_progress.
  { destruct (negb _); [now rewrite RemoveAll_Ok|reflexivity]. }
  intros _ st1. apply bind_in_progress; [apply mkdir_all_not_in_progress|].
  intros _ st2. apply bind_in_progress.
  { destruct (IsNotExist _); [apply mkdir_all_not_in_progress|reflexivity]. }
  intros _ st3. apply bind_in_progress; [apply Symlink_not_in_progress|].
  intros _ st4. apply bind_in_progress; [apply mkdir_all_not_in_progress|].
  intros _ st5. apply bind_in_progress; [apply mkdir_all_not_in_progress|].
  intros _ st6. reflexivity.
Qed.

Lemma Build_active w b f pp st job lb :
  fst (newBuildJob w f (match pp with [] => DefaultPlatforms | _ => pp end)
                   (B_verbose b) st) = Ok (job, lb) ->
  Build w b f pp st = bind (setup job) (fun _ =>
    deferred (cleanup job)
      (scaffold w job ;;;
       containerize w (match impl b with Some i => i | None => lb end) job ;;;
       updateLastLink job)) st.
Proof.
  intros Hjob. unfold Build.
  pose proof (newBuildJob_state w f (match pp with [] => DefaultPlatforms | _ => pp end)
                (B_verbose b) st) as Hst.
  destruct (newBuildJob w f _ (B_verbose b) st) as [r st0] eqn:E.
  simpl in Hjob, Hst. subst r st0.
  unfold bind at 1. rewrite E. reflexivity.
Qed.

(** C5: when [Build] refuses a build in progress.  A live attempt for
    the fingerprint of the job is a name in [by-pid] that is a number,
    for which [os.FindProcess] succeeds and which, except on Windows,
    takes signal 0, and that as a link resolves to where the build
    directory resolves; it is what [isActive] looks for.  When there is
    one, [Build] returns the error of the build in progress and has
    changed nothing: [setup] has removed and made nothing.  When there
    is none, [setup] does not fail with that error.  On Windows the
    signal is not tried, yet the process must be one that
    [os.FindProcess] can open: a number alone does not make a name
    live. *)
Theorem Build_refuses_live_attempt w b f pp st job lb :
  fst (newBuildJob w f (match pp with [] => DefaultPlatforms | _ => pp end)
                   (B_verbose b) st) = Ok (job, lb) ->
  let live_attempt :=
    exists d p k,
      In d (entries st (pidsDir job)) /\
      Str.Atoi d = Some p /\
      Fs.FindProcess st p = true /\
      (Fs.windows st = true \/ Fs.signal0 st p = true) /\
      Fs.EvalSymlinks st (Path.Join [pidsDir job; d]) = Ok k /\
      Fs.EvalSymlinks st (buildDir job) = Ok k in
  (isActive job st = true <-> live_attempt) /\
  (live_attempt ->
   Build w b f pp st = (Err (ErrBuildInProgress (buildDir job)), st)) /\
  (~ live_attempt -> in_progress (fst (setup job st)) = false).
Proof.
  intros Hjob live_attempt.
  assert (isActive job st = true <-> live_attempt) as Hiff.
  { rewrite isActive_links. subst live_attempt. split.
    - intros (d & k & Hin & Hp & H1 & H2).
      apply processExists_steps in Hp as (p & Hp & Hf & Hs).
      exists d, p, k. auto 10.
    - intros (d & p & k & Hin & Hp & Hf & Hs & H1 & H2).
      exists d, k. split; [exact Hin|]. split; [|auto].
      apply processExists_steps. eauto. }
  split; [exact Hiff|]. split.
  - intros H. apply Hiff in H. rewrite (Build_active _ _ _ _ _ _ _ Hjob).
    unfold bind, setup. now rewrite H.
  - intros H. apply setup_idle. destruct (isActive job st); [|reflexivity].
    exfalso. apply H, Hiff. reflexivity.
Qed.

Lemma Build_refuses_live_attempt_witness :
  let b := NewBuilder "host" false in
  Str.Atoi "77" = Some 77 /\
  Fs.EvalSymlinks Sample.scaffolded (Path.Join [pidsDir Sample.job; "77"])
  = Fs.EvalSymlinks Sample.scaffolded (buildDir Sample.job) /\
  Build Sample.world b Sample.f [Sample.amd64] Sample.scaffolded
  = (Err (ErrBuildInProgress (buildDir Sample.job)), Sample.scaffolded).
Proof.
  intros b.
  assert (fst (newBuildJob Sample.world Sample.f [Sample.amd64] (B_verbose b) Sample.scaffolded)
          = Ok (Sample.job, goBuilder Sample.world)) as H1 by reflexivity.
  assert (Str.Atoi "77" = Some 77) as H2 by vm_refl.
  assert (Fs.EvalSymlinks Sample.scaffolded (Path.Join [pidsDir Sample.job; "77"])
          = Ok ["p"; ".func"; "builds"; "by-hash"; "abc"]) as H3 by vm_refl.
  assert (Fs.EvalSymlinks Sample.scaffolded (buildDir Sample.job)
          = Ok ["p"; ".func"; "builds"; "by-hash"; "abc"]) as H4 by vm_refl.
  split; [exact H2|]. split; [now rewrite H3, H4|].
  apply (Build_refuses_live_attempt Sample.world b Sample.f [Sample.amd64] Sample.scaffolded
           Sample.job (goBuilder Sample.world) H1).
  exists "77", 77, ["p"; ".func"; "builds"; "by-hash"; "abc"].
  split; [vm_compute; auto|]. split; [exact H2|]. split; [reflexivity|].
  split; [right; reflexivity|]. split; [exact H3|exact H4].
Defined.

(** On Windows a number is not enough: the link of process 99, which
    is gone, leads to the build directory of the job, and the build is
    not refused. *)
Lemma Build_refuses_live_attempt_counterexample :
  let st := Sample.abandoned in
  Fs.windows st = true /\
  In "99" (entries st (pidsDir Sample.job)) /\
  Str.Atoi "99" = Some 99 /\
  isLinkTo st (Path.Join [pidsDir Sample.job; "99"]) (buildDir Sample.job) = true /\
  fst (newBuildJob Sample.world Sample.f [Sample.amd64] false st)
  = Ok (Sample.job, goBuilder Sample.world) /\
  fst (Build Sample.world (NewBuilder "host" false) Sample.f [Sample.amd64] st) = Ok tt.
Proof.
  cbv zeta. split; [reflexivity|]. split; [vm_compute; auto|]. split; [vm_refl|].
  split; [vm_refl|]. split; [reflexivity|]. vm_refl.
Qed.

(** ** The next build of the same process *)

(** The paths of a job and what [setup] and [cleanup] look at depend
    on the root of the project and the hash only. *)
Lemma same_paths job job' st :
  Root (function job') = Root (function job) ->
  hash job' = hash job ->
  laid_out job' st = laid_out job st /\
  own_link job' st = own_link job st /\
  isActive job' st = isActive job st /\
  buildDir job' = buildDir job.
Proof.
  intros HR Hh. unfold laid_out, own_link, isActive, pidsDir, buildDir.
  rewrite HR, Hh. auto.
Qed.

Lemma guarded_ext job s s' :
  guarded job s ->
  ext (Fs.files s) (Fs.files s') ->
  same_process s s' ->
  guarded job s'.
Proof.
  intros (Hs & Hl & Ho) He (Hself & _).
  pose proof (laid_out_parts _ _ Hl) as (HR & Hh & Hp & Hb & Hes).
  split; [now rewrite Hself|]. split.
  - unfold laid_out. rewrite HR, Hh.
    rewrite (real_dirs_ext _ _ _ _ He Hp), (real_dirs_ext _ _ _ _ He Hb). reflexivity.
  - unfold own_link in *. rewrite Hself.
    destruct (Fs.lookup (Fs.files s) _) as [n|] eqn:E; [|discriminate].
    now rewrite (He _ _ E).
Qed.

Lemma real_builds job st :
  laid_out job st = true ->
  real_dirs (Fs.files st) []
    (Path.elements (Root (function job)) ++ [RunDataDir; "builds"; "by-hash"]) = true.
Proof.
  intros Hl. apply laid_out_parts in Hl as (HR & Hh & Hp & Hb & Hes).
  change [RunDataDir; "builds"; "by-hash"; hash job]
    with ([RunDataDir; "builds"; "by-hash"] ++ [hash job]) in Hb.
  rewrite app_assoc, real_dirs_app in Hb. now apply andb_true_iff in Hb as [Hb _].
Qed.

(** [os.RemoveAll] of a build directory. *)
Lemma RemoveAll_build job st h :
  laid_out job st = true ->
  Path.plain h = true ->
  Fs.RemoveAll st (Path.Join [Root (function job); RunDataDir; "builds"; "by-hash"; h])
  = (Ok tt,
     Fs.with_files st
       (Fs.keep (Fs.outside (Path.elements (Root (function job))
                             ++ [RunDataDir; "builds"; "by-hash"; h]))
                (Fs.files st))).
Proof.
  intros H Hh. unfold Fs.RemoveAll.
  pose proof (real_builds _ _ H) as Hb.
  apply laid_out_parts in H as (HR & _ & _ & _ & Hes).
  change [Root (function job); RunDataDir; "builds"; "by-hash"; h]
    with (Root (function job) :: [RunDataDir; "builds"; "by-hash"] ++ [h]).
  rewrite locate_Join; [|exact HR|now repeat constructor|exact Hh].
  rewrite resolve_real_root;
    [|apply Forall_app; split; [exact Hes|now repeat constructor]|exact Hb].
  rewrite (real_dirs_directory _ _ Hb). now rewrite <- app_assoc.
Qed.

Lemma guarded_RemoveAll_build job st h :
  guarded job st ->
  Path.plain h = true ->
  h <> hash job ->
  guarded job
    (snd (Fs.RemoveAll st (Path.Join [Root (function job); RunDataDir; "builds"; "by-hash"; h]))).
Proof.
  intros (Hs & Hl & Ho) Hh Hne. rewrite RemoveAll_build by assumption. cbn [snd].
  pose proof (laid_out_parts _ _ Hl) as (HR & Hh' & Hp & Hb & Hes).
  split; [exact Hs|]. split.
  - unfold laid_out. cbn [Fs.files Fs.with_files]. rewrite HR, Hh'. cbn [andb].
    rewrite !real_dirs_keep; [reflexivity| |exact Hb| |exact Hp].
    + intros r E. cbn [app] in E. rewrite <- app_assoc in E.
      apply app_inv_head in E. injection E as E _. congruence.
    + intros r E. cbn [app] in E. rewrite <- app_assoc in E.
      apply app_inv_head in E. discriminate E.
  - unfold own_link in *. cbn [Fs.files Fs.with_files Fs.self].
    rewrite lookup_keep; [exact Ho|].
    apply outside_true. intros r E. rewrite <- app_assoc in E.
    apply app_inv_head in E. discriminate E.
Qed.

Lemma Stat_pidsDir job st :
  laid_out job st = true -> IsNotExist (Fs.Stat st (pidsDir job)) = false.
Proof.
  intros H. unfold Fs.Stat.
  pose proof (resolve_pidsDir Fs.MAXSYMLINKS job st H) as Hr.
  apply laid_out_parts in H as (HR & Hh & Hp & Hb & Hes).
  unfold pidsDir in *. rewrite follow_Join_rooted; [|exact HR|now repeat constructor].
  rewrite resolve_Join in Hr; [|exact HR|now repeat constructor]. rewrite Hr.
  apply real_dirs_directory in Hp. unfold Fs.directory in Hp. unfold Fs.entry_at.
  destruct (Fs.lookup _ _) as [n|]; [reflexivity|discriminate].
Qed.

(** [os.Symlink] at the link of the process, when it is there. *)
Lemma Symlink_own job st target :
  guarded job st ->
  Fs.Symlink st target (pidLink job st)
  = (Err (LinkError "symlink" target (pidLink job st) EEXIST), st).
Proof.
  intros (Hs & Hl & Ho). unfold Fs.Symlink.
  pose proof (laid_out_parts _ _ Hl) as (HR & Hh & Hp & Hb & Hes).
  assert (Path.plain (Str.Itoa (Fs.self st)) = true) as Hpid by (apply Itoa_plain; lia).
  change (pidLink job st)
    with (Path.Join (Root (function job)
                     :: [RunDataDir; "builds"; "by-pid"] ++ [Str.Itoa (Fs.self st)])).
  rewrite locate_Join; [|exact HR|now repeat constructor|exact Hpid].
  rewrite resolve_real_root;
    [|apply Forall_app; split; [exact Hes|now repeat constructor]|exact Hp].
  rewrite (real_dirs_directory _ _ Hp).
  unfold own_link in Ho. rewrite <- app_assoc. cbn [app].
  destruct (Fs.lookup (Fs.files st) _); [reflexivity|discriminate].
Qed.

Lemma guarded_cleanup job st : guarded job st -> guarded job (cleanup job st).
Proof.
  intros Hg.
  assert (guarded job (cleanup_pids job (entries st (pidsDir job)) st)) as Hg1.
  { apply cleanup_pids_guarded; [apply entries_plain|exact Hg]. }
  destruct Hg1 as (Hs1 & Hl1 & Ho1).
  pose proof (own_link_is_active_parts _ _ Hs1 Hl1 Ho1) as Ha.
  unfold cleanup. rewrite cleanup_builds_active by exact Ha. now repeat split.
Qed.

(** [setup] for another fingerprint of the project while the link of
    the process is in place. *)
Lemma setup_other job job' st :
  guarded job st ->
  Root (function job') = Root (function job) ->
  Path.plain (hash job') = true ->
  hash job' <> hash job ->
  isActive job' st = false ->
  let st1 := if negb (IsNotExist (Fs.Stat st (buildDir job')))
             then snd (Fs.RemoveAll st (buildDir job')) else st in
  setup job' st
  = match Fs.MkdirAll st1 (buildDir job') 508 with
    | (Err e, st2) => (Err e, st2)
    | (Ok _, st2) =>
        (Err (LinkError "symlink" (Path.Join [".."; "by-hash"; hash job'])
                        (pidLink job st) EEXIST), st2)
    end /\
  guarded job (snd (setup job' st)).
Proof.
  intros Hg HR Hp Hne Hact st1.
  assert (guarded job st1) as Hg1.
  { subst st1. destruct (negb _); [|exact Hg].
    unfold buildDir. rewrite HR. now apply guarded_RemoveAll_build. }
  assert (setup job' st
          = match Fs.MkdirAll st1 (buildDir job') 508 with
            | (Err e, st2) => (Err e, st2)
            | (Ok _, st2) =>
                (Err (LinkError "symlink" (Path.Join [".."; "by-hash"; hash job'])
                                (pidLink job st) EEXIST), st2)
            end /\
          guarded job (snd (Fs.MkdirAll st1 (buildDir job') 508))) as [E Hg2].
  { unfold setup. rewrite Hact. unfold bind at 1.
    assert ((if negb (IsNotExist (Fs.Stat st (buildDir job')))
             then Fs.RemoveAll st (buildDir job') else (Ok tt, st)) = (Ok tt, st1)) as ->.
    { subst st1. destruct (negb _); [|reflexivity].
      pose proof (RemoveAll_Ok st (buildDir job')) as H.
      destruct (Fs.RemoveAll st (buildDir job')) as [r s]. simpl in *. now subst r. }
    unfold bind at 1.
    destruct (Fs.MkdirAll st1 (buildDir job') 508) as [[[]|e] st2] eqn:Em.
    2:{ split; [reflexivity|]. apply MkdirAll_ext in Em as [He Hsame].
        now apply (guarded_ext job st1). }
    pose proof (MkdirAll_ext _ _ _ _ _ Em) as [He Hsame].
    assert (guarded job st2) as Hg2 by now apply (guarded_ext job st1).
    split; [|exact Hg2].
    unfold bind at 1.
    assert (pidsDir job' = pidsDir job) as -> by (unfold pidsDir; now rewrite HR).
    destruct Hg2 as (Hs2 & Hl2 & Ho2).
    rewrite (Stat_pidsDir _ _ Hl2).
    unfold bind at 1.
    assert (pidLink job' st2 = pidLink job st2) as -> by (unfold pidLink; now rewrite HR).
    rewrite Symlink_own by (now repeat split).
    assert (Fs.self st2 = Fs.self st) as Hself.
    { destruct Hsame as (-> & _). subst st1. destruct (negb _); [|reflexivity].
      now destruct (RemoveAll_same st (buildDir job')) as (-> & _). }
    unfold pidLink. now rewrite Hself. }
  split; [exact E|]. rewrite E.
  destruct (Fs.MkdirAll st1 (buildDir job') 508) as [[[]|e] st2]; exact Hg2.
Qed.

Lemma newBuildJob_function w f pp verbose st job lb :
  fst (newBuildJob w f pp verbose st) = Ok (job, lb) -> function job = f.
Proof.
  unfold newBuildJob. destruct (Fingerprint w st (Root f)); [|discriminate].
  destruct (builders w !! Runtime f); [|discriminate]. simpl. now intros [= <- _].
Qed.

Lemma Build_setup w b f pp st job lb e st' :
  fst (newBuildJob w f (match pp with [] => DefaultPlatforms | _ => pp end)
                   (B_verbose b) st) = Ok (job, lb) ->
  setup job st = (Err e, st') ->
  Build w b f pp st = (Err e, st').
Proof.
  intros Hjob Hs. unfold Build.
  pose proof (newBuildJob_state w f (match pp with [] => DefaultPlatforms | _ => pp end)
                (B_verbose b) st) as Hst.
  destruct (newBuildJob w f _ (B_verbose b) st) as [r st0] eqn:E.
  simpl in Hjob, Hst. subst r st0.
  unfold bind at 1. rewrite E. cbn [fst snd].
  unfold bind at 1. now rewrite Hs.
Qed.

Lemma Build_completes w b f pp st0 job lb st :
  fst (newBuildJob w f (match pp with [] => DefaultPlatforms | _ => pp end)
                   (B_verbose b) st0) = Ok (job, lb) ->
  (setup job ;;; scaffold w job ;;;
   containerize w (match impl b with Some i => i | None => lb end) job ;;;
   updateLastLink job) st0 = (Ok tt, st) ->
  Build w b f pp st0 = (Ok tt, cleanup job st).
Proof.
  intros Hjob Hrun. unfold Build.
  pose proof (newBuildJob_state w f (match pp with [] => DefaultPlatforms | _ => pp end)
                (B_verbose b) st0) as Hst.
  destruct (newBuildJob w f _ (B_verbose b) st0) as [r s] eqn:E.
  simpl in Hjob, Hst. subst r s.
  unfold bind at 1. rewrite E. cbn [fst snd].
  unfold bind at 1 in Hrun. unfold bind at 1.
  destruct (setup job st0) as [[[]|e] s1]; [|discriminate].
  unfold deferred. now rewrite Hrun.
Qed.

Lemma removal_Ok st path (c : bool) :
  (if c then Fs.RemoveAll st path else (Ok tt, st))
  = (Ok tt, if c then snd (Fs.RemoveAll st path) else st).
Proof.
  destruct c; [|reflexivity]. pose proof (RemoveAll_Ok st path) as H.
  destruct (Fs.RemoveAll st path) as [r s]. simpl in *. now subst r.
Qed.

(** C10: the link of the process outlives its build.  A build whose
    steps have succeeded, and at whose end the layout of the job is in
    place with the link of the process as [setup] left it, returns
    after the deferred [cleanup] with that link still there.  And in
    every state in which it is there, a [Build] of the same project by
    this process fails and leaves it there, so that the next one fails
    too: when the fingerprint is that of the job, with the error of
    the build in progress; when it is another one, with the same error
    if a live process holds a link to the directory of that
    fingerprint, and else with the error of [os.RemoveAll] or
    [os.MkdirAll] if [setup] cannot remove and make that directory
    again, and once it has, with the error of [os.Symlink] at the link
    of the process, which exists. *)
Theorem own_link_blocks_rebuild w0 b0 f0 pp0 st0 job lb0 st :
  fst (newBuildJob w0 f0 (match pp0 with [] => DefaultPlatforms | _ => pp0 end)
                   (B_verbose b0) st0) = Ok (job, lb0) ->
  (setup job ;;; scaffold w0 job ;;;
   containerize w0 (match impl b0 with Some i => i | None => lb0 end) job ;;;
   updateLastLink job) st0 = (Ok tt, st) ->
  guarded job st ->
  Build w0 b0 f0 pp0 st0 = (Ok tt, cleanup job st) /\
  guarded job (cleanup job st) /\
  forall st1 w b f pp job' lb,
    guarded job st1 ->
    Root f = Root (function job) ->
    fst (newBuildJob w f (match pp with [] => DefaultPlatforms | _ => pp end)
                     (B_verbose b) st1) = Ok (job', lb) ->
    Path.plain (hash job') = true ->
    (exists e, fst (Build w b f pp st1) = Err e) /\
    guarded job (snd (Build w b f pp st1)) /\
    (hash job' = hash job ->
     Build w b f pp st1 = (Err (ErrBuildInProgress (buildDir job)), st1)) /\
    (hash job' <> hash job ->
     if isActive job' st1
     then Build w b f pp st1 = (Err (ErrBuildInProgress (buildDir job')), st1)
     else
       match (if negb (IsNotExist (Fs.Stat st1 (buildDir job')))
              then Fs.RemoveAll st1 (buildDir job') else (Ok tt, st1)) with
       | (Err e, _) => fst (Build w b f pp st1) = Err e
       | (Ok _, st2) =>
           match Fs.MkdirAll st2 (buildDir job') 508 with
           | (Err e, _) => fst (Build w b f pp st1) = Err e
           | (Ok _, _) =>
               fst (Build w b f pp st1)
               = Err (LinkError "symlink" (Path.Join [".."; "by-hash"; hash job'])
                                (pidLink job st1) EEXIST)
           end
       end).
Proof.
  intros Hjob0 Hrun Hg.
  split; [now apply (Build_completes _ _ _ _ _ _ lb0)|].
  split; [now apply guarded_cleanup|].
  intros st1 w b f pp job' lb Hg1 HR Hjob Hp.
  pose proof (newBuildJob_function _ _ _ _ _ _ _ Hjob) as Hf.
  assert (Root (function job') = Root (function job)) as HR' by now rewrite Hf.
  assert (isActive job' st1 = true ->
          Build w b f pp st1 = (Err (ErrBuildInProgress (buildDir job')), st1)) as Hbusy.
  { intros Ha. apply (Build_setup _ _ _ _ _ _ _ _ _ Hjob). unfold setup. now rewrite Ha. }
  destruct (String.eqb (hash job') (hash job)) eqn:Eh.
  - apply String.eqb_eq in Eh.
    destruct (same_paths job job' st1 HR' Eh) as (_ & _ & Ea & Eb).
    destruct Hg1 as (Hs1 & Hl1 & Ho1).
    pose proof (own_link_is_active_parts _ _ Hs1 Hl1 Ho1) as Ha.
    rewrite <- Ea in Ha. specialize (Hbusy Ha). rewrite Eb in Hbusy.
    rewrite Hbusy. cbn [fst snd].
    split; [eauto|]. split; [now repeat split|]. split; [auto|]. intros Hne. contradiction.
  - apply String.eqb_neq in Eh.
    destruct (isActive job' st1) eqn:Ea.
    + rewrite (Hbusy eq_refl). cbn [fst snd].
      split; [eauto|]. split; [exact Hg1|]. split; [intros; contradiction|]. intros _.
      reflexivity.
    + destruct (setup_other job job' st1 Hg1 HR' Hp Eh Ea) as [Es Hg2]. cbv zeta in Es.
      destruct (Fs.MkdirAll _ (buildDir job') 508) as [[[]|e] st3] eqn:Em.
      * rewrite (Build_setup _ _ _ _ _ _ _ _ _ Hjob Es). rewrite Es in Hg2. cbn [fst snd] in *.
        split; [eauto|]. split; [exact Hg2|]. split; [intros; contradiction|]. intros _.
        rewrite removal_Ok, Em. reflexivity.
      * rewrite (Build_setup _ _ _ _ _ _ _ _ _ Hjob Es). rewrite Es in Hg2. cbn [fst snd] in *.
        split; [eauto|]. split; [exact Hg2|]. split; [intros; contradiction|]. intros _.
        rewrite removal_Ok, Em. reflexivity.
Qed.

Lemma own_link_blocks_rebuild_witness :
  let b := NewBuilder "host" false in
  Build Sample.world b Sample.f [Sample.amd64] Sample.machine = (Ok tt, Sample.built) /\
  own_link Sample.job Sample.built = true /\
  Build Sample.world b Sample.f [Sample.amd64] Sample.built
  = (Err (ErrBuildInProgress (buildDir Sample.job)), Sample.built) /\
  fst (Build Sample.changed b Sample.f [Sample.amd64] Sample.built)
  = Err (LinkError "symlink" "../by-hash/new" "/p/.func/builds/by-pid/77" EEXIST).
Proof.
  intros b.
  assert (fst (newBuildJob Sample.world Sample.f [Sample.amd64] (B_verbose b) Sample.machine)
          = Ok (Sample.job, goBuilder Sample.world)) as H1 by reflexivity.
  assert ((setup Sample.job ;;; scaffold Sample.world Sample.job ;;;
           containerize Sample.world (goBuilder Sample.world) Sample.job ;;;
           updateLastLink Sample.job) Sample.machine = (Ok tt, Sample.linked)) as H2 by vm_refl.
  assert (guarded Sample.job Sample.linked) as H3.
  { split; [simpl; lia|]. split; vm_refl. }
  assert (cleanup Sample.job Sample.linked = Sample.built) as Hc by vm_refl.
  destruct (own_link_blocks_rebuild Sample.world b Sample.f [Sample.amd64] Sample.machine
              Sample.job (goBuilder Sample.world) Sample.linked H1 H2 H3)
    as (Hb & Hg & Hnext).
  rewrite Hc in Hb, Hg. split; [exact Hb|]. split; [apply Hg|].
  split.
  - assert (fst (newBuildJob Sample.world Sample.f [Sample.amd64] (B_verbose b) Sample.built)
            = Ok (Sample.job, goBuilder Sample.world)) as Hj by reflexivity.
    destruct (Hnext Sample.built Sample.world b Sample.f [Sample.amd64] Sample.job
                (goBuilder Sample.world) Hg eq_refl Hj eq_refl) as (_ & _ & Hsame & _).
    exact (Hsame eq_refl).
  - pose (job' := {| start := Now Sample.world; hash := "new"; function := Sample.f;
                     platforms := toPlatforms [Sample.amd64]; verbose := false |}).
    assert (fst (newBuildJob Sample.changed Sample.f [Sample.amd64] (B_verbose b) Sample.built)
            = Ok (job', goBuilder Sample.changed)) as Hj by reflexivity.
    destruct (Hnext Sample.built Sample.changed b Sample.f [Sample.amd64] job'
                (goBuilder Sample.changed) Hg eq_refl Hj eq_refl) as (_ & _ & _ & Hother).
    assert ("new" <> hash Sample.job) as Hne by discriminate.
    specialize (Hother Hne).
    assert (isActive job' Sample.built = false) as Ea by vm_refl.
    rewrite Ea, removal_Ok in Hother.
    assert (exists s,
              Fs.MkdirAll
                (if negb (IsNotExist (Fs.Stat Sample.built (buildDir job')))
                 then snd (Fs.RemoveAll Sample.built (buildDir job')) else Sample.built)
                (buildDir job') 508 = (Ok tt, s)) as [s Em].
    { eexists. vm_compute. reflexivity. }
    rewrite Em in Hother. exact Hother.
Defined.

(** A changed fingerprint does not always end in the error of
    [os.Symlink]: while process 99, which is alive, builds the
    fingerprint [new], process 77 completes a build of [abc]; its next
    build, for the fingerprint [new], is refused as a build in
    progress. *)
Lemma own_link_blocks_rebuild_counterexample :
  let b := NewBuilder "host" false in
  Build Sample.world b Sample.f [Sample.amd64] Sample.shared = (Ok tt, Sample.shared_built) /\
  own_link Sample.job Sample.shared_built = true /\
  Fingerprint Sample.changed Sample.shared_built (Root Sample.f) = Ok "new" /\
  "new" <> hash Sample.job /\
  Build Sample.changed b Sample.f [Sample.amd64] Sample.shared_built
  = (Err (ErrBuildInProgress "/p/.func/builds/by-hash/new"), Sample.shared_built).
Proof.
  cbv zeta. split; [vm_refl|]. split; [vm_refl|]. split; [reflexivity|].
  split; [discriminate|]. vm_refl.
Qed.

(** ** The link to the last build through a build *)

(** ** What the file operations spare *)

Lemma spares_refl st : spares st st.
Proof. intros q n H _. exact H. Qed.

Lemma ext_spares st st' : ext (Fs.files st) (Fs.files st') -> spares st st'.
Proof. intros He q n H _. now apply He. Qed.

Lemma put_spares st k n :
  (forall x, Fs.lookup (Fs.files st) k = Some x -> exists data, Fs.kind_of x = Fs.Regular data) ->
  spares st (Fs.with_files st (Fs.put k n (Fs.files st))).
Proof.
  intros Hk q x H Hx. cbn [Fs.files Fs.with_files].
  rewrite lookup_put_ne; [exact H|]. intros ->.
  destruct (Hk _ H) as [data E]. now apply Hx in E.
Qed.

Lemma WriteFile_spares st path data mode :
  spares st (snd (Fs.WriteFile st path data mode)).
Proof.
  unfold Fs.WriteFile. destruct (Fs.follow st "open" path) as [k|e].
  - destruct (Fs.lookup (Fs.files st) k) as [[[|old|] p u g]|] eqn:El;
      try apply spares_refl.
    cbn [snd]. apply put_spares. rewrite El. intros x [= <-]. now exists old.
  - destruct (Fs.locate st "open" path) as [k|e']; [|apply spares_refl].
    destruct (Fs.lookup (Fs.files st) k) eqn:El; [apply spares_refl|].
    cbn [snd]. apply put_spares. rewrite El. discriminate.
Qed.

Lemma MkdirAll_spares st path mode : spares st (snd (Fs.MkdirAll st path mode)).
Proof.
  destruct (Fs.MkdirAll st path mode) as [r st'] eqn:E.
  apply MkdirAll_ext in E as [He _]. now apply ext_spares.
Qed.

Lemma Symlink_spares st target path : spares st (snd (Fs.Symlink st target path)).
Proof.
  unfold Fs.Symlink. destruct (Fs.locate st "symlink" path) as [k|[]]; try apply spares_refl.
  destruct (Fs.lookup (Fs.files st) k) eqn:El; [apply spares_refl|].
  cbn [snd]. apply put_spares. rewrite El. discriminate.
Qed.

Lemma Link_spares st old new : spares st (snd (Fs.Link st old new)).
Proof.
  unfold Fs.Link.
  destruct (Fs.locate st "link" old) as [ko|[]], (Fs.locate st "link" new) as [kn|[]];
    try apply spares_refl.
  destruct (Fs.lookup (Fs.files st) ko) as [n|]; [|apply spares_refl].
  destruct (Fs.lookup (Fs.files st) kn) eqn:El; [apply spares_refl|].
  destruct (Fs.kind_of n); try apply spares_refl;
    cbn [snd]; apply put_spares; rewrite El; discriminate.
Qed.

Lemma real_dirs_spared t t' base names :
  (forall q n, Fs.lookup t q = Some n -> Fs.kind_of n = Fs.Directory ->
               Fs.lookup t' q = Some n) ->
  real_dirs t base names = true -> real_dirs t' base names = true.
Proof.
  intros Hs. revert base. induction names as [|x names IH]; intros base H; [reflexivity|].
  simpl in *. apply andb_true_iff in H as [H1 H2]. rewrite IH by exact H2.
  unfold is_dir in *. destruct (Fs.lookup t (base ++ [x])) as [n|] eqn:E; [|discriminate].
  destruct (Fs.kind_of n) eqn:Ek; try discriminate. now rewrite (Hs _ _ E Ek), Ek.
Qed.

(** What a step must leave alone for [last] to stay: the directories
    and the link itself. *)
Lemma keeps_last_from job target st st' :
  keeps_last job target st ->
  (forall q n, Fs.lookup (Fs.files st) q = Some n ->
               Fs.kind_of n = Fs.Directory \/
               q = Path.elements (Root (function job)) ++ [RunDataDir; "builds"; "last"] ->
               Fs.lookup (Fs.files st') q = Some n) ->
  keeps_last job target st'.
Proof.
  intros (HR & Hp & Hb & n & Hl & Hk) Hs.
  split; [exact HR|]. split; [|split].
  - apply (real_dirs_spared (Fs.files st)); [|exact Hp]. intros q x H E. apply Hs; auto.
  - apply (real_dirs_spared (Fs.files st)); [|exact Hb]. intros q x H E. apply Hs; auto.
  - exists n. split; [|exact Hk]. apply Hs; auto.
Qed.

Lemma keeps_last_spares job target st st' :
  keeps_last job target st -> spares st st' -> keeps_last job target st'.
Proof.
  intros H Hs. apply (keeps_last_from _ _ st); [exact H|].
  intros q n Hl [E|E]; apply Hs; try exact Hl; intros data.
  - rewrite E. discriminate.
  - destruct H as (_ & _ & _ & x & Hx & Ex). subst q. rewrite Hl in Hx.
    injection Hx as ->. rewrite Ex. discriminate.
Qed.

(** ** Where an operation writes *)

Lemma locate_final st op path k :
  Fs.locate st op path = Ok k ->
  Fs.directory (Fs.files st) k = true \/ exists d, k = d ++ [final path].
Proof.
  unfold Fs.locate, final. destruct (rev (Path.split path)) as [|name up]; [discriminate|].
  destruct (_ || _).
  - destruct (Fs.follow st op path) as [k0|]; [|discriminate].
    destruct (Fs.directory (Fs.files st) k0) eqn:E; [|discriminate].
    intros [= <-]. now left.
  - destruct (Fs.resolve _ _ _ _) as [|d]; [discriminate|].
    destruct (Fs.directory (Fs.files st) d); [|discriminate].
    intros [= <-]. right. now exists d.
Qed.

Lemma lookup_del_ne t k q : q <> k -> Fs.lookup (Fs.del k t) q = Fs.lookup t q.
Proof.
  intros H. unfold Fs.del. apply lookup_keep. apply negb_true_iff.
  destruct (Fs.keq k q) eqn:E; [|reflexivity]. apply keq_spec in E. congruence.
Qed.

(** [os.Rename] of a file that is not called [last], to a name that is
    not [last]. *)
Lemma Rename_keeps job target st old new :
  final old <> "last" ->
  final new <> "last" ->
  keeps_last job target st ->
  keeps_last job target (snd (Fs.Rename st old new)).
Proof.
  intros Ho Hn H. unfold Fs.Rename.
  destruct (Fs.locate st "rename" old) as [ko|[]] eqn:Eo;
    destruct (Fs.locate st "rename" new) as [kn|[]] eqn:En; try exact H.
  destruct (Fs.lookup (Fs.files st) ko) as [n|] eqn:Elo; [|exact H].
  assert (Fs.kind_of n <> Fs.Directory ->
          Fs.kind_of <$> Fs.lookup (Fs.files st) kn <> Some Fs.Directory ->
          keeps_last job target
            (Fs.with_files st (Fs.put kn n (Fs.del ko (Fs.files st))))) as Hmove.
  { intros Hnd Hkn. apply (keeps_last_from _ _ st); [exact H|].
    intros q x Hl Hx. cbn [Fs.files Fs.with_files].
    assert (q <> kn) as N1.
    { intros ->. destruct Hx as [E|E].
      - rewrite Hl in Hkn. simpl in Hkn. congruence.
      - apply locate_final in En as [Ed|[d Ed]].
        + unfold Fs.directory in Ed. rewrite Hl in Ed. rewrite Hl in Hkn. simpl in Hkn.
          destruct (Fs.kind_of x); congruence.
        + rewrite E, app3 in Ed. apply app_inj_tail in Ed as [_ Ed]. congruence. }
    assert (q <> ko) as N2.
    { intros ->. rewrite Hl in Elo. injection Elo as ->. destruct Hx as [E|E].
      - congruence.
      - apply locate_final in Eo as [Ed|[d Ed]].
        + unfold Fs.directory in Ed. rewrite Hl in Ed.
          destruct (Fs.kind_of n); congruence.
        + rewrite E, app3 in Ed. apply app_inj_tail in Ed as [_ Ed]. congruence. }
    rewrite lookup_put_ne by exact N1. rewrite lookup_del_ne by exact N2. exact Hl. }
  destruct (Fs.kind_of n) eqn:Ek; [exact H| |];
    (destruct (Fs.lookup (Fs.files st) kn) as [y|] eqn:Eln; cbn [fmap option_fmap option_map];
     [destruct (Fs.kind_of y) eqn:Ey; [exact H| |]|];
     cbn [snd]; apply Hmove; try discriminate; simpl; congruence).
Qed.

Lemma real_builds_dir job target st :
  keeps_last job target st ->
  real_dirs (Fs.files st) []
    (Path.elements (Root (function job)) ++ [RunDataDir; "builds"]) = true.
Proof.
  intros (_ & Hp & _). 
  change [RunDataDir; "builds"; "by-pid"] with ([RunDataDir; "builds"] ++ ["by-pid"]) in Hp.
  rewrite app_assoc, real_dirs_app in Hp. now apply andb_true_iff in Hp as [Hp _].
Qed.

(** [os.RemoveAll] of an entry of [by-pid] or of [by-hash]. *)
Lemma RemoveAll_child job target st dir d :
  keeps_last job target st ->
  dir = "by-pid" \/ dir = "by-hash" ->
  Path.plain d = true ->
  keeps_last job target
    (snd (Fs.RemoveAll st (Path.Join [Root (function job); RunDataDir; "builds"; dir; d]))).
Proof.
  intros H Hdir Hd. pose proof H as (HR & Hp & Hb & n & Hl & Hk).
  pose proof (elements_rooted _ HR) as Hes.
  assert (real_dirs (Fs.files st) []
            (Path.elements (Root (function job)) ++ [RunDataDir; "builds"; dir]) = true)
    as Hreal by (destruct Hdir as [->| ->]; assumption).
  assert (Path.plain dir = true) as Hpd by (destruct Hdir as [->| ->]; reflexivity).
  unfold Fs.RemoveAll.
  change [Root (function job); RunDataDir; "builds"; dir; d]
    with (Root (function job) :: [RunDataDir; "builds"; dir] ++ [d]).
  rewrite locate_Join; [|exact HR|now repeat constructor|exact Hd].
  rewrite resolve_real_root;
    [|apply Forall_app; split; [exact Hes|now repeat constructor]|exact Hreal].
  rewrite (real_dirs_directory _ _ Hreal). cbn [snd].
  split; [exact HR|]. cbn [Fs.files Fs.with_files]. split; [|split].
  - apply real_dirs_keep; [|exact Hp]. intros r E. cbn [app] in E.
    rewrite <- !app_assoc in E. apply app_inv_head in E. discriminate E.
  - apply real_dirs_keep; [|exact Hb]. intros r E. cbn [app] in E.
    rewrite <- !app_assoc in E. apply app_inv_head in E. discriminate E.
  - exists n. split; [|exact Hk]. rewrite lookup_keep; [exact Hl|].
    apply outside_true. intros r E. rewrite <- !app_assoc in E.
    apply app_inv_head in E. discriminate E.
Qed.

Lemma locate_last job target st op :
  keeps_last job target st ->
  Fs.locate st op (lastLink job)
  = Ok (Path.elements (Root (function job)) ++ [RunDataDir; "builds"; "last"]).
Proof.
  intros H. pose proof (real_builds_dir _ _ _ H) as HB. destruct H as (HR & _).
  pose proof (elements_rooted _ HR) as Hes.
  unfold lastLink.
  change [RunDataDir; "builds"; "last"] with ([RunDataDir; "builds"] ++ ["last"]).
  rewrite locate_Join; [|exact HR|now repeat constructor|reflexivity].
  rewrite resolve_real_root;
    [|apply Forall_app; split; [exact Hes|now repeat constructor]|exact HB].
  rewrite (real_dirs_directory _ _ HB). now rewrite <- app_assoc.
Qed.

Lemma Readlink_last job target st :
  keeps_last job target st -> Fs.Readlink st (lastLink job) = Ok target.
Proof.
  intros H. unfold Fs.Readlink. rewrite (locate_last _ _ _ _ H).
  destruct H as (_ & _ & _ & n & Hl & Hk). unfold Fs.entry_at. now rewrite Hl, Hk.
Qed.

(** [updateLastLink] under these conditions succeeds, and [last] then
    leads to the build directory of the job by a relative path. *)
Lemma updateLastLink_keeps job target st :
  Path.plain (hash job) = true ->
  keeps_last job target st ->
  exists st',
    updateLastLink job st = (Ok tt, st') /\
    keeps_last job ("by-hash/" +:+ hash job) st'.
Proof.
  intros Hh H. pose proof H as (HR & Hp & Hb & n & Hl & Hk).
  set (L := Path.elements (Root (function job)) ++ [RunDataDir; "builds"; "last"]) in *.
  assert (L <> []) as HL by (subst L; intros E; apply app_eq_nil in E as [_ E]; discriminate E).
  assert (forall names x, length names = 3%nat ->
            forall r, Path.elements (Root (function job)) ++ names <> L ++ x :: r) as Nlong.
  { intros names x Hn r E. subst L. rewrite <- app_assoc in E. apply app_inv_head in E.
    apply (f_equal (@length _)) in E. rewrite Hn in E. simpl in E. lia. }
  set (st1 := Fs.with_files st (Fs.keep (Fs.outside L) (Fs.files st))).
  assert (snd (Fs.RemoveAll st (lastLink job)) = st1) as Hrm.
  { unfold Fs.RemoveAll. now rewrite (locate_last _ _ _ _ H). }
  assert (forall names, names <> [RunDataDir; "builds"; "last"] -> length names = 3%nat ->
            forall r, Path.elements (Root (function job)) ++ names <> L ++ r) as Nother.
  { intros names Hne Hn [|x r] E; [|now apply (Nlong names x Hn r)].
    rewrite app_nil_r in E. subst L. apply app_inv_head in E. contradiction. }
  assert (real_dirs (Fs.files st1) []
            (Path.elements (Root (function job)) ++ [RunDataDir; "builds"; "by-pid"]) = true)
    as Hp1.
  { subst st1. cbn [Fs.files Fs.with_files]. apply real_dirs_keep; [|exact Hp].
    cbn [app]. apply Nother; [discriminate|reflexivity]. }
  assert (real_dirs (Fs.files st1) []
            (Path.elements (Root (function job)) ++ [RunDataDir; "builds"; "by-hash"]) = true)
    as Hb1.
  { subst st1. cbn [Fs.files Fs.with_files]. apply real_dirs_keep; [|exact Hb].
    cbn [app]. apply Nother; [discriminate|reflexivity]. }
  assert (Fs.lookup (Fs.files st1) L = None) as Hnone.
  { rewrite lookup_find by exact HL. subst st1. cbn [Fs.files Fs.with_files].
    apply find_keep_out. unfold Fs.outside.
    rewrite <- (app_nil_r L) at 2. now rewrite below_app. }
  set (link := Fs.created st1 (Fs.SymLink ("by-hash/" +:+ hash job)) 511).
  set (st2 := Fs.with_files st1 (Fs.put L link (Fs.files st1))).
  assert (ext (Fs.files st1) (Fs.files st2)) as He by now apply ext_put.
  exists st2. split.
  - unfold updateLastLink. rewrite Hrm, Rel_last by assumption.
    unfold Fs.Symlink.
    assert (Fs.locate st1 "symlink" (lastLink job) = Ok L) as ->.
    { pose proof (elements_rooted _ HR) as Hes. unfold lastLink.
      change [RunDataDir; "builds"; "last"] with ([RunDataDir; "builds"] ++ ["last"]).
      rewrite locate_Join; [|exact HR|now repeat constructor|reflexivity].
      assert (real_dirs (Fs.files st1) []
                (Path.elements (Root (function job)) ++ [RunDataDir; "builds"]) = true) as HB.
      { change [RunDataDir; "builds"; "by-pid"]
          with ([RunDataDir; "builds"] ++ ["by-pid"]) in Hp1.
        rewrite app_assoc, real_dirs_app in Hp1. now apply andb_true_iff in Hp1 as [Hp1 _]. }
      rewrite resolve_real_root;
        [|apply Forall_app; split; [exact Hes|now repeat constructor]|exact HB].
      rewrite (real_dirs_directory _ _ HB). subst L. now rewrite <- app_assoc. }
    now rewrite Hnone.
  - split; [exact HR|]. split; [|split].
    + exact (real_dirs_ext _ _ _ _ He Hp1).
    + exact (real_dirs_ext _ _ _ _ He Hb1).
    + exists link. split; [|reflexivity]. subst st2. cbn [Fs.files Fs.with_files].
      now apply lookup_put_eq.
Qed.

(** ** The names the builder gives its files *)

Lemma append_String c a b : String c a +:+ b = String c (a +:+ b).
Proof. reflexivity. Qed.

Lemma length_append a b :
  String.length (a +:+ b) = (String.length a + String.length b)%nat.
Proof.
  induction a as [|c a IH]; [reflexivity|]. rewrite append_String. simpl. now rewrite IH.
Qed.

Lemma hd_rev_last {A} (d : A) l : hd d (rev l) = List.last l d.
Proof.
  induction l as [|x l IH] using rev_ind; [reflexivity|].
  rewrite rev_app_distr, last_last. reflexivity.
Qed.

Lemma split_snoc a b :
  Path.split b = [b] ->
  Path.split (a +:+ b)
  = removelast (Path.split a) ++ [List.last (Path.split a) "" +:+ b].
Proof.
  intros Hb. induction a as [|c a IH]; [exact Hb|].
  rewrite append_String. cbn [Path.split]. rewrite IH.
  destruct (Ascii.eqb c Path.Separator).
  - destruct (Path.split a) as [|h t] eqn:E; [now apply split_nonempty in E|]. reflexivity.
  - destruct (Path.split a) as [|h t] eqn:E; [now apply split_nonempty in E|].
    destruct t as [|h' t]; reflexivity.
Qed.

Lemma final_app a b : Path.split b = [b] -> final (a +:+ b) = final a +:+ b.
Proof.
  intros Hb. unfold final. rewrite (split_snoc _ _ Hb), rev_app_distr. simpl.
  now rewrite hd_rev_last.
Qed.

Lemma final_sepfree s : Path.split s = [s] -> final s = s.
Proof. unfold final. now intros ->. Qed.

(** A string that ends in an extension is no special name. *)
Lemma longer_than_last a b s :
  (4 < String.length b)%nat -> (String.length s <= 4)%nat -> a +:+ b <> s.
Proof.
  intros Hb Hs E. apply (f_equal String.length) in E. rewrite length_append in E. lia.
Qed.

Lemma final_Join X y :
  Path.IsAbs X = true ->
  final y <> "" -> final y <> "." -> final y <> ".." ->
  final (Path.Join [X; y]) = final y.
Proof.
  intros HX N1 N2 N3.
  assert (X <> "") as HX' by (intros ->; discriminate).
  unfold Path.Join. destruct (String.eqb X "") eqn:E; [apply String.eqb_eq in E; congruence|].
  change (Path.join [X; y]) with (X +:+ String Path.Separator y).
  unfold Path.Clean, Path.elements. rewrite !IsAbs_app by exact HX'. rewrite HX.
  rewrite split_app_sep.
  assert (exists l, Path.split y = l ++ [final y]) as [l Hl].
  { unfold final. destruct (rev (Path.split y)) as [|z rl] eqn:Er.
    - apply (f_equal (@rev _)) in Er. rewrite rev_involutive in Er.
      now apply split_nonempty in Er.
    - exists (rev rl). apply (f_equal (@rev _)) in Er. rewrite rev_involutive in Er.
      exact Er. }
  assert (Forall (fun n => Path.plain n = true)
            (Path.clean_onto true [] (Path.split X ++ Path.split y))) as Hall.
  { apply clean_onto_rooted; [|constructor].
    apply Forall_app. split; apply sepfree_split. }
  rewrite Hl, app_assoc, clean_onto_app in *.
  set (out := Path.clean_onto true [] (Path.split X ++ l)) in *.
  assert (Path.clean_onto true out [final y] = final y :: out) as Hz.
  { simpl. apply String.eqb_neq in N1, N2, N3. now rewrite N1, N2, N3. }
  rewrite Hz in *. cbn [rev].
  unfold final at 1. rewrite split_print.
  - cbn [rev]. rewrite rev_app_distr. reflexivity.
  - apply Forall_rev in Hall. exact Hall.
  - intros E'. destruct (rev out); discriminate E'.
Qed.

Lemma IsAbs_Join R rest : Path.IsAbs R = true -> Path.IsAbs (Path.Join (R :: rest)) = true.
Proof.
  intros HR. assert (R <> "") as HR' by (intros ->; discriminate).
  unfold Path.Join. fold Path.Join.
  destruct (String.eqb R "") eqn:E; [apply String.eqb_eq in E; congruence|].
  unfold Path.Clean.
  assert (Path.IsAbs (Path.join (R :: rest)) = true) as ->; [|reflexivity].
  destruct rest as [|x rest]; [exact HR|].
  rewrite join_cons by discriminate. now rewrite IsAbs_app.
Qed.

Lemma hex_sepfree s : forallb is_hex (list_ascii_of_string s) = true -> Path.split s = [s].
Proof.
  induction s as [|c s IH]; [reflexivity|]. simpl. intros H.
  apply andb_true_iff in H as [Hc Hs].
  destruct (Ascii.eqb c Path.Separator) eqn:E.
  - apply Ascii.eqb_eq in E. subst c. discriminate Hc.
  - now rewrite (IH Hs).
Qed.

(** The name of a blob: sixty-four digits. *)
Lemma final_Hex msg :
  final (Sha256.Hex msg) = Sha256.Hex msg /\ String.length (Sha256.Hex msg) = 64%nat.
Proof.
  pose proof (Hex_valid msg) as H. unfold valid_hash in H. cbn [Algorithm Hex] in H.
  apply andb_true_iff in H as [H H2]. apply andb_true_iff in H as [_ H1].
  apply Nat.eqb_eq in H1. split; [|exact H1]. now apply final_sepfree, hex_sepfree.
Qed.

Lemma final_blob X msg :
  Path.IsAbs X = true -> final (Path.Join [X; Sha256.Hex msg]) <> "last".
Proof.
  intros HX. destruct (final_Hex msg) as [Hf Hl].
  assert (forall s, (String.length s <= 4)%nat -> Sha256.Hex msg <> s) as Hne.
  { intros s Hs E. rewrite E in Hl. lia. }
  rewrite final_Join; rewrite ?Hf; try exact HX; apply Hne; simpl; lia.
Qed.

(** A name with an extension of more than three letters. *)
Lemma final_named X a b :
  Path.IsAbs X = true -> Path.split b = [b] -> (4 < String.length b)%nat ->
  final (Path.Join [X; a +:+ b]) <> "last".
Proof.
  intros HX Hb Hl.
  assert (forall s, (String.length s <= 4)%nat -> final (a +:+ b) <> s) as Hne.
  { intros s Hs. rewrite final_app by exact Hb. now apply longer_than_last. }
  rewrite final_Join; try exact HX; apply Hne; simpl; lia.
Qed.

(** ** Steps that keep a property of the machine *)

Lemma hoare_bind {A B} (P : Fs.sys -> Prop) (m : M A) (k : A -> M B) Q R :
  hoare P m Q -> (forall a, Q a -> hoare P (k a) R) -> hoare P (bind m k) R.
Proof.
  intros Hm Hk s Hs. unfold bind. destruct (Hm s Hs) as [H1 H2].
  destruct (m s) as [[a|e] s']; simpl in *.
  - apply Hk; auto.
  - split; [exact H1|discriminate].
Qed.

Lemma hoare_weaken {A} (P : Fs.sys -> Prop) (m : M A) (Q Q' : A -> Prop) :
  hoare P m Q -> (forall a, Q a -> Q' a) -> hoare P m Q'.
Proof. intros Hm Hq s Hs. destruct (Hm s Hs) as [H1 H2]. split; auto. Qed.

Lemma hoare_ret {A} (P : Fs.sys -> Prop) (a : A) (Q : A -> Prop) : Q a -> hoare P (ret a) Q.
Proof. intros H s Hs. split; [exact Hs|]. simpl. now intros ? [= <-]. Qed.

Lemma hoare_lift {A} (P : Fs.sys -> Prop) (r : result A) (Q : A -> Prop) :
  (forall a, r = Ok a -> Q a) -> hoare P (lift r) Q.
Proof. intros H s Hs. split; [exact Hs|]. simpl. exact H. Qed.

Lemma hoare_read {A} (P : Fs.sys -> Prop) (f : Fs.sys -> result A) (Q : A -> Prop) :
  (forall s a, f s = Ok a -> Q a) -> hoare P (read f) Q.
Proof. intros H s Hs. split; [exact Hs|]. simpl. apply H. Qed.

Lemma hoare_state {A} (P : Fs.sys -> Prop) (m : M A) :
  (forall s, P s -> P (snd (m s))) -> hoare P m (fun _ => True).
Proof. intros H s Hs. split; auto. Qed.

Lemma hoare_wrap {A} (P : Fs.sys -> Prop) msg (m : M A) Q : hoare P m Q -> hoare P (wrap msg m) Q.
Proof.
  intros H s Hs. destruct (H s Hs) as [H1 H2]. unfold wrap.
  destruct (m s) as [[a|e] s']; simpl in *; split; auto; discriminate.
Qed.

Lemma written_state w target out st :
  snd (written w target out st) = snd (Fs.WriteFile st target (targz w (snd out)) 438).
Proof.
  unfold written. destruct (Fs.WriteFile st target _ 438) as [[[]|e] st']; [|reflexivity].
  now destruct (fst out).
Qed.

Section Keeps.

Variables (w : World) (job : buildJob) (target : string).
Hypothesis plain_hash : Path.plain (hash job) = true.

Lemma rooted_job : forall s, (keeps_last job target) s -> Path.IsAbs (Root (function job)) = true.
Proof. now intros s (HR & _). Qed.

Lemma keeps_spared {A} (m : M A) :
  (forall s, spares s (snd (m s))) -> hoare (keeps_last job target) m (fun _ => True).
Proof. intros H. apply hoare_state. intros s Hs. now apply (keeps_last_spares _ _ s). Qed.

Lemma keeps_WriteFile path data mode :
  hoare (keeps_last job target) (fun st => Fs.WriteFile st path data mode) (fun _ => True).
Proof. apply keeps_spared. intros s. apply WriteFile_spares. Qed.

Lemma keeps_MkdirAll path mode : hoare (keeps_last job target) (fun st => Fs.MkdirAll st path mode) (fun _ => True).
Proof. apply keeps_spared. intros s. apply MkdirAll_spares. Qed.

Lemma keeps_written tarball (out : Fs.sys -> option error * tarWriter) :
  hoare (keeps_last job target) (fun st => written w tarball (out st) st) (fun _ => True).
Proof.
  apply keeps_spared. intros s. rewrite written_state. apply WriteFile_spares.
Qed.

Lemma keeps_Rename old new :
  (forall s, (keeps_last job target) s -> final old <> "last" /\ final new <> "last") ->
  hoare (keeps_last job target) (fun st => Fs.Rename st old new) (fun _ => True).
Proof.
  intros H. apply hoare_state. intros s Hs. destruct (H s Hs). now apply Rename_keeps.
Qed.

Lemma keeps_LayerFromFile path : hoare (keeps_last job target) (LayerFromFile w path) hashed.
Proof.
  unfold LayerFromFile. eapply hoare_bind; [apply hoare_read; intros; exact I|].
  intros data _. destruct (String.prefix gzip_magic data).
  - eapply hoare_bind; [apply hoare_lift; intros; exact I|].
    intros plain _. apply hoare_ret. now exists data.
  - apply hoare_ret. eexists. reflexivity.
Qed.

Lemma newDescriptor_hashed l desc :
  hashed l -> newDescriptor l = Ok desc -> exists msg, Hex (Digest desc) = Sha256.Hex msg.
Proof.
  intros [msg H]. unfold newDescriptor. rewrite H.
  destruct (L_Size l); [|discriminate]. intros [= <-]. now exists msg.
Qed.

Lemma rooted_buildDir s : (keeps_last job target) s -> Path.IsAbs (buildDir job) = true.
Proof. intros H. unfold buildDir. apply IsAbs_Join. now apply (rooted_job s). Qed.

Lemma rooted_blobsDir s : (keeps_last job target) s -> Path.IsAbs (blobsDir job) = true.
Proof. intros H. unfold blobsDir. apply IsAbs_Join. now apply (rooted_job s). Qed.

(** A tarball in the build directory becomes a blob. *)
Lemma keeps_blob_Rename a b msg :
  Path.split b = [b] -> (4 < String.length b)%nat ->
  hoare (keeps_last job target) (fun st => Fs.Rename st (Path.Join [buildDir job; a +:+ b])
                              (Path.Join [blobsDir job; Sha256.Hex msg]))
        (fun _ => True).
Proof.
  intros Hb Hl. apply keeps_Rename. intros s Hs. split.
  - apply final_named; [now apply (rooted_buildDir s)|exact Hb|exact Hl].
  - apply final_blob. now apply (rooted_blobsDir s).
Qed.

Lemma keeps_newDataTarball root tarball ignored :
  hoare (keeps_last job target) (newDataTarball w root tarball ignored) (fun _ => True).
Proof.
  unfold newDataTarball. eapply hoare_bind; [apply keeps_WriteFile|].
  intros _ _. apply (keeps_written tarball (fun st => Walk st root (walkFn st root ignored) [])).
Qed.

Lemma keeps_writeDataLayer : hoare (keeps_last job target) (writeDataLayer w job) (fun _ => True).
Proof.
  unfold writeDataLayer. eapply hoare_bind; [apply keeps_newDataTarball|].
  intros _ _. eapply hoare_bind; [apply keeps_LayerFromFile|].
  intros layer Hl. eapply hoare_bind; [apply hoare_lift; intros desc H; exact H|].
  intros desc Hd. cbv beta in Hd. destruct (newDescriptor_hashed _ _ Hl Hd) as [msg ->].
  eapply hoare_bind.
  - apply (keeps_blob_Rename "datalayer" ".tar.gz" msg); [reflexivity|simpl; lia].
  - intros _ _. now apply hoare_ret.
Qed.

Lemma keeps_newCertsTarball source tarball :
  hoare (keeps_last job target) (newCertsTarball w source tarball) (fun _ => True).
Proof.
  unfold newCertsTarball. eapply hoare_bind; [apply keeps_WriteFile|].
  intros _ _. apply keeps_spared. intros s.
  destruct (Fs.Stat s source); rewrite written_state; apply WriteFile_spares.
Qed.

Lemma keeps_writeCertsLayer : hoare (keeps_last job target) (writeCertsLayer w job) (fun _ => True).
Proof.
  unfold writeCertsLayer. eapply hoare_bind; [apply keeps_newCertsTarball|].
  intros _ _. eapply hoare_bind; [apply keeps_LayerFromFile|].
  intros layer Hl. eapply hoare_bind; [apply hoare_lift; intros desc H; exact H|].
  intros desc Hd. cbv beta in Hd. destruct (newDescriptor_hashed _ _ Hl Hd) as [msg ->].
  eapply hoare_bind.
  - apply (keeps_blob_Rename "certslayer" ".tar.gz" msg); [reflexivity|simpl; lia].
  - intros _ _. now apply hoare_ret.
Qed.

Lemma keeps_ensureCached layer : hoare (keeps_last job target) (ensureCached job layer) (fun _ => True).
Proof.
  unfold ensureCached. eapply hoare_bind; [apply hoare_lift; intros; exact I|].
  intros digest _. apply keeps_spared. intros s.
  destruct (Fs.Stat s _); [apply spares_refl|].
  destruct (negb _); [apply spares_refl|].
  destruct (L_Compressed layer) as [[bytes ended]|]; [|apply spares_refl].
  pose proof (WriteFile_spares s (Path.Join [cacheDir job; Hex digest]) "" 438) as H1.
  destruct (Fs.WriteFile s _ "" 438) as [[[]|e1] s1]; [|exact H1].
  pose proof (WriteFile_spares s1 (Path.Join [cacheDir job; Hex digest]) bytes 438) as H2.
  destruct (Fs.WriteFile s1 _ bytes 438) as [[[]|e2] s2]; cbn [snd] in *.
  - destruct ended; intros q n Hq Hn; apply H2; auto.
  - intros q n Hq Hn; apply H2; auto.
Qed.

Lemma keeps_writeBaseLayer layer : hoare (keeps_last job target) (writeBaseLayer job layer) (fun _ => True).
Proof.
  unfold writeBaseLayer. eapply hoare_bind; [apply keeps_ensureCached|].
  intros _ _. eapply hoare_bind; [apply hoare_lift; intros; exact I|].
  intros digest _. apply keeps_spared. intros s.
  destruct (negb _); [apply spares_refl|].
  pose proof (Link_spares s (Path.Join [cacheDir job; Hex digest])
                (Path.Join [blobsDir job; Hex digest])) as H.
  destruct (Fs.Link s _ _) as [[[]|e] s']; exact H.
Qed.

Lemma keeps_writeBaseLayers layers : hoare (keeps_last job target) (writeBaseLayers job layers) (fun _ => True).
Proof.
  induction layers as [|layer rest IH]; cbn [writeBaseLayers]; [now apply hoare_ret|].
  eapply hoare_bind; [apply keeps_writeBaseLayer|]. intros _ _. exact IH.
Qed.

Lemma keeps_pullBase lb p : hoare (keeps_last job target) (pullBase w lb job p) (fun _ => True).
Proof.
  unfold pullBase. destruct (String.eqb _ ""); [now apply hoare_ret|].
  eapply hoare_bind; [apply hoare_lift; intros; exact I|]. intros image _.
  eapply hoare_bind; [apply hoare_lift; intros; exact I|]. intros layers _.
  apply hoare_state. intros s Hs.
  destruct (keeps_writeBaseLayers layers s Hs) as [H _].
  destruct (writeBaseLayers job layers s) as [[[]|e] s']; exact H.
Qed.

Lemma append_assoc a b c : (a +:+ b) +:+ c = a +:+ (b +:+ c).
Proof.
  induction a as [|x a IH]; [reflexivity|]. rewrite !append_String. now rewrite IH.
Qed.

Lemma keeps_writeAsJSONBlob a b data :
  Path.split b = [b] -> (4 < String.length b)%nat ->
  hoare (keeps_last job target) (writeAsJSONBlob w job (a +:+ b) data) (fun _ => True).
Proof.
  intros Hb Hl. unfold writeAsJSONBlob. eapply hoare_bind; [apply keeps_WriteFile|].
  intros _ _. eapply hoare_bind; [apply hoare_lift; intros; exact I|]. intros bytes _.
  eapply hoare_bind; [apply keeps_WriteFile|]. intros _ _.
  eapply hoare_bind; [now apply (keeps_blob_Rename a b bytes)|].
  intros _ _. now apply hoare_ret.
Qed.

Lemma keeps_writeConfig cf : hoare (keeps_last job target) (writeConfig w job cf) (fun _ => True).
Proof.
  unfold writeConfig. eapply hoare_bind.
  - apply (keeps_writeAsJSONBlob "config" ".json"); [reflexivity|simpl; lia].
  - intros d _. now apply hoare_ret.
Qed.

Lemma keeps_writeManifest p base configDesc layers :
  hoare (keeps_last job target) (writeManifest w job p base configDesc layers) (fun _ => True).
Proof.
  unfold writeManifest. eapply hoare_bind; [apply hoare_lift; intros; exact I|].
  intros manifest _. eapply hoare_bind.
  - replace ("manifest." +:+ OS p +:+ "." +:+ Architecture p +:+ ".json")
      with (("manifest." +:+ OS p +:+ "." +:+ Architecture p) +:+ ".json")
      by (now rewrite !append_assoc).
    apply keeps_writeAsJSONBlob; [reflexivity|simpl; lia].
  - intros d _. now apply hoare_ret.
Qed.

Lemma keeps_writeIndex manifests : hoare (keeps_last job target) (writeIndex w job manifests) (fun _ => True).
Proof.
  unfold writeIndex. eapply hoare_bind; [apply keeps_WriteFile|].
  intros _ _. eapply hoare_bind; [apply hoare_lift; intros; exact I|]. intros bytes _.
  apply keeps_WriteFile.
Qed.

(** The plugin for Go keeps it when the toolchain does. *)
Lemma keeps_go_WritePlatform p :
  (forall gobin args envs dir s, (keeps_last job target) s -> (keeps_last job target) (snd (go_run w gobin args envs dir s))) ->
  hoare (keeps_last job target) (go_WritePlatform w job p) (fun _ => True).
Proof.
  intros Hrun. unfold go_WritePlatform. eapply hoare_bind.
  { unfold goBuild. destruct (goBuildCmd w p job) as [[gobin args] outpath].
    eapply hoare_bind; [apply hoare_wrap, hoare_state; intros s Hs; now apply Hrun|].
    intros _ _. eapply hoare_bind; [apply hoare_wrap, hoare_state; intros s Hs; now apply Hrun|].
    intros _ _. apply hoare_ret. exact I. }
  intros exe _. eapply hoare_bind.
  { unfold goExeTarball. eapply hoare_bind; [apply keeps_WriteFile|].
    intros _ _. apply keeps_spared. intros s.
    destruct (Fs.Stat s exe); [|rewrite written_state; apply WriteFile_spares].
    destruct (FileInfoHeader _ _); [|rewrite written_state; apply WriteFile_spares].
    destruct (Fs.ReadFile s exe); rewrite written_state; apply WriteFile_spares. }
  intros _ _. eapply hoare_bind; [apply keeps_LayerFromFile|].
  intros layer Hl. eapply hoare_bind; [apply hoare_lift; intros desc H; exact H|].
  intros desc Hd. cbv beta in Hd. destruct (newDescriptor_hashed _ _ Hl Hd) as [msg Hm].
  cbn [with_Platform Digest]. rewrite Hm.
  eapply hoare_bind.
  - apply hoare_wrap.
    replace ("execlayer." +:+ OS p +:+ "." +:+ Architecture p +:+ ".tar.gz")
      with (("execlayer." +:+ OS p +:+ "." +:+ Architecture p) +:+ ".tar.gz")
      by (now rewrite !append_assoc).
    apply keeps_blob_Rename; [reflexivity|simpl; lia].
  - intros _ _. now apply hoare_ret.
Qed.

Variable lb : languageBuilder.
Hypothesis keeps_shared : forall s, (keeps_last job target) s -> (keeps_last job target) (snd (WriteShared lb job s)).
Hypothesis keeps_platform :
  forall p s, In p (platforms job) -> (keeps_last job target) s -> (keeps_last job target) (snd (WritePlatform lb job p s)).

Lemma keeps_containerizePlatform shared p :
  In p (platforms job) ->
  hoare (keeps_last job target) (containerizePlatform w lb job shared p) (fun _ => True).
Proof using keeps_platform.
  intros Hp. unfold containerizePlatform.
  eapply hoare_bind; [apply hoare_state; intros s Hs; now apply keeps_platform|].
  intros specific _. eapply hoare_bind; [apply keeps_pullBase|]. intros base _.
  eapply hoare_bind; [apply hoare_read; intros; exact I|]. intros cf _.
  eapply hoare_bind; [apply hoare_lift; intros; exact I|]. intros cf' _.
  eapply hoare_bind; [apply keeps_writeConfig|]. intros config _.
  eapply hoare_bind; [apply keeps_writeManifest|]. intros written _.
  now apply hoare_ret.
Qed.

Lemma keeps_containerizePlatforms shared pp :
  (forall p, In p pp -> In p (platforms job)) ->
  hoare (keeps_last job target) (containerizePlatforms w lb job shared pp) (fun _ => True).
Proof using keeps_platform.
  induction pp as [|p pp IH]; intros Hpp; cbn [containerizePlatforms];
    [now apply hoare_ret|].
  eapply hoare_bind; [apply keeps_containerizePlatform; apply Hpp; now left|].
  intros image _. eapply hoare_bind; [apply IH; intros q Hq; apply Hpp; now right|].
  intros images _. now apply hoare_ret.
Qed.

Lemma keeps_containerize : hoare (keeps_last job target) (containerize w lb job) (fun _ => True).
Proof using keeps_shared keeps_platform.
  unfold containerize. eapply hoare_bind; [apply keeps_WriteFile|]. intros _ _.
  eapply hoare_bind; [apply keeps_writeDataLayer|]. intros data _.
  eapply hoare_bind; [apply keeps_writeCertsLayer|]. intros certs _.
  eapply hoare_bind; [apply hoare_state; exact keeps_shared|]. intros shared _.
  eapply hoare_bind; [apply keeps_containerizePlatforms; auto|]. intros images _.
  eapply hoare_bind; [apply keeps_writeIndex|]. intros _ _.
  now apply hoare_ret.
Qed.

Lemma keeps_setup : hoare (keeps_last job target) (setup job) (fun _ => True).
Proof using plain_hash.
  apply hoare_state. intros s Hs. unfold setup.
  destruct (isActive job s); [exact Hs|].
  assert (hoare (keeps_last job target)
    (_ <- (fun st =>
             if negb (IsNotExist (Fs.Stat st (buildDir job)))
             then Fs.RemoveAll st (buildDir job)
             else (Ok tt, st)) ;;
     _ <- (fun st => Fs.MkdirAll st (buildDir job) 508) ;;
     _ <- (fun st =>
             if IsNotExist (Fs.Stat st (pidsDir job))
             then Fs.MkdirAll st (pidsDir job) 508
             else (Ok tt, st)) ;;
     _ <- (fun st => Fs.Symlink st (Path.Join [".."; "by-hash"; hash job]) (pidLink job st)) ;;
     _ <- (fun st => Fs.MkdirAll st (blobsDir job) 511) ;;
     _ <- (fun st => Fs.MkdirAll st (cacheDir job) 511) ;;
     ret tt) (fun _ => True)) as H; [|now apply H].
  eapply hoare_bind.
  { apply hoare_state. intros s0 Hs0. destruct (negb _); [|exact Hs0].
    unfold buildDir. apply RemoveAll_child; [exact Hs0|now right|exact plain_hash]. }
  intros _ _. eapply hoare_bind; [apply keeps_MkdirAll|]. intros _ _.
  eapply hoare_bind.
  { apply keeps_spared. intros s0. destruct (IsNotExist _); [apply MkdirAll_spares|].
    apply spares_refl. }
  intros _ _. eapply hoare_bind; [apply keeps_spared; intros s0; apply Symlink_spares|].
  intros _ _. eapply hoare_bind; [apply keeps_MkdirAll|]. intros _ _.
  eapply hoare_bind; [apply keeps_MkdirAll|]. intros _ _. now apply hoare_ret.
Qed.

Lemma keeps_cleanup_pids dd s :
  Forall (fun n => Path.plain n = true) dd -> (keeps_last job target) s -> (keeps_last job target) (cleanup_pids job dd s).
Proof.
  intros Hdd. revert s. induction Hdd as [|d dd Hd _ IH]; intros s Hs; [exact Hs|].
  cbn [cleanup_pids]. destruct (processExists s d); [now apply IH|].
  apply IH. unfold pidsDir.
  rewrite Join_snoc; [|now apply (rooted_job s)|now repeat constructor|exact Hd].
  apply RemoveAll_child; [exact Hs|now left|exact Hd].
Qed.

Lemma keeps_cleanup_builds dd s :
  Forall (fun n => Path.plain n = true) dd -> (keeps_last job target) s -> (keeps_last job target) (cleanup_builds job dd s).
Proof.
  intros Hdd. revert s. induction Hdd as [|d dd Hd _ IH]; intros s Hs; [exact Hs|].
  cbn [cleanup_builds]. destruct (isLinkTo s _ _); [now apply IH|].
  destruct (isActive job s); [now apply IH|].
  apply IH. unfold buildsDir.
  rewrite Join_snoc; [|now apply (rooted_job s)|now repeat constructor|exact Hd].
  apply RemoveAll_child; [exact Hs|now right|exact Hd].
Qed.

Lemma keeps_cleanup s : (keeps_last job target) s -> (keeps_last job target) (cleanup job s).
Proof.
  intros Hs. unfold cleanup. apply keeps_cleanup_builds; [apply entries_plain|].
  apply keeps_cleanup_pids; [apply entries_plain|exact Hs].
Qed.

End Keeps.

Lemma bind_fail {A B} (m : M A) (k : A -> M B) st e st' :
  m st = (Err e, st') -> bind m k st = (Err e, st').
Proof. unfold bind. now intros ->. Qed.



(** The toolchain of the sample makes a directory and writes a file. *)
Lemma toolchain_spares gobin args envs dir s :
  spares s (snd (Sample.toolchain gobin args envs dir s)).
Proof.
  assert (forall out,
            spares s (snd (((fun st => Fs.MkdirAll st (Path.Join [dir; "result"]) 493) ;;;
                            (fun st => Fs.WriteFile st (Path.Join [dir; out])
                                                    ("ELF " +:+ out) 493)) s))) as H.
  { intros out. unfold bind.
    pose proof (MkdirAll_spares s (Path.Join [dir; "result"]) 493) as H1.
    destruct (Fs.MkdirAll s _ 493) as [[[]|e] s1]; [|exact H1]. cbn [snd] in H1.
    pose proof (WriteFile_spares s1 (Path.Join [dir; out]) ("ELF " +:+ out) 493) as H2.
    intros q n Hq Hn. apply H2; auto. }
  unfold Sample.toolchain.
  repeat match goal with
         | |- context [match ?x with _ => _ end] => destruct x
         end; try apply spares_refl; apply H.
Qed.


(** ** The options of the build command *)

(** [buildOptions] asks for no platform when the flag is empty.  It
    accepts a flag with exactly one separator, anything or nothing on
    either side of it, and then asks for the one platform whose OS and
    architecture are the two sides, without a variant; any other flag
    is an error. *)
Theorem buildOptions_platform c :
  (BC_Platform c = "" -> buildOptions c = Ok []) /\
  (forall oo,
      BC_Platform c <> "" ->
      (buildOptions c = Ok oo <->
       exists os arch,
         sepfree os /\ sepfree arch /\
         BC_Platform c = os +:+ "/" +:+ arch /\
         oo = [BuildWithPlatforms
                 [ {| fnOS := os; fnArchitecture := arch; fnVariant := "" |} ]])).
Proof.
  unfold buildOptions. split.
  - intros ->. reflexivity.
  - intros oo Hne. apply String.eqb_neq in Hne. rewrite Hne. cbn [negb].
    pose proof (join_split (BC_Platform c)) as Hj.
    pose proof (sepfree_split (BC_Platform c)) as Hs.
    split.
    + destruct (Path.split (BC_Platform c)) as [|os [|arch [|x rest]]]; try discriminate.
      intros [= <-]. exists os, arch.
      apply Forall_cons in Hs as [H1 Hs]. apply Forall_cons in Hs as [H2 _].
      simpl in Hj. auto.
    + intros (os & arch & H1 & H2 & Heq & ->).
      change (os +:+ "/" +:+ arch) with (os +:+ String Path.Separator arch) in Heq.
      rewrite Heq, split_app_sep. unfold sepfree in H1, H2. rewrite H1, H2. reflexivity.
Qed.

(** A lone separator passes for a platform without OS or
    architecture; a third element does not pass. *)
Example buildOptions_edges :
  let c platform :=
    {| BC_Builder := "host"; BC_Confirm := false; BC_Registry := ""; BC_Verbose := false;
       BC_RegistryInsecure := false; BC_BuilderImage := ""; BC_Image := "";
       BC_BaseImage := ""; BC_Path := "."; BC_Platform := platform; BC_Push := false;
       BC_Username := ""; BC_Password := ""; BC_Token := ""; BC_WithTimestamp := false |} in
  buildOptions (c "/")
  = Ok [BuildWithPlatforms [ {| fnOS := ""; fnArchitecture := ""; fnVariant := "" |} ]] /\
  exists e, buildOptions (c "linux/arm/v7") = Err e.
Proof. split; [reflexivity|]. eexists. reflexivity. Qed.
